(** * generate_report.py: task time distribution and aggregation

    A shallow embedding of the pure core of [generate_report.py]
    (preprocessing of the epic table, the relational merge, the date
    normalizer, the daily allocation expander and the two calendar
    aggregators), followed by the properties the specification states
    about them.

    Modelling choices.
    - A [pd.Timestamp] that holds a calendar day is the number of days
      since 1970-01-01 (a Thursday), an integer of [Z].
    - Hours are exact rationals ([Q]) in the tables; equality of hour
      sums is [Qeq]. The program computes them in binary64: the
      arithmetic of the expander is also given for any type of numbers
      ([hours_of_row]), with the primitive floats as the instance that
      the program runs, and statements on sums of hours are made on the
      hours that are added, not on the rounded sum.
    - Texts are [string]s, which hold the ASCII digits among the
      decimal digits of Unicode; the scanner and the exploder of
      [preprocess_epics] are also given over any alphabet.
    - A calendar series keeps its key columns under their keys; the
      labels that [reset_index] and [rename] give the returned frame
      are computed from it by [frame_labels].
    - A pandas DataFrame is a list of row records together with its
      column labels; a missing value (NaN / None / NaT) is [None].
    - The pandas operations the source calls ([pd.merge] with
      [validate="m:1"], [groupby(...).agg], [pivot], [fillna],
      [reindex], [date_range], [Series.str.findall], [explode],
      [astype(int)]) are written out as list functions with the
      library's documented behaviour, errors as an [Err] result. *)

From Stdlib Require Import ZArith QArith List String Ascii Bool Lia FinFun Permutation.
From Stdlib Require Import Floats Uint63.
Import ListNotations.

Local Open Scope string_scope.
Local Open Scope Z_scope.

(** ** Results of fallible operations *)

Inductive error : Type :=
| MergeError          (* pandas.errors.MergeError: merge keys not unique *)
| KeyError            (* a column label that the frame does not have *)
| ValueError          (* date_range on NaT *)
| IntCastingNaNError  (* astype(int) on a missing value *)
| OverflowError.      (* astype(int) outside int64 *)

Inductive result (A : Type) : Type :=
| Ok (a : A)
| Err (e : error).
Arguments Ok {A} a.
Arguments Err {A} e.

Definition bind {A B : Type} (r : result A) (k : A -> result B) : result B :=
  match r with
  | Ok a => k a
  | Err e => Err e
  end.

Notation "x <- r ;; k" := (bind r (fun x => k))
  (at level 61, r at next level, right associativity).

(** ** Calendar dates *)

Definition Timestamp : Type := Z.

(** Day number of the civil date [y]-[m]-[d] (proleptic Gregorian). *)
Definition days_from_civil (y m d : Z) : Z :=
  let y' := if m <=? 2 then y - 1 else y in
  let era := y' / 400 in
  let yoe := y' - era * 400 in
  let mp := if m >? 2 then m - 3 else m + 9 in
  let doy := (153 * mp + 2) / 5 + d - 1 in
  let doe := yoe * 365 + yoe / 4 - yoe / 100 + doy in
  era * 146097 + doe - 719468.

(** [Timestamp.weekday()]: Monday is 0 and Sunday is 6. *)
Definition weekday (date : Timestamp) : Z := (date + 3) mod 7.

Definition Timedelta (days : Z) : Z := days.

(** ** Decimal strings *)

Definition is_digit (c : ascii) : bool :=
  let n := nat_of_ascii c in (48 <=? n)%nat && (n <=? 57)%nat.

Definition digit_value (c : ascii) : Z := Z.of_nat (nat_of_ascii c) - 48.

(** [int(s)] for a string of decimal digits, most significant first. *)
Fixpoint int_of_digits (acc : Z) (s : string) : Z :=
  match s with
  | EmptyString => acc
  | String c s' => int_of_digits (10 * acc + digit_value c) s'
  end.

Fixpoint all_digits (s : string) : bool :=
  match s with
  | EmptyString => true
  | String c s' => is_digit c && all_digits s'
  end.

Fixpoint split (sep : ascii) (s : string) : list string :=
  match s with
  | EmptyString => [EmptyString]
  | String c s' =>
      if Ascii.eqb c sep then EmptyString :: split sep s'
      else match split sep s' with
           | [] => [String c EmptyString]
           | w :: ws => String c w :: ws
           end
  end.

(** [pd.to_datetime] on the ["YYYY/MM/DD"] literals of the holiday list. *)
Definition to_datetime (s : string) : option Timestamp :=
  match split "/" s with
  | [y; m; d] =>
      if all_digits y && all_digits m && all_digits d
      then Some (days_from_civil (int_of_digits 0 y) (int_of_digits 0 m) (int_of_digits 0 d))
      else None
  | _ => None
  end.

(** ** get_holiday_list *)

Definition holiday_strings : list string :=
  [ "2024/01/01"; "2024/02/12"; "2024/02/26"; "2024/04/08"; "2024/04/15";
    "2024/04/16"; "2024/05/01"; "2024/05/06"; "2024/05/22"; "2024/06/03";
    "2024/07/22"; "2024/07/29"; "2024/08/12"; "2024/10/14"; "2024/10/23";
    "2024/12/05"; "2024/12/10"; "2024/12/31" ].

Definition get_holiday_list : list Timestamp :=
  flat_map (fun date => match to_datetime date with
                        | Some t => [t]
                        | None => []
                        end) holiday_strings.

(** ** validate_start_date_end_date *)

(** [date.weekday() in [5, 6]] *)
Definition is_weekend (date : Timestamp) : bool :=
  (weekday date =? 5) || (weekday date =? 6).

(** [date in holiday_list] *)
Definition mem (date : Timestamp) (holiday_list : list Timestamp) : bool :=
  existsb (Z.eqb date) holiday_list.

(** The [while date in holiday_list] loop, as a big-step relation ... *)
Inductive holiday_loop (holiday_list : list Timestamp) : Timestamp -> Timestamp -> Prop :=
| holiday_loop_exit : forall date,
    mem date holiday_list = false -> holiday_loop holiday_list date date
| holiday_loop_step : forall date r,
    mem date holiday_list = true ->
    holiday_loop holiday_list (date + Timedelta 1) r ->
    holiday_loop holiday_list date r.

(** ... and as a function: at most [fuel] iterations. *)
Fixpoint skip_holidays (fuel : nat) (date : Timestamp) (holiday_list : list Timestamp) : Timestamp :=
  match fuel with
  | O => date
  | S fuel' =>
      if mem date holiday_list
      then skip_holidays fuel' (date + Timedelta 1) holiday_list
      else date
  end.

(** The holidays that are not before [date]: those the loop can still
    meet. *)
Definition later_holidays (holiday_list : list Timestamp) (date : Timestamp) : nat :=
  List.length (filter (fun h => date <=? h) holiday_list).

(** Every iteration leaves one more holiday behind, so [length
    holiday_list] iterations are enough (see [skip_holidays_runs]). *)
Definition validate_start_date_end_date (date : Timestamp) (holiday_list : list Timestamp) : Timestamp :=
  let date := if is_weekend date then date + Timedelta (7 - weekday date) else date in
  skip_holidays (List.length holiday_list) date holiday_list.

(** ** pd.date_range and get_work_day *)

(** [pd.date_range(start, end)]: every day from [start] to [end_]
    inclusive, empty when [end_] is before [start]. *)
Definition date_range (start end_ : Timestamp) : list Timestamp :=
  map (fun i => start + Z.of_nat i) (seq 0 (Z.to_nat (end_ - start + 1))).

Definition get_work_day (start_date end_date : Timestamp) (holiday_list : list Timestamp) : Z :=
  let work_day :=
    fold_left (fun work_day date =>
                 if mem date holiday_list then work_day
                 else if is_weekend date then work_day
                 else work_day + 1)
              (date_range start_date end_date) 0 in
  if work_day =? 0 then 1 else work_day.

(** The glossary's working day: neither Saturday/Sunday nor a holiday. *)
Definition is_working_day (holiday_list : list Timestamp) (date : Timestamp) : bool :=
  negb (is_weekend date) && negb (mem date holiday_list).

Definition working_day_count (holiday_list : list Timestamp) (start end_ : Timestamp) : Z :=
  Z.of_nat (List.length (filter (is_working_day holiday_list) (date_range start end_))).

(** ** The tables *)

(** A row of [tasks.csv] after [preprocess_tasks] (the columns the
    pipeline reads). *)
Record task : Type := {
  task_id : Z;
  userstory_id : Z;
  assigned_to : option string;
  start_date : Timestamp;
  end_date : Timestamp;
  actual_time : Q
}.

(** A row of [userstories.csv] after [preprocess_userstories]. *)
Record userstory : Type := {
  us_userstory_id : Z;
  us_subject : string
}.

(** A row of [epics.csv] as read. *)
Record epic_raw : Type := {
  ref : Z;
  related_user_stories : option string;
  subject : string
}.

(** A row of the exploded epic table that [preprocess_epics] returns. *)
Record epic : Type := {
  epic_id : Z;
  ep_userstory_id : Z;
  ep_epic_name : string
}.

(** A row of the merged table: the task's columns, then the columns of
    the user story and of the epic it was joined with, all null when the
    left join found no partner. *)
Record merged_row : Type := {
  row_task : task;
  row_userstory : option userstory;
  row_epic : option epic
}.

(** [row["epic_name"]] and [row["assigned_to_task"]] *)
Definition row_epic_name (row : merged_row) : option string :=
  option_map ep_epic_name (row_epic row).

Definition row_assigned_to_task (row : merged_row) : option string :=
  assigned_to (row_task row).

(** One dictionary appended to [task_daily_list]. *)
Record task_daily : Type := {
  date : Timestamp;
  assignee : option string;
  epic_name : option string;
  daily_task_id : Z;
  hour : Q
}.

(** ** preprocess_epics *)

(** [re.findall(r"#(\d+)", s)]: scan left to right; [cur] is [Some ds]
    while a match is open, that is after a ['#'] followed by the digits
    [ds] read so far. A match is closed by the first non-digit and is
    kept when it has at least one digit. *)
Definition close_match (cur : option string) : list string :=
  match cur with
  | Some (String c ds) => [String c ds]
  | _ => []
  end.

Fixpoint findall_from (cur : option string) (s : string) : list string :=
  match s with
  | EmptyString => close_match cur
  | String c s' =>
      match cur with
      | Some ds =>
          if is_digit c then findall_from (Some (ds ++ String c EmptyString)%string) s'
          else close_match cur ++
               findall_from (if Ascii.eqb c "#" then Some EmptyString else None) s'
      | None =>
          findall_from (if Ascii.eqb c "#" then Some EmptyString else None) s'
      end
  end.

Definition findall (s : string) : list string := findall_from None s.

(** [Series.explode]: one row per list element; an empty list and a
    missing value each give one row with a missing value. *)
Definition explode {A B : Type} (rows : list (A * option (list B))) : list (A * option B) :=
  flat_map (fun r =>
              match snd r with
              | Some (x :: xs) => map (fun m => (fst r, Some m)) (x :: xs)
              | _ => [(fst r, None)]
              end) rows.

Definition int64_max : Z := 9223372036854775807.

(** [astype(int)] on one value of the exploded column. *)
Definition astype_int (v : option string) : result Z :=
  match v with
  | None => Err IntCastingNaNError
  | Some ds =>
      let n := int_of_digits 0 ds in
      if n <=? int64_max then Ok n else Err OverflowError
  end.

Fixpoint mapM {A B : Type} (f : A -> result B) (l : list A) : result (list B) :=
  match l with
  | [] => Ok []
  | x :: l' => y <- f x ;; ys <- mapM f l' ;; Ok (y :: ys)
  end.

Definition preprocess_epics (epics : list epic_raw) : result (list epic) :=
  let found := map (fun e => (e, option_map findall (related_user_stories e))) epics in
  let exploded := explode found in
  mapM (fun r => n <- astype_int (snd r) ;;
                 Ok {| epic_id := ref (fst r);
                       ep_userstory_id := n;
                       ep_epic_name := subject (fst r) |})
       exploded.

(** The occurrences of [#<integer>] in the cross-reference field of an
    epic; none when the field is missing. *)
Definition occurrences (e : epic_raw) : list string :=
  match related_user_stories e with
  | Some s => findall s
  | None => []
  end.

(** The rows one epic gives, when [preprocess_epics] goes through. *)
Definition epic_rows (e : epic_raw) : list epic :=
  map (fun ds => {| epic_id := ref e;
                    ep_userstory_id := int_of_digits 0 ds;
                    ep_epic_name := subject e |})
      (occurrences e).

(** No character of the string is ['#']. *)
Fixpoint no_hash (s : string) : bool :=
  match s with
  | EmptyString => true
  | String c s' => negb (Ascii.eqb c "#") && no_hash s'
  end.

(** The string does not begin with a digit. *)
Definition no_leading_digit (s : string) : bool :=
  match s with
  | EmptyString => true
  | String c _ => negb (is_digit c)
  end.

(** ** merge_data *)

Fixpoint is_unique (keys : list Z) : bool :=
  match keys with
  | [] => true
  | k :: keys' => negb (existsb (Z.eqb k) keys') && is_unique keys'
  end.

(** [pd.merge(left, right, how="left", validate="m:1")] on an integer
    key: the keys of [right] must be unique, then every row of [left] is
    kept, in order, with its partner in [right] if there is one. *)
Definition merge_left {L R : Type} (lkey : L -> Z) (rkey : R -> Z)
    (left : list L) (right : list R) : result (list (L * option R)) :=
  if is_unique (map rkey right)
  then Ok (map (fun l => (l, find (fun r => rkey r =? lkey l) right)) left)
  else Err MergeError.

Definition merge_data (tasks : list task) (userstories : list userstory)
    (epics : list epic) : result (list merged_row) :=
  merge_df <- merge_left userstory_id us_userstory_id tasks userstories ;;
  merge_df <- merge_left (fun l => userstory_id (fst l)) ep_userstory_id merge_df epics ;;
  Ok (map (fun r => {| row_task := fst (fst r);
                       row_userstory := snd (fst r);
                       row_epic := snd r |}) merge_df).

(** ** get_task_daily_df *)

Record DataFrame (R : Type) : Type := {
  columns : list string;
  rows : list R
}.
Arguments columns {R} _.
Arguments rows {R} _.

(** [pd.DataFrame(task_daily_list)]: the columns are the keys of the
    dictionaries, so an empty list gives a frame without columns. *)
Definition DataFrame_of_records (task_daily_list : list task_daily) : DataFrame task_daily :=
  {| columns := match task_daily_list with
                | [] => []
                | _ :: _ => ["date"; "assignee"; "epic_name"; "task_id"; "hour"]
                end;
     rows := task_daily_list |}.

(** The dates of a row after normalization and clamping. *)
Definition normalized_range (holiday_list : list Timestamp) (row : merged_row)
  : Timestamp * Timestamp :=
  let start_date := validate_start_date_end_date (start_date (row_task row)) holiday_list in
  let end_date := validate_start_date_end_date (end_date (row_task row)) holiday_list in
  let end_date := if end_date <? start_date then start_date else end_date in
  (start_date, end_date).

(** The body of the loop over the rows of the merged table: what one
    row appends to [task_daily_list]. *)
Definition task_daily_of_row (holiday_list : list Timestamp) (row : merged_row)
  : list task_daily :=
  let '(start_date, end_date) := normalized_range holiday_list row in
  let assignee := row_assigned_to_task row in
  let epic_name := row_epic_name row in
  let task_id := task_id (row_task row) in
  let actual_time := actual_time (row_task row) in
  let total_date := get_work_day start_date end_date holiday_list in
  let hour := (actual_time / inject_Z total_date)%Q in
  flat_map (fun date =>
              if is_weekend date then []
              else if mem date holiday_list then []
              else [ {| date := date;
                        assignee := assignee;
                        epic_name := epic_name;
                        daily_task_id := task_id;
                        hour := hour |} ])
           (date_range start_date end_date).

Definition get_task_daily_df_with (holiday_list : list Timestamp)
    (merge_data_df : list merged_row) : DataFrame task_daily :=
  DataFrame_of_records (flat_map (task_daily_of_row holiday_list) merge_data_df).

Definition get_task_daily_df (merge_data_df : list merged_row) : DataFrame task_daily :=
  get_task_daily_df_with get_holiday_list merge_data_df.

(** ** The calendar aggregators *)

(** Sorted list of the distinct elements of a list. *)
Fixpoint insert_uniq {A : Type} (cmp : A -> A -> comparison) (x : A) (l : list A) : list A :=
  match l with
  | [] => [x]
  | y :: l' =>
      match cmp x y with
      | Lt => x :: y :: l'
      | Eq => y :: l'
      | Gt => y :: insert_uniq cmp x l'
      end
  end.

Definition sort_uniq {A : Type} (cmp : A -> A -> comparison) (l : list A) : list A :=
  fold_right (insert_uniq cmp) [] l.

Definition group_key : Type := (Timestamp * string)%type.

Definition group_key_compare (a b : group_key) : comparison :=
  match Z.compare (fst a) (fst b) with
  | Eq => String.compare (snd a) (snd b)
  | c => c
  end.

Definition group_key_eqb (a b : group_key) : bool :=
  (fst a =? fst b) && String.eqb (snd a) (snd b).

Definition sum (l : list Q) : Q := fold_right Qplus 0%Q l.

(** The record has a value in the key column. *)
Definition has_key (key : task_daily -> option string) (r : task_daily) : bool :=
  match key r with
  | Some _ => true
  | None => false
  end.

(** The rows that [groupby(["date", column])] keeps: pandas leaves out
    the rows whose key is missing ([dropna=True] is the default). *)
Definition keyed_hours (key : task_daily -> option string) (records : list task_daily)
  : list (group_key * Q) :=
  flat_map (fun r => match key r with
                     | Some k => [((date r, k), hour r)]
                     | None => []
                     end) records.

(** [groupby(["date", column]).agg({"hour": "sum"}).reset_index()]: one
    row per distinct (date, key), sorted, with the sum of its hours. *)
Definition groupby_sum (key : task_daily -> option string) (records : list task_daily)
  : list (group_key * Q) :=
  let keyed := keyed_hours key records in
  map (fun g => (g, sum (map snd (filter (fun p => group_key_eqb (fst p) g) keyed))))
      (sort_uniq group_key_compare (map fst keyed)).

(** A frame indexed by date, one column per group key. *)
Record frame (A : Type) : Type := {
  index : list Timestamp;
  fcolumns : list string;
  values : list (list A)
}.
Arguments index {A} _.
Arguments fcolumns {A} _.
Arguments values {A} _.

Fixpoint assoc {K V : Type} (eqb : K -> K -> bool) (k : K) (l : list (K * V)) : option V :=
  match l with
  | [] => None
  | (k', v) :: l' => if eqb k' k then Some v else assoc eqb k l'
  end.

(** [pivot(index="date", columns=column, values="hour")]: a cell is
    missing when the grouped table has no row for it. *)
Definition pivot (grouped : list (group_key * Q)) : frame (option Q) :=
  let idx := sort_uniq Z.compare (map (fun g => fst (fst g)) grouped) in
  let cols := sort_uniq String.compare (map (fun g => snd (fst g)) grouped) in
  {| index := idx;
     fcolumns := cols;
     values := map (fun d => map (fun c => assoc group_key_eqb (d, c) grouped) cols) idx |}.

(** [fillna(v)] *)
Definition fillna (v : Q) (f : frame (option Q)) : frame Q :=
  {| index := index f;
     fcolumns := fcolumns f;
     values := map (map (fun x => match x with Some q => q | None => v end)) (values f) |}.

(** [Index.min()] and [Index.max()]; missing (NaT) on an empty index. *)
Definition index_min (idx : list Timestamp) : option Timestamp :=
  match idx with
  | [] => None
  | d :: idx' => Some (fold_left Z.min idx' d)
  end.

Definition index_max (idx : list Timestamp) : option Timestamp :=
  match idx with
  | [] => None
  | d :: idx' => Some (fold_left Z.max idx' d)
  end.

(** [reindex(new_index, fill_value=v)] *)
Definition reindex (f : frame Q) (new_index : list Timestamp) (fill_value : Q) : frame Q :=
  {| index := new_index;
     fcolumns := fcolumns f;
     values := map (fun d => match assoc Z.eqb d (combine (index f) (values f)) with
                             | Some row => row
                             | None => map (fun _ => fill_value) (fcolumns f)
                             end) new_index |}.

(** The frame the aggregators return: after [reset_index] and [rename]
    the dates are the column ["date"], followed by one column per key. *)
Record calendar_series : Type := {
  cs_date : list Timestamp;
  cs_columns : list string;
  cs_values : list (list Q)
}.

Definition reset_index (f : frame Q) : calendar_series :=
  {| cs_date := index f; cs_columns := fcolumns f; cs_values := values f |}.

(** The common body of [get_assignee_hour_per_day_df] and
    [get_project_hour_per_day_df], which differ in the key column only. *)
Definition hour_per_day_df (column : string) (key : task_daily -> option string)
    (task_daily_df : DataFrame task_daily) : result calendar_series :=
  if existsb (String.eqb "date") (columns task_daily_df)
     && existsb (String.eqb column) (columns task_daily_df)
  then
    let grouped := groupby_sum key (rows task_daily_df) in
    let pivoted := pivot grouped in
    let filled := fillna 0%Q pivoted in
    match index_min (index filled), index_max (index filled) with
    | Some min_date, Some max_date =>
        let date_range := date_range min_date max_date in
        Ok (reset_index (reindex filled date_range 0%Q))
    | _, _ => Err ValueError
    end
  else Err KeyError.

Definition get_assignee_hour_per_day_df (task_daily_df : DataFrame task_daily)
  : result calendar_series :=
  hour_per_day_df "assignee" assignee task_daily_df.

Definition get_project_hour_per_day_df (task_daily_df : DataFrame task_daily)
  : result calendar_series :=
  hour_per_day_df "epic_name" epic_name task_daily_df.

(** The cell of a calendar series at a date and a key column. *)
Definition cell (s : calendar_series) (d : Timestamp) (c : string) : option Q :=
  match assoc Z.eqb d (combine (cs_date s) (cs_values s)) with
  | Some row => assoc String.eqb c (combine (cs_columns s) row)
  | None => None
  end.

(** ** What the specification says of the series *)





(** Every cell holds a value, none below zero, one row of cells per
    date and one cell per key column, and the cell of a date and a key
    that share no record is the literal 0. *)
Definition zero_filled (key : task_daily -> option string)
    (records : list task_daily) (s : calendar_series) : Prop :=
  List.length (cs_values s) = List.length (cs_date s) /\
  (forall row, In row (cs_values s) ->
     List.length row = List.length (cs_columns s) /\
     (forall v, In v row -> (0 <= v)%Q)) /\
  (forall d c, In d (cs_date s) -> In c (cs_columns s) ->
     exists v, cell s d c = Some v /\ (0 <= v)%Q /\
       ((forall r, In r records -> ~ (date r = d /\ key r = Some c)) -> v = 0%Q)).

(** ** A small project *)

(** Two tasks: the first, of a user story that no epic claims, runs from
    Monday 2024-04-29 to Friday 2024-05-03 (Wednesday is a holiday); the
    second, of a user story of epic "E", takes Tuesday 2024-05-07. *)
Definition ex_task1 : task :=
  {| task_id := 1; userstory_id := 1; assigned_to := Some "ann";
     start_date := days_from_civil 2024 4 29;
     end_date := days_from_civil 2024 5 3;
     actual_time := 8%Q |}.

Definition ex_task2 : task :=
  {| task_id := 2; userstory_id := 2; assigned_to := Some "bob";
     start_date := days_from_civil 2024 5 7;
     end_date := days_from_civil 2024 5 7;
     actual_time := 4%Q |}.

Definition ex_tasks : list task := [ex_task1; ex_task2].

Definition ex_userstories : list userstory :=
  [ {| us_userstory_id := 1; us_subject := "first" |};
    {| us_userstory_id := 2; us_subject := "second" |} ].

Definition ex_epics : list epic :=
  [ {| epic_id := 7; ep_userstory_id := 2; ep_epic_name := "E" |} ].

Definition ex_row1 : merged_row :=
  {| row_task := ex_task1;
     row_userstory := Some {| us_userstory_id := 1; us_subject := "first" |};
     row_epic := None |}.

Definition ex_row2 : merged_row :=
  {| row_task := ex_task2;
     row_userstory := Some {| us_userstory_id := 2; us_subject := "second" |};
     row_epic := Some {| epic_id := 7; ep_userstory_id := 2; ep_epic_name := "E" |} |}.

Definition ex_merged : list merged_row := [ex_row1; ex_row2].

(** A task that starts and ends on Friday 2024-01-05, in a deployment
    whose only holiday is that Friday. *)
Definition ex_friday : Timestamp := days_from_civil 2024 1 5.

Definition ex_friday_row : merged_row :=
  {| row_task := {| task_id := 3; userstory_id := 1; assigned_to := Some "ann";
                    start_date := ex_friday; end_date := ex_friday;
                    actual_time := 8%Q |};
     row_userstory := None;
     row_epic := None |}.

(** * The rest of the pipeline *)

(** ** preprocess_tasks and preprocess_userstories *)

(** A row of [tasks.csv] as read; the cell of [user_story] is missing for
    a task that belongs to no user story. *)
Record task_raw : Type := {
  t_ref : Z;
  t_user_story : option Z;
  t_assigned_to : option string;
  t_start_date : Timestamp;
  t_end_date : Timestamp;
  t_actual_time : Q
}.

(** A row of [userstories.csv] as read. *)
Record userstory_raw : Type := {
  u_ref : Z;
  u_subject : string
}.

(** [astype(int)] on one value of a numeric column. *)
Definition astype_int_number (v : option Z) : result Z :=
  match v with
  | Some n => Ok n
  | None => Err IntCastingNaNError
  end.

Definition preprocess_tasks (tasks : list task_raw) : result (list task) :=
  mapM (fun t => n <- astype_int_number (t_user_story t) ;;
                 Ok {| task_id := t_ref t;
                       userstory_id := n;
                       assigned_to := t_assigned_to t;
                       start_date := t_start_date t;
                       end_date := t_end_date t;
                       actual_time := t_actual_time t |})
       tasks.

Definition preprocess_userstories (userstories : list userstory_raw) : list userstory :=
  map (fun u => {| us_userstory_id := u_ref u; us_subject := u_subject u |}) userstories.

(** ** main, from the tables read to the tables written *)

Record report_tables : Type := {
  merge_data_df : list merged_row;
  task_daily_df : DataFrame task_daily;
  assignee_hour_per_day_df : calendar_series;
  project_hour_per_day_df : calendar_series
}.

(** The computation of [main] between [pd.read_csv] and the writers:
    the three preprocessors, the merge, the expander and the two
    aggregators, each on the result of the one before. *)
Definition main_tables (tasks : list task_raw) (userstories : list userstory_raw)
    (epics : list epic_raw) : result report_tables :=
  tasks <- preprocess_tasks tasks ;;
  let userstories := preprocess_userstories userstories in
  epics <- preprocess_epics epics ;;
  merge_data_df <- merge_data tasks userstories epics ;;
  let task_daily_df := get_task_daily_df merge_data_df in
  assignee_hour_per_day_df <- get_assignee_hour_per_day_df task_daily_df ;;
  project_hour_per_day_df <- get_project_hour_per_day_df task_daily_df ;;
  Ok {| merge_data_df := merge_data_df;
        task_daily_df := task_daily_df;
        assignee_hour_per_day_df := assignee_hour_per_day_df;
        project_hour_per_day_df := project_hour_per_day_df |}.

(** ** Reading a series *)

(** The value is present and is [c]. *)
Definition option_is (o : option string) (c : string) : bool :=
  match o with
  | Some k => String.eqb k c
  | None => false
  end.

(** The record has the value [c] in the key column. *)
Definition key_is (key : task_daily -> option string) (c : string) (r : task_daily) : bool :=
  option_is (key r) c.

(** The hours of the records of a date and a key, in the order of the
    records. *)
Definition group_hours (key : task_daily -> option string) (records : list task_daily)
    (d : Timestamp) (c : string) : list Q :=
  map hour (filter (fun r => (date r =? d) && key_is key c r) records).

(** [df[c]]: the cells of the column labelled [c], one per row; no
    column of that label is a key error. *)
Definition series_column (s : calendar_series) (c : string) : option (list Q) :=
  if existsb (String.eqb c) (cs_columns s)
  then Some (map (fun row => match assoc String.eqb c (combine (cs_columns s) row) with
                             | Some v => v
                             | None => 0%Q
                             end) (cs_values s))
  else None.

(** A list without repetition, in strictly ascending order. *)
Fixpoint strictly_sorted {A : Type} (cmp : A -> A -> comparison) (l : list A) : Prop :=
  match l with
  | [] => True
  | x :: l' => (forall y, In y l' -> cmp x y = Lt) /\ strictly_sorted cmp l'
  end.

(** ** creat_fully_report_graph: the data of the traces *)

(** [DataFrame.tail(n)]: the last [n] rows; all the rows when there are
    fewer; for a negative [n], all the rows but the first [-n]. *)
Definition tail {A : Type} (n : Z) (l : list A) : list A :=
  if n <? 0 then skipn (Z.to_nat (- n)) l
  else skipn (List.length l - Z.to_nat n) l.

(** [report_plot = pivot_hour_per_day_df.tail(num_date)] *)
Definition report_plot (num_date : Z) (pivot_hour_per_day_df : calendar_series)
  : calendar_series :=
  {| cs_date := tail num_date (cs_date pivot_hour_per_day_df);
     cs_columns := cs_columns pivot_hour_per_day_df;
     cs_values := tail num_date (cs_values pivot_hour_per_day_df) |}.

(** [date_list.index(date)]: the place of the first occurrence. The loop
    below asks it for dates of the list only; for a date that is not in
    the list (a [ValueError] in the source) it is the length. *)
Fixpoint index_of (date : Timestamp) (date_list : list Timestamp) : nat :=
  match date_list with
  | [] => O
  | d :: date_list' => if d =? date then O else S (index_of date date_list')
  end.

(** [l[i] = v], for a place of the list. *)
Fixpoint set_at {A : Type} (i : nat) (v : A) (l : list A) : list A :=
  match l, i with
  | [], _ => []
  | _ :: l', O => v :: l'
  | x :: l', S i' => x :: set_at i' v l'
  end.

(** The reference line: 8 hours a day, 0 on holidays and weekends. *)
Definition work_hour_list (date_list : list Timestamp) (holiday_list : list Timestamp)
  : list Z :=
  fold_left (fun work_hour_list date =>
               let work_hour_list :=
                 if mem date holiday_list
                 then set_at (index_of date date_list) 0 work_hour_list
                 else work_hour_list in
               if is_weekend date
               then set_at (index_of date date_list) 0 work_hour_list
               else work_hour_list)
            date_list (repeat 8 (List.length date_list)).

(** [{column: palette[i] for i, column in enumerate(column_list)}], as
    the list of its items in order; [None] is the [IndexError] of a
    place beyond the palette ([px.colors.qualitative.Plotly] in the
    source, a parameter here). *)
Fixpoint color_line_from (palette : list string) (i : nat) (column_list : list string)
  : option (list (string * string)) :=
  match column_list with
  | [] => Some []
  | column :: column_list' =>
      match nth_error palette i with
      | Some color =>
          option_map (cons (column, color)) (color_line_from palette (S i) column_list')
      | None => None
      end
  end.

Definition color_line_dict (palette : list string) (column_list : list string)
  : option (list (string * string)) :=
  color_line_from palette O column_list.


(** The window of a report shows the last [n] days of a series, with
    the cells the series has on those days. *)
Definition shows_last_days (n : Z) (s : calendar_series) : Prop :=
  exists lo hi,
    cs_date s = date_range lo hi /\
    cs_date (report_plot n s) = date_range (Z.max lo (hi - n + 1)) hi /\
    List.length (cs_values (report_plot n s)) = List.length (cs_date (report_plot n s)) /\
    (forall d c, In d (cs_date (report_plot n s)) ->
                 cell (report_plot n s) d c = cell s d c).

(** The user story numbers that the epics file names, epic after epic,
    with their repetitions. *)
Definition named_stories (epics : list epic_raw) : list Z :=
  flat_map (fun e => map (int_of_digits 0) (occurrences e)) epics.

(** The rows of the merged table of the preprocessed tables. *)
Definition merged_rows_of (ts : list task) (us : list userstory) (rows : list epic)
  : list merged_row :=
  map (fun t => {| row_task := t;
                   row_userstory := find (fun u => us_userstory_id u =? userstory_id t) us;
                   row_epic := find (fun e => ep_userstory_id e =? userstory_id t) rows |})
      ts.

(** The small project as the three files hold it. *)
Definition ex_tasks_raw : list task_raw :=
  [ {| t_ref := 1; t_user_story := Some 1; t_assigned_to := Some "ann";
       t_start_date := days_from_civil 2024 4 29;
       t_end_date := days_from_civil 2024 5 3;
       t_actual_time := 8%Q |};
    {| t_ref := 2; t_user_story := Some 2; t_assigned_to := Some "bob";
       t_start_date := days_from_civil 2024 5 7;
       t_end_date := days_from_civil 2024 5 7;
       t_actual_time := 4%Q |} ].

Definition ex_userstories_raw : list userstory_raw :=
  [ {| u_ref := 1; u_subject := "first" |};
    {| u_ref := 2; u_subject := "second" |} ].

Definition ex_epics_raw : list epic_raw :=
  [ {| ref := 7; related_user_stories := Some "#2"; subject := "E" |} ].

(** ** The arithmetic of the hours *)

(** The expander computes [hour = actual_time / total_date] on the
    numbers that pandas read from the file, which are binary64 floats.
    The body of its loop is given here for any type of numbers and any
    division of such a number by a day count: with [Q] and the exact
    quotient it gives the dates and hours of [task_daily_of_row], with
    the primitive floats it gives the numbers the program computes. *)
Section Arithmetic.
Context {number : Type}.
Variable divide : number -> Z -> number.

End Arithmetic.






(** ** The occurrences of the pattern *)

(** The specification's words for [preprocess_epics]: one row per
    occurrence of the pattern [#<integer>] in the field. Read on the
    text itself, an occurrence starts at each ['#'] that a digit
    follows, and its integer is the longest run of digits after that
    ['#']; the occurrences are taken from left to right. *)
Fixpoint leading_digits (s : string) : string :=
  match s with
  | EmptyString => EmptyString
  | String c s' => if is_digit c then String c (leading_digits s') else EmptyString
  end.

Fixpoint captures (s : string) : list string :=
  match s with
  | EmptyString => []
  | String c s' =>
      if Ascii.eqb c "#" && negb (no_leading_digit s')
      then leading_digits s' :: captures s'
      else captures s'
  end.

(** The rows the specification gives an epic: one per occurrence. *)
Definition rows_per_occurrence (e : epic_raw) : list epic :=
  map (fun ds => {| epic_id := ref e;
                    ep_userstory_id := int_of_digits 0 ds;
                    ep_epic_name := subject e |})
      (match related_user_stories e with
       | Some s => captures s
       | None => []
       end).

(** ** preprocess_epics on any alphabet *)

(** A Python string is a sequence of Unicode characters, and both [\d]
    and [int] read every decimal digit of Unicode; the ten ASCII digits
    are those that a [string] can hold. The scanner and the exploder
    are given here over any type of characters, with the three facts
    about a character that the source relies on: whether it is ['#'],
    whether [\d] matches it, and its value as a decimal digit. *)
Section AnyAlphabet.
Context {char : Type}.
Variable is_hash : char -> bool.
Variable is_decimal : char -> bool.
Variable decimal_value : char -> Z.

Definition close_match_text (cur : option (list char)) : list (list char) :=
  match cur with
  | Some (c :: ds) => [c :: ds]
  | _ => []
  end.

Fixpoint findall_text_from (cur : option (list char)) (s : list char)
  : list (list char) :=
  match s with
  | [] => close_match_text cur
  | c :: s' =>
      match cur with
      | Some ds =>
          if is_decimal c then findall_text_from (Some (ds ++ [c])%list) s'
          else (close_match_text cur ++
                findall_text_from (if is_hash c then Some [] else None) s')%list
      | None =>
          findall_text_from (if is_hash c then Some [] else None) s'
      end
  end.

Definition findall_text (s : list char) : list (list char) :=
  findall_text_from None s.

Fixpoint int_of_text (acc : Z) (s : list char) : Z :=
  match s with
  | [] => acc
  | c :: s' => int_of_text (10 * acc + decimal_value c) s'
  end.

Definition astype_int_text (v : option (list char)) : result Z :=
  match v with
  | None => Err IntCastingNaNError
  | Some ds =>
      let n := int_of_text 0 ds in
      if n <=? int64_max then Ok n else Err OverflowError
  end.

(** A row of [epics.csv] whose cross-reference field is such a text. *)
Record epic_text : Type := {
  et_ref : Z;
  et_related_user_stories : option (list char);
  et_subject : string
}.

Definition preprocess_epics_text (epics : list epic_text) : result (list epic) :=
  let found :=
    map (fun e => (e, option_map findall_text (et_related_user_stories e))) epics in
  let exploded := explode found in
  mapM (fun r => n <- astype_int_text (snd r) ;;
                 Ok {| epic_id := et_ref (fst r);
                       ep_userstory_id := n;
                       ep_epic_name := et_subject (fst r) |})
       exploded.

(** The occurrences of the pattern, read on the text. *)
Fixpoint leading_decimals (s : list char) : list char :=
  match s with
  | [] => []
  | c :: s' => if is_decimal c then c :: leading_decimals s' else []
  end.

Definition starts_with_decimal (s : list char) : bool :=
  match s with
  | [] => false
  | c :: _ => is_decimal c
  end.

Fixpoint captures_text (s : list char) : list (list char) :=
  match s with
  | [] => []
  | c :: s' =>
      if is_hash c && starts_with_decimal s'
      then leading_decimals s' :: captures_text s'
      else captures_text s'
  end.

Definition rows_per_occurrence_text (e : epic_text) : list epic :=
  map (fun ds => {| epic_id := et_ref e;
                    ep_userstory_id := int_of_text 0 ds;
                    ep_epic_name := et_subject e |})
      (match et_related_user_stories e with
       | Some s => captures_text s
       | None => []
       end).
End AnyAlphabet.

Arguments et_ref {char} _.
Arguments et_related_user_stories {char} _.
Arguments et_subject {char} _.

(** A row of [epics.csv] whose field is a [string], character by
    character. *)
Definition text_of_epic (e : epic_raw) : epic_text (char := ascii) :=
  {| et_ref := ref e;
     et_related_user_stories := option_map list_ascii_of_string (related_user_stories e);
     et_subject := subject e |}.

(** ** Shares and labels *)


(** The hours that the cells of the column of a key add up, date after
    date of the series. *)
Definition column_addends (key : task_daily -> option string)
    (records : list task_daily) (s : calendar_series) (c : string) : list Q :=
  List.concat (map (fun d => group_hours key records d c) (cs_date s)).

(** The labels of the frame that an aggregator returns. [reset_index]
    puts the dates in a first column labelled ["index"], or ["level_0"]
    when a key column has the label ["index"] already, and
    [rename(columns={"index": "date"})] relabels every column that is
    labelled ["index"]. (With key columns labelled ["index"] and
    ["level_0"] both, pandas refuses to insert the dates; that refusal
    is not part of [hour_per_day_df], and what is stated of the labels
    leaves that frame out.) *)
Definition frame_labels (s : calendar_series) : list string :=
  let date_label :=
    if existsb (String.eqb "index") (cs_columns s) then "level_0" else "index" in
  map (fun label => if String.eqb label "index" then "date" else label)
      (date_label :: cs_columns s).

(** * Properties *)

(** ** Calendar facts *)

Lemma weekday_bounds (d : Timestamp) : 0 <= weekday d < 7.
Proof. unfold weekday. apply Z.mod_pos_bound. lia. Qed.

Lemma is_weekend_iff (d : Timestamp) :
  is_weekend d = true <-> weekday d = 5 \/ weekday d = 6.
Proof. unfold is_weekend. rewrite orb_true_iff, !Z.eqb_eq. tauto. Qed.

Lemma mem_In (d : Timestamp) (l : list Timestamp) : mem d l = true <-> In d l.
Proof.
  unfold mem. rewrite existsb_exists. split.
  - intros (x & Hx & E). apply Z.eqb_eq in E. now subst.
  - intros H. exists d. split; [assumption | apply Z.eqb_refl].
Qed.

Lemma mem_false_iff (d : Timestamp) (l : list Timestamp) : mem d l = false <-> ~ In d l.
Proof. rewrite <- mem_In. destruct (mem d l); split; congruence. Qed.

Lemma is_working_day_iff (hl : list Timestamp) (d : Timestamp) :
  is_working_day hl d = true <->
  weekday d <> 5 /\ weekday d <> 6 /\ ~ In d hl.
Proof.
  unfold is_working_day. rewrite andb_true_iff, !negb_true_iff, mem_false_iff.
  unfold is_weekend. rewrite orb_false_iff, !Z.eqb_neq. tauto.
Qed.

Lemma date_range_In (s e d : Timestamp) : In d (date_range s e) <-> s <= d <= e.
Proof.
  unfold date_range. rewrite in_map_iff. split.
  - intros (i & <- & Hi). apply in_seq in Hi. lia.
  - intros H. exists (Z.to_nat (d - s)). split; [lia | apply in_seq; lia].
Qed.

Lemma date_range_length (s e : Timestamp) :
  List.length (date_range s e) = Z.to_nat (e - s + 1).
Proof. unfold date_range. now rewrite length_map, length_seq. Qed.

Lemma date_range_empty (s e : Timestamp) : e < s -> date_range s e = [].
Proof.
  intros H. unfold date_range.
  replace (Z.to_nat (e - s + 1)) with 0%nat by lia. reflexivity.
Qed.

Lemma date_range_cons (s e : Timestamp) :
  s <= e -> date_range s e = s :: date_range (s + 1) e.
Proof.
  intros H. unfold date_range.
  replace (Z.to_nat (e - s + 1)) with (S (Z.to_nat (e - (s + 1) + 1))) by lia.
  cbn [seq map]. rewrite Z.add_0_r. apply f_equal.
  rewrite <- seq_shift, map_map. apply map_ext. intros i. lia.
Qed.

Lemma date_range_NoDup (s e : Timestamp) : NoDup (date_range s e).
Proof.
  unfold date_range. apply Injective_map_NoDup.
  - intros i j H. lia.
  - apply seq_NoDup.
Qed.

(** ** The holiday loop *)

Section HolidayLoop.
Variable holiday_list : list Timestamp.

Lemma later_holidays_le (d : Timestamp) :
  (later_holidays holiday_list d <= List.length holiday_list)%nat.
Proof. apply filter_length_le. Qed.

Lemma later_holidays_step (d : Timestamp) :
  mem d holiday_list = true ->
  (later_holidays holiday_list (d + 1)%Z < later_holidays holiday_list d)%nat.
Proof.
  unfold later_holidays. rewrite mem_In.
  induction holiday_list as [| h l IH]; intros Hin; [contradiction |].
  cbn [filter].
  assert (Hmono : (List.length (filter (fun h => (d + 1 <=? h)%Z) l)
                   <= List.length (filter (fun h => (d <=? h)%Z) l))%nat).
  { clear. induction l as [| x l IH]; cbn [filter]; [lia |].
    destruct (d + 1 <=? x) eqn:E1; destruct (d <=? x) eqn:E2; cbn [List.length]; lia. }
  destruct Hin as [-> | Hin].
  - replace (d + 1 <=? d) with false by lia.
    replace (d <=? d) with true by lia.
    cbn [List.length]. lia.
  - specialize (IH Hin).
    destruct (d + 1 <=? h) eqn:E1; destruct (d <=? h) eqn:E2; cbn [List.length]; lia.
Qed.

Lemma skip_holidays_loop (fuel : nat) : forall d,
  (later_holidays holiday_list d <= fuel)%nat ->
  holiday_loop holiday_list d (skip_holidays fuel d holiday_list).
Proof.
  induction fuel as [| fuel IH]; intros d Hfuel; cbn [skip_holidays].
  - apply holiday_loop_exit.
    destruct (mem d holiday_list) eqn:E; [| reflexivity].
    apply later_holidays_step in E. lia.
  - destruct (mem d holiday_list) eqn:E.
    + apply holiday_loop_step; [assumption |].
      apply IH. apply later_holidays_step in E. unfold Timedelta. lia.
    + now apply holiday_loop_exit.
Qed.

(** The fuel of [validate_start_date_end_date] never runs out: the
    function returns what the loop of the source returns. *)
Lemma skip_holidays_runs (d : Timestamp) :
  holiday_loop holiday_list d
    (skip_holidays (List.length holiday_list) d holiday_list).
Proof. apply skip_holidays_loop, later_holidays_le. Qed.

Lemma holiday_loop_first_free (d r : Timestamp) :
  holiday_loop holiday_list d r ->
  d <= r /\ ~ In r holiday_list /\
  (forall x, d <= x < r -> In x holiday_list).
Proof.
  induction 1 as [d Hd | d r Hd _ (Hle & Hfree & Hall)].
  - split; [lia |]. split; [now apply mem_false_iff | intros x Hx; lia].
  - unfold Timedelta in *. split; [lia |]. split; [assumption |].
    intros x Hx. destruct (Z.eq_dec x d) as [-> | Hne].
    + now apply mem_In.
    + apply Hall. lia.
Qed.

Lemma holiday_loop_functional (d r r' : Timestamp) :
  holiday_loop holiday_list d r -> holiday_loop holiday_list d r' -> r = r'.
Proof.
  intros H. revert r'. induction H as [d Hd | d r Hd _ IH]; intros r' H'.
  - inversion H'; subst; [reflexivity | congruence].
  - inversion H'; subst; [congruence | now apply IH].
Qed.
End HolidayLoop.

(** The first step of the normalizer: a Saturday or Sunday moves to the
    first Monday after it, any other day stays. *)
Lemma weekend_to_monday (d : Timestamp) :
  is_weekend d = true ->
  let d1 := d + Timedelta (7 - weekday d) in
  weekday d1 = 0 /\ d < d1 <= d + 2 /\ (forall x, d < x < d1 -> weekday x <> 0).
Proof.
  intros H. apply is_weekend_iff in H. unfold Timedelta, weekday in *.
  cbv zeta. split; [| split].
  - destruct H as [H | H]; rewrite H.
    + replace (d + (7 - 5) + 3) with ((d + 3) + 2) by lia.
      rewrite <- Zplus_mod_idemp_l, H. reflexivity.
    + replace (d + (7 - 6) + 3) with ((d + 3) + 1) by lia.
      rewrite <- Zplus_mod_idemp_l, H. reflexivity.
  - destruct H as [H | H]; rewrite H; lia.
  - intros x Hx. destruct H as [H | H]; rewrite H in Hx.
    + assert (x = d + 1) as -> by lia.
      replace (d + 1 + 3) with ((d + 3) + 1) by lia.
      rewrite <- Zplus_mod_idemp_l, H. discriminate.
    + lia.
Qed.

(** C2. The date normalizer does exactly two things, in this order: a
    Saturday or Sunday is moved once to the first Monday after it (any
    other date is left alone); then the [while] loop of the source runs
    from that date and returns the first date, at or after it, that is
    not in the holiday list, every date it passed being a holiday. The
    weekend test is not made again: with Friday 2024-01-05 as the only
    holiday, that Friday is normalized to Saturday 2024-01-06. *)
Theorem validate_start_date_end_date_sequence :
  (forall (date : Timestamp) (holiday_list : list Timestamp),
      exists d1 : Timestamp,
        (is_weekend date = true ->
         weekday d1 = 0 /\ date < d1 /\ (forall x, date < x < d1 -> weekday x <> 0)) /\
        (is_weekend date = false -> d1 = date) /\
        holiday_loop holiday_list d1 (validate_start_date_end_date date holiday_list) /\
        d1 <= validate_start_date_end_date date holiday_list /\
        ~ In (validate_start_date_end_date date holiday_list) holiday_list /\
        (forall x, d1 <= x < validate_start_date_end_date date holiday_list ->
                   In x holiday_list)) /\
  (let friday := days_from_civil 2024 1 5 in
   weekday friday = 4 /\
   validate_start_date_end_date friday [friday] = friday + 1 /\
   is_weekend (validate_start_date_end_date friday [friday]) = true).
Proof.
  split.
  - intros date hl. unfold validate_start_date_end_date.
    set (d1 := if is_weekend date then date + Timedelta (7 - weekday date) else date).
    exists d1.
    pose proof (skip_holidays_runs hl d1) as Hloop.
    pose proof (holiday_loop_first_free hl _ _ Hloop) as (Hle & Hfree & Hall).
    repeat split; try assumption.
    + subst d1. rewrite H. now apply weekend_to_monday.
    + subst d1. rewrite H. pose proof (weekend_to_monday date H) as (_ & Hlt & _). lia.
    + subst d1. rewrite H. now apply weekend_to_monday.
    + intros H. subst d1. now rewrite H.
  - vm_compute. repeat split.
Qed.

Example holiday_list_value :
  get_holiday_list =
  [19723; 19765; 19779; 19821; 19828; 19829; 19844; 19849; 19865; 19877;
   19926; 19933; 19947; 20010; 20019; 20062; 20067; 20088].
Proof. vm_compute. reflexivity. Qed.

(** ** Counting working days *)

Lemma work_day_loop (hl : list Timestamp) (l : list Timestamp) : forall acc,
  fold_left (fun work_day date =>
               if mem date hl then work_day
               else if is_weekend date then work_day
               else work_day + 1) l acc
  = acc + Z.of_nat (List.length (filter (is_working_day hl) l)).
Proof.
  induction l as [| d l IH]; intros acc; cbn [fold_left filter].
  - cbn. lia.
  - rewrite IH. unfold is_working_day.
    destruct (mem d hl), (is_weekend d); cbn [negb andb List.length]; lia.
Qed.

Lemma get_work_day_eq (s e : Timestamp) (hl : list Timestamp) :
  get_work_day s e hl =
  if working_day_count hl s e =? 0 then 1 else working_day_count hl s e.
Proof. unfold get_work_day, working_day_count. now rewrite work_day_loop. Qed.

Lemma get_work_day_pos (s e : Timestamp) (hl : list Timestamp) :
  1 <= get_work_day s e hl.
Proof.
  rewrite get_work_day_eq. unfold working_day_count.
  destruct (Z.eqb_spec (Z.of_nat (List.length (filter (is_working_day hl) (date_range s e)))) 0); lia.
Qed.

Lemma inject_Z_nonzero (n : Z) : n <> 0 -> ~ (inject_Z n == 0)%Q.
Proof. intros Hn H. apply Hn. unfold Qeq, inject_Z in H. cbn in H. lia. Qed.

(** ** The expander, row by row *)

Lemma normalized_range_le (hl : list Timestamp) (row : merged_row) :
  fst (normalized_range hl row) <= snd (normalized_range hl row).
Proof.
  unfold normalized_range. cbn [fst snd].
  destruct (Z.ltb_spec (validate_start_date_end_date (end_date (row_task row)) hl)
                       (validate_start_date_end_date (start_date (row_task row)) hl)); lia.
Qed.

(** What a row appends: one record per working day of its range. *)
Lemma task_daily_of_row_eq (hl : list Timestamp) (row : merged_row) :
  task_daily_of_row hl row =
  let s := fst (normalized_range hl row) in
  let e := snd (normalized_range hl row) in
  map (fun d => {| date := d;
                   assignee := row_assigned_to_task row;
                   epic_name := row_epic_name row;
                   daily_task_id := task_id (row_task row);
                   hour := (actual_time (row_task row) / inject_Z (get_work_day s e hl))%Q |})
      (filter (is_working_day hl) (date_range s e)).
Proof.
  unfold task_daily_of_row. destruct (normalized_range hl row) as [s e]. cbn [fst snd].
  induction (date_range s e) as [| d l IH]; [reflexivity |].
  cbn [flat_map filter]. rewrite IH. unfold is_working_day.
  destruct (is_weekend d), (mem d hl); reflexivity.
Qed.

Lemma task_daily_of_row_id (hl : list Timestamp) (row : merged_row) (r : task_daily) :
  In r (task_daily_of_row hl row) -> daily_task_id r = task_id (row_task row).
Proof.
  rewrite task_daily_of_row_eq. cbv zeta. rewrite in_map_iff.
  intros (d & <- & _). reflexivity.
Qed.

Lemma task_daily_of_row_epic (hl : list Timestamp) (row : merged_row) (r : task_daily) :
  In r (task_daily_of_row hl row) ->
  epic_name r = row_epic_name row /\ assignee r = row_assigned_to_task row.
Proof.
  rewrite task_daily_of_row_eq. cbv zeta. rewrite in_map_iff.
  intros (d & <- & _). split; reflexivity.
Qed.

Lemma filter_all {A : Type} (p : A -> bool) (l : list A) :
  (forall x, In x l -> p x = true) -> filter p l = l.
Proof.
  induction l as [| x l IH]; intros H; [reflexivity |].
  cbn [filter]. rewrite (H x (or_introl eq_refl)). f_equal.
  apply IH. intros y Hy. apply H. now right.
Qed.

Lemma filter_none {A : Type} (p : A -> bool) (l : list A) :
  (forall x, In x l -> p x = false) -> filter p l = [].
Proof.
  induction l as [| x l IH]; intros H; [reflexivity |].
  cbn [filter]. rewrite (H x (or_introl eq_refl)).
  apply IH. intros y Hy. apply H. now right.
Qed.

(** With distinct task ids, the records of the daily table that carry
    the id of a row are the records that row appended. *)
Lemma records_of_task (hl : list Timestamp) (merge_data_df : list merged_row) (row : merged_row) :
  NoDup (map (fun r => task_id (row_task r)) merge_data_df) ->
  In row merge_data_df ->
  filter (fun r => daily_task_id r =? task_id (row_task row))
         (flat_map (task_daily_of_row hl) merge_data_df)
  = task_daily_of_row hl row.
Proof.
  induction merge_data_df as [| r0 m IH]; intros Hnd Hin; [contradiction |].
  cbn [map] in Hnd. apply NoDup_cons_iff in Hnd as [Hfresh Hnd].
  cbn [flat_map]. rewrite filter_app.
  assert (Hothers : forall row', In row' m ->
            task_id (row_task row') <> task_id (row_task r0)).
  { intros row' Hrow' E. apply Hfresh. rewrite <- E.
    apply in_map_iff. now exists row'. }
  destruct Hin as [-> | Hin].
  - rewrite filter_all.
    + rewrite filter_none; [apply app_nil_r |].
      intros x Hx. apply in_flat_map in Hx as (row' & Hrow' & Hx).
      apply task_daily_of_row_id in Hx. rewrite Hx.
      apply Z.eqb_neq. now apply Hothers.
    + intros x Hx. apply task_daily_of_row_id in Hx. rewrite Hx. apply Z.eqb_refl.
  - rewrite filter_none.
    + cbn [app]. now apply IH.
    + intros x Hx. apply task_daily_of_row_id in Hx. rewrite Hx.
      apply Z.eqb_neq. intros E. now apply (Hothers row Hin).
Qed.

Lemma sum_const {A : Type} (h : Q) (l : list A) :
  (sum (map (fun _ => h) l) == inject_Z (Z.of_nat (List.length l)) * h)%Q.
Proof.
  induction l as [| x l IH]; cbn [map sum fold_right List.length].
  - cbn. ring.
  - fold (sum (map (fun _ : A => h) l)). rewrite IH, Nat2Z.inj_succ.
    unfold Z.succ. rewrite inject_Z_plus. ring.
Qed.

(** With exact quotients the hours a row spreads add up to its actual
    time, unless its range has no working day, and then it appends
    nothing. *)
Lemma task_daily_of_row_sum (hl : list Timestamp) (row : merged_row) :
  let s := fst (normalized_range hl row) in
  let e := snd (normalized_range hl row) in
  if working_day_count hl s e =? 0
  then task_daily_of_row hl row = []
  else (sum (map hour (task_daily_of_row hl row)) == actual_time (row_task row))%Q.
Proof.
  cbv zeta. rewrite task_daily_of_row_eq. cbv zeta.
  rewrite get_work_day_eq. unfold working_day_count.
  set (days := filter (is_working_day hl) _).
  destruct (Z.eqb_spec (Z.of_nat (List.length days)) 0) as [E | NE].
  - destruct days; [reflexivity | cbn in E; lia].
  - rewrite map_map. cbn [hour]. rewrite sum_const.
    field. now apply inject_Z_nonzero.
Qed.

(** ** The hard-coded holiday list *)

(** No holiday of the list is a Friday or is followed by a run of
    holidays that reaches a weekend, so a normalized date is always a
    working day and the zero-working-day fallback of [get_work_day] is
    never taken on a range that [get_task_daily_df] builds. *)
Lemma normalized_date_is_working_day (d : Timestamp) :
  is_working_day get_holiday_list
    (validate_start_date_end_date d get_holiday_list) = true.
Proof.
  unfold validate_start_date_end_date.
  set (d1 := if is_weekend d then d + Timedelta (7 - weekday d) else d).
  assert (Hd1 : is_weekend d1 = false).
  { subst d1. destruct (is_weekend d) eqn:E; [| assumption].
    pose proof (weekend_to_monday d E) as (H0 & _).
    unfold is_weekend. cbv zeta in H0. rewrite H0. reflexivity. }
  destruct (mem d1 get_holiday_list) eqn:Hm.
  - apply mem_In in Hm. rewrite holiday_list_value in Hm.
    cbn [In] in Hm.
    repeat (destruct Hm as [<- | Hm]; [vm_compute; reflexivity |]).
    contradiction.
  - replace (List.length get_holiday_list) with 18%nat by (vm_compute; reflexivity).
    cbn [skip_holidays]. rewrite Hm. unfold is_working_day. now rewrite Hd1, Hm.
Qed.

Lemma hard_coded_range_has_working_day (row : merged_row) :
  let '(s, e) := normalized_range get_holiday_list row in
  1 <= working_day_count get_holiday_list s e.
Proof.
  pose proof (normalized_range_le get_holiday_list row) as Hle.
  destruct (normalized_range get_holiday_list row) as [s e] eqn:E. cbn [fst snd] in Hle.
  assert (Hs : s = validate_start_date_end_date (start_date (row_task row)) get_holiday_list).
  { unfold normalized_range in E. now inversion E. }
  unfold working_day_count.
  assert (Hin : In s (filter (is_working_day get_holiday_list) (date_range s e))).
  { apply filter_In. split; [apply date_range_In; lia |].
    rewrite Hs. apply normalized_date_is_working_day. }
  destruct (filter (is_working_day get_holiday_list) (date_range s e));
    [contradiction | cbn [List.length]; lia].
Qed.

(** ** The expander in any arithmetic *)






(** C7. The start and the end date are normalized independently; when
    the normalized end is before the normalized start it is replaced by
    the start, otherwise it is kept; so the range that is expanded runs
    from a start to an end that is not before it and holds at least one
    calendar day, the start. *)
Theorem normalized_range_clamped :
  forall (holiday_list : list Timestamp) (row : merged_row),
    let s := validate_start_date_end_date (start_date (row_task row)) holiday_list in
    let e := validate_start_date_end_date (end_date (row_task row)) holiday_list in
    let r := normalized_range holiday_list row in
    fst r = s /\
    (e < s -> snd r = s) /\
    (s <= e -> snd r = e) /\
    fst r <= snd r /\
    In (fst r) (date_range (fst r) (snd r)) /\
    (1 <= List.length (date_range (fst r) (snd r)))%nat.
Proof.
  intros hl row s e r.
  pose proof (normalized_range_le hl row) as Hle. fold r in Hle.
  assert (Hfst : fst r = s) by reflexivity.
  assert (Hsnd : snd r = if e <? s then s else e) by reflexivity.
  split; [assumption |].
  split; [intros H; rewrite Hsnd; destruct (Z.ltb_spec e s); [reflexivity | lia] |].
  split; [intros H; rewrite Hsnd; destruct (Z.ltb_spec e s); [lia | reflexivity] |].
  split; [assumption |].
  split; [apply date_range_In; lia |].
  rewrite date_range_length. lia.
Qed.


(** ** The relational merge *)

Lemma is_unique_NoDup (keys : list Z) : is_unique keys = true <-> NoDup keys.
Proof.
  induction keys as [| k l IH]; cbn [is_unique].
  - split; [constructor | reflexivity].
  - rewrite andb_true_iff, negb_true_iff, IH, NoDup_cons_iff.
    change (existsb (Z.eqb k) l) with (mem k l). now rewrite mem_false_iff.
Qed.

Lemma is_unique_false (keys : list Z) : is_unique keys = false <-> ~ NoDup keys.
Proof. rewrite <- is_unique_NoDup. destruct (is_unique keys); split; congruence. Qed.

(** Two rows at different places with one key make the key column not
    unique. *)
Lemma shared_key_not_unique {R : Type} (rkey : R -> Z) (right : list R) (i j : nat) (a b : R) :
  i <> j -> nth_error right i = Some a -> nth_error right j = Some b ->
  rkey a = rkey b -> ~ NoDup (map rkey right).
Proof.
  intros Hij Ha Hb E Hnd.
  apply Hij. rewrite NoDup_nth_error in Hnd. apply Hnd.
  - rewrite length_map. apply nth_error_Some. congruence.
  - rewrite !nth_error_map, Ha, Hb. cbn. now rewrite E.
Qed.


(** [merge_data] in one piece: a [MergeError] when a key column of a
    right table is not unique, otherwise one row per task, in order. *)
Lemma merge_data_eq (tasks : list task) (userstories : list userstory) (epics : list epic) :
  merge_data tasks userstories epics =
  if is_unique (map us_userstory_id userstories)
  then if is_unique (map ep_userstory_id epics)
       then Ok (map (fun t =>
                       {| row_task := t;
                          row_userstory :=
                            find (fun u => us_userstory_id u =? userstory_id t) userstories;
                          row_epic :=
                            find (fun e => ep_userstory_id e =? userstory_id t) epics |})
                    tasks)
       else Err MergeError
  else Err MergeError.
Proof.
  unfold merge_data, merge_left.
  destruct (is_unique (map us_userstory_id userstories)); [| reflexivity].
  cbn [bind].
  destruct (is_unique (map ep_userstory_id epics)); [| reflexivity].
  cbn [bind]. now rewrite !map_map.
Qed.

Lemma merge_data_ok (tasks : list task) (userstories : list userstory) (epics : list epic)
    (m : list merged_row) :
  merge_data tasks userstories epics = Ok m ->
  NoDup (map us_userstory_id userstories) /\
  NoDup (map ep_userstory_id epics) /\
  m = map (fun t =>
             {| row_task := t;
                row_userstory :=
                  find (fun u => us_userstory_id u =? userstory_id t) userstories;
                row_epic :=
                  find (fun e => ep_userstory_id e =? userstory_id t) epics |})
          tasks.
Proof.
  rewrite merge_data_eq.
  destruct (is_unique (map us_userstory_id userstories)) eqn:E1; [| discriminate].
  destruct (is_unique (map ep_userstory_id epics)) eqn:E2; [| discriminate].
  intros H. inversion H. repeat split; now apply is_unique_NoDup.
Qed.

(** A single epic that names the same user story twice is exploded
    into two rows with one key, and the merge refuses them as well. *)
Remark repeated_reference_is_refused :
  exists epics,
    preprocess_epics
      [ {| ref := 1; related_user_stories := Some "#12, #12"; subject := "E" |} ]
    = Ok epics /\
    (forall e, In e epics -> epic_id e = 1) /\
    merge_data [] [] epics = Err MergeError.
Proof.
  eexists. split; [vm_compute; reflexivity |]. split.
  - intros e [<- | [<- | []]]; reflexivity.
  - reflexivity.
Qed.

(** C4. [merge_data] raises the merge error when a userstory_id occurs
    more than once in the user-story table, and when the exploded epic
    table has a userstory_id in more than one row, which is the case
    when it maps the id to two different epics; when the key column of
    neither table has a repeated id, it returns, and whenever it returns
    the merged table has exactly as many rows as the task table. *)
Theorem merge_data_cardinality :
  forall (tasks : list task) (userstories : list userstory) (epics : list epic),
    (~ NoDup (map us_userstory_id userstories) ->
     merge_data tasks userstories epics = Err MergeError) /\
    (~ NoDup (map ep_userstory_id epics) ->
     merge_data tasks userstories epics = Err MergeError) /\
    ((exists e1 e2, In e1 epics /\ In e2 epics /\
                    ep_userstory_id e1 = ep_userstory_id e2 /\
                    epic_id e1 <> epic_id e2) ->
     merge_data tasks userstories epics = Err MergeError) /\
    (NoDup (map us_userstory_id userstories) ->
     NoDup (map ep_userstory_id epics) ->
     exists m, merge_data tasks userstories epics = Ok m /\
               List.length m = List.length tasks) /\
    (forall m, merge_data tasks userstories epics = Ok m ->
               List.length m = List.length tasks /\ map row_task m = tasks).
Proof.
  intros tasks us epics.
  assert (Hep : ~ NoDup (map ep_userstory_id epics) ->
                merge_data tasks us epics = Err MergeError).
  { intros H. rewrite merge_data_eq. apply is_unique_false in H. rewrite H.
    now destruct (is_unique (map us_userstory_id us)). }
  split; [| split; [exact Hep | split; [| split]]].
  - intros H. rewrite merge_data_eq. apply is_unique_false in H. now rewrite H.
  - intros (e1 & e2 & H1 & H2 & Hkey & Hid). apply Hep.
    apply In_nth_error in H1 as [i Hi]. apply In_nth_error in H2 as [j Hj].
    apply (shared_key_not_unique ep_userstory_id epics i j e1 e2); try assumption.
    intros ->. rewrite Hi in Hj. inversion Hj. now subst.
  - intros H1 H2. rewrite merge_data_eq.
    apply is_unique_NoDup in H1, H2. rewrite H1, H2.
    eexists. split; [reflexivity |]. apply length_map.
  - intros m H. apply merge_data_ok in H as (_ & _ & ->).
    split; [apply length_map |]. rewrite map_map. cbn [row_task]. apply map_id.
Qed.

(** ** preprocess_epics *)

Lemma append_assoc (a b c : string) : ((a ++ b) ++ c = a ++ (b ++ c))%string.
Proof. induction a as [| x a IH]; cbn; [reflexivity | now rewrite IH]. Qed.

Lemma append_nil_r (a : string) : (a ++ "")%string = a.
Proof. induction a as [| x a IH]; cbn; [reflexivity | now rewrite IH]. Qed.

Lemma findall_skip (pre s : string) :
  no_hash pre = true ->
  findall_from None (pre ++ s) = findall_from None s.
Proof.
  induction pre as [| c pre IH]; cbn [no_hash append findall_from]; [reflexivity |].
  intros H. apply andb_true_iff in H as [Hc Hpre].
  apply negb_true_iff in Hc. rewrite Hc. now apply IH.
Qed.

Lemma findall_digits (ds s : string) : forall acc,
  all_digits ds = true ->
  findall_from (Some acc) (ds ++ s) = findall_from (Some (acc ++ ds)%string) s.
Proof.
  induction ds as [| c ds IH]; intros acc H; cbn [append].
  - now rewrite append_nil_r.
  - cbn [all_digits] in H. apply andb_true_iff in H as [Hc Hds].
    cbn [findall_from]. rewrite Hc, IH by assumption.
    rewrite append_assoc. reflexivity.
Qed.

Lemma findall_close (c : ascii) (acc rest : string) :
  no_leading_digit rest = true ->
  findall_from (Some (String c acc)) rest = String c acc :: findall rest.
Proof.
  unfold findall. destruct rest as [| x rest]; cbn [no_leading_digit findall_from].
  - reflexivity.
  - intros H. apply negb_true_iff in H. rewrite H. reflexivity.
Qed.

(** What [findall] returns on a text that starts with an occurrence of
    the pattern after a prefix without ['#']: the digits of that
    occurrence, then the occurrences of the rest. *)
Lemma findall_occurrence (pre ds rest : string) :
  no_hash pre = true ->
  all_digits ds = true -> ds <> EmptyString ->
  no_leading_digit rest = true ->
  findall (pre ++ "#" ++ ds ++ rest) = ds :: findall rest.
Proof.
  intros Hpre Hds Hne Hrest. unfold findall at 1.
  rewrite findall_skip by assumption.
  cbn [append findall_from]. cbn [Ascii.eqb Bool.eqb]. cbn [findall_from].
  rewrite findall_digits by assumption. cbn [append].
  destruct ds as [| c ds]; [congruence |].
  now apply findall_close.
Qed.

Lemma mapM_app {A B : Type} (f : A -> result B) (l1 l2 : list A) :
  mapM f (l1 ++ l2) =
  (a <- mapM f l1 ;; b <- mapM f l2 ;; Ok (a ++ b)%list).
Proof.
  induction l1 as [| x l1 IH]; cbn [app mapM bind].
  - destruct (mapM f l2); reflexivity.
  - destruct (f x) as [y | e]; cbn [bind]; [| reflexivity].
    rewrite IH. destruct (mapM f l1) as [a | e]; cbn [bind]; [| reflexivity].
    destruct (mapM f l2); reflexivity.
Qed.

Lemma mapM_map_ok {A B C : Type} (f : A -> result B) (g : C -> A) (h : C -> B) (l : list C) :
  forall r,
    (forall x y, In x l -> f (g x) = Ok y -> y = h x) ->
    mapM f (map g l) = Ok r -> r = map h l.
Proof.
  induction l as [| x l IH]; intros r Hf H; cbn [map mapM] in *.
  - now inversion H.
  - destruct (f (g x)) as [y |] eqn:E; cbn [bind] in H; [| discriminate].
    destruct (mapM f (map g l)) as [ys |] eqn:E'; cbn [bind] in H; [| discriminate].
    inversion H. f_equal.
    + apply Hf; [now left | assumption].
    + apply IH; [| reflexivity]. intros x' y' Hx'. apply Hf. now right.
Qed.

Lemma preprocess_epics_cons (e : epic_raw) (epics : list epic_raw) :
  preprocess_epics (e :: epics) =
  (a <- preprocess_epics [e] ;; b <- preprocess_epics epics ;; Ok (a ++ b)%list).
Proof.
  unfold preprocess_epics, explode. cbn [map flat_map]. rewrite app_nil_r.
  apply mapM_app.
Qed.

Lemma preprocess_epics_one (e : epic_raw) (rows : list epic) :
  preprocess_epics [e] = Ok rows ->
  rows = epic_rows e /\ occurrences e <> [].
Proof.
  unfold preprocess_epics, explode, epic_rows, occurrences.
  cbn [map flat_map fst snd]. rewrite app_nil_r.
  destruct (related_user_stories e) as [s |]; cbn [option_map]; [| discriminate].
  destruct (findall s) as [| x xs]; [discriminate |].
  intros H. split; [| discriminate].
  revert H. apply (mapM_map_ok _ (fun m : string => (e, Some m)) _ (x :: xs)).
  intros ds y _. cbn [fst snd astype_int].
  destruct (int_of_digits 0 ds <=? int64_max); cbn [bind]; [| discriminate].
  intros H. now inversion H.
Qed.

Lemma preprocess_epics_ok (epics : list epic_raw) : forall rows,
  preprocess_epics epics = Ok rows ->
  rows = flat_map epic_rows epics /\
  (forall e, In e epics -> occurrences e <> []).
Proof.
  induction epics as [| e epics IH]; intros rows H.
  - inversion H. split; [reflexivity | intros e []].
  - rewrite preprocess_epics_cons in H.
    destruct (preprocess_epics [e]) as [a |] eqn:Ea; cbn [bind] in H; [| discriminate].
    destruct (preprocess_epics epics) as [b |] eqn:Eb; cbn [bind] in H; [| discriminate].
    inversion H. apply preprocess_epics_one in Ea as [-> Hne].
    destruct (IH b eq_refl) as [-> Hall].
    split; [reflexivity |].
    intros e' [<- | He']; [assumption | now apply Hall].
Qed.

Lemma mapM_ok_iff {A B : Type} (f : A -> result B) (l : list A) :
  (exists r, mapM f l = Ok r) <-> (forall x, In x l -> exists y, f x = Ok y).
Proof.
  induction l as [| x l IH]; cbn [mapM].
  - split; [intros _ x [] | intros _; now exists []].
  - split.
    + intros [r H] z [<- | Hz].
      * destruct (f x) as [y |]; [now exists y | discriminate].
      * destruct (f x); cbn [bind] in H; [| discriminate].
        destruct (mapM f l) as [ys |] eqn:E; cbn [bind] in H; [| discriminate].
        apply IH; [now exists ys | assumption].
    + intros H. destruct (H x (or_introl eq_refl)) as [y Hy]. rewrite Hy. cbn [bind].
      destruct (proj2 IH (fun z Hz => H z (or_intror Hz))) as [ys Hys].
      rewrite Hys. cbn [bind]. now eexists.
Qed.

Lemma explode_found_In (epics : list epic_raw) (e : epic_raw) (v : option string) :
  In (e, v) (explode (map (fun e => (e, option_map findall (related_user_stories e))) epics))
  <-> In e epics /\
      ((occurrences e = [] /\ v = None) \/
       (exists ds, In ds (occurrences e) /\ v = Some ds)).
Proof.
  unfold explode. rewrite in_flat_map. split.
  - intros (x & Hx & Hin). apply in_map_iff in Hx as (e' & <- & He').
    cbn [fst snd] in Hin.
    assert (Hocc : option_map findall (related_user_stories e') =
                   match occurrences e' with
                   | [] => match related_user_stories e' with
                           | Some _ => Some []
                           | None => None
                           end
                   | l => Some l
                   end).
    { unfold occurrences. destruct (related_user_stories e') as [s |]; [| reflexivity].
      cbn [option_map]. now destruct (findall s). }
    rewrite Hocc in Hin. clear Hocc.
    destruct (occurrences e') as [| d ds] eqn:E.
    + assert (Hv : (e, v) = (e', None)).
      { destruct (related_user_stories e'); destruct Hin as [Hin | []]; now symmetry. }
      inversion Hv. subst. split; [assumption |]. left. now split.
    + apply in_map_iff in Hin as (m & Hm & Hin). inversion Hm. subst.
      split; [assumption |]. right. rewrite E. now exists m.
  - intros (He & Hcase).
    exists (e, option_map findall (related_user_stories e)).
    split; [apply in_map_iff; now exists e |].
    cbn [fst snd]. unfold occurrences in Hcase.
    destruct (related_user_stories e) as [s |]; cbn [option_map].
    + destruct (findall s) as [| d ds].
      * destruct Hcase as [[_ ->] | (m & [] & _)]. now left.
      * destruct Hcase as [[H _] | (m & Hm & ->)]; [discriminate |].
        apply in_map_iff. now exists m.
    + destruct Hcase as [[_ ->] | (m & [] & _)]. now left.
Qed.

Lemma preprocess_epics_ok_iff (epics : list epic_raw) :
  (exists rows, preprocess_epics epics = Ok rows) <->
  (forall e, In e epics ->
     occurrences e <> [] /\
     (forall ds, In ds (occurrences e) -> int_of_digits 0 ds <= int64_max)).
Proof.
  unfold preprocess_epics. rewrite mapM_ok_iff. split.
  - intros H e He. split.
    + intros Hocc.
      destruct (H (e, None)) as [y Hy]; [| discriminate].
      apply explode_found_In. split; [assumption |]. now left.
    + intros ds Hds.
      destruct (H (e, Some ds)) as [y Hy].
      { apply explode_found_In. split; [assumption |]. right. now exists ds. }
      cbn [fst snd astype_int] in Hy.
      destruct (Z.leb_spec (int_of_digits 0 ds) int64_max); [assumption | discriminate].
  - intros H [e v] Hin. apply explode_found_In in Hin as (He & Hcase).
    destruct (H e He) as [Hne Hmax].
    destruct Hcase as [[Hocc _] | (ds & Hds & ->)]; [contradiction |].
    cbn [fst snd astype_int].
    destruct (Z.leb_spec (int_of_digits 0 ds) int64_max) as [_ | Hgt].
    + cbn [bind]. now eexists.
    + specialize (Hmax ds Hds). lia.
Qed.

(** ** The scanner and the occurrences of the pattern *)

Lemma leading_digits_none (s : string) :
  no_leading_digit s = true -> leading_digits s = EmptyString.
Proof.
  destruct s as [| c s]; cbn [no_leading_digit leading_digits]; [reflexivity |].
  intros H. apply negb_true_iff in H. now rewrite H.
Qed.

Lemma hash_is_no_digit (c : ascii) : Ascii.eqb c "#" = true -> is_digit c = false.
Proof. intros H. apply Ascii.eqb_eq in H. subst c. reflexivity. Qed.

(** After a character that is not a digit, the scanner goes on from the
    occurrences of the text that the character starts. *)
Lemma captures_step (c : ascii) (s : string) :
  findall_from None s = captures s ->
  (forall acc, findall_from (Some acc) s =
               close_match (Some (acc ++ leading_digits s)%string) ++ captures s)%list ->
  findall_from (if Ascii.eqb c "#" then Some EmptyString else None) s
  = captures (String c s).
Proof.
  intros HN HS. cbn [captures]. destruct (Ascii.eqb c "#"); cbn [andb].
  - rewrite HS. cbn [append].
    destruct s as [| d s]; [reflexivity |].
    cbn [no_leading_digit leading_digits]. destruct (is_digit d); reflexivity.
  - exact HN.
Qed.

Lemma findall_from_captures (s : string) :
  findall_from None s = captures s /\
  (forall acc, findall_from (Some acc) s =
               close_match (Some (acc ++ leading_digits s)%string) ++ captures s)%list.
Proof.
  induction s as [| c s [HN HS]].
  - split; [reflexivity |]. intros acc. cbn [findall_from leading_digits captures].
    rewrite append_nil_r. now rewrite app_nil_r.
  - split.
    + cbn [findall_from]. now apply captures_step.
    + intros acc. cbn [findall_from leading_digits].
      destruct (is_digit c) eqn:Ec.
      * rewrite HS, append_assoc. cbn [append captures].
        destruct (Ascii.eqb c "#") eqn:Eh; [| reflexivity].
        apply hash_is_no_digit in Eh. congruence.
      * rewrite append_nil_r. f_equal. now apply captures_step.
Qed.

Lemma findall_is_captures (s : string) : findall s = captures s.
Proof. apply findall_from_captures. Qed.

Lemma all_digits_leading (ds rest : string) :
  all_digits ds = true -> no_leading_digit rest = true ->
  leading_digits (ds ++ rest) = ds /\ captures (ds ++ rest) = captures rest.
Proof.
  intros Hds Hrest. induction ds as [| c ds IH]; cbn [append].
  - split; [now apply leading_digits_none | reflexivity].
  - cbn [all_digits] in Hds. apply andb_true_iff in Hds as [Hc Hds].
    destruct (IH Hds) as [IH1 IH2].
    cbn [leading_digits captures]. rewrite Hc, IH1, IH2.
    destruct (Ascii.eqb c "#") eqn:Eh; [| auto].
    apply hash_is_no_digit in Eh. congruence.
Qed.

(** Text without an occurrence, before a character that is no digit,
    adds no occurrence. *)
Lemma captures_app (pre s : string) :
  captures pre = [] -> no_leading_digit s = true ->
  captures (pre ++ s) = captures s.
Proof.
  intros Hpre Hs. induction pre as [| c pre IH]; cbn [append]; [reflexivity |].
  cbn [captures] in *.
  destruct (Ascii.eqb c "#") eqn:Eh; cbn [andb] in *.
  - destruct pre as [| d pre]; cbn [append no_leading_digit] in *.
    + rewrite Hs. cbn [negb]. reflexivity.
    + destruct (is_digit d); cbn [negb] in *; [discriminate | now apply IH].
  - now apply IH.
Qed.

Lemma captures_occurrence (pre ds rest : string) :
  captures pre = [] ->
  all_digits ds = true -> ds <> EmptyString ->
  no_leading_digit rest = true ->
  captures (pre ++ "#" ++ ds ++ rest) = ds :: captures rest.
Proof.
  intros Hpre Hds Hne Hrest.
  rewrite captures_app; [| assumption | reflexivity].
  destruct (all_digits_leading ds rest Hds Hrest) as [Hl Hc].
  cbn [append captures]. cbn [Ascii.eqb Bool.eqb andb].
  rewrite Hl, Hc.
  destruct ds as [| c ds]; [congruence |].
  cbn [all_digits] in Hds. apply andb_true_iff in Hds as [Hd _].
  cbn [append no_leading_digit]. rewrite Hd. reflexivity.
Qed.

Lemma rows_per_occurrence_eq (e : epic_raw) : epic_rows e = rows_per_occurrence e.
Proof.
  unfold epic_rows, rows_per_occurrence, occurrences.
  destruct (related_user_stories e); [now rewrite findall_is_captures | reflexivity].
Qed.

Section AnyAlphabetFacts.
Context {char : Type}.
Variable is_hash : char -> bool.
Variable is_decimal : char -> bool.
Variable decimal_value : char -> Z.
Hypothesis hash_no_decimal : forall c, is_hash c = true -> is_decimal c = false.

Lemma captures_text_step (c : char) (s : list char) :
  findall_text_from is_hash is_decimal None s = captures_text is_hash is_decimal s ->
  (forall acc, findall_text_from is_hash is_decimal (Some acc) s =
               close_match_text (Some (acc ++ leading_decimals is_decimal s))
               ++ captures_text is_hash is_decimal s)%list ->
  findall_text_from is_hash is_decimal (if is_hash c then Some [] else None) s
  = captures_text is_hash is_decimal (c :: s).
Proof.
  intros HN HS. cbn [captures_text]. destruct (is_hash c); cbn [andb].
  - rewrite HS. cbn [app].
    destruct s as [| d s]; [reflexivity |].
    cbn [starts_with_decimal leading_decimals]. destruct (is_decimal d); reflexivity.
  - exact HN.
Qed.

Lemma findall_text_from_captures (s : list char) :
  findall_text_from is_hash is_decimal None s = captures_text is_hash is_decimal s /\
  (forall acc, findall_text_from is_hash is_decimal (Some acc) s =
               close_match_text (Some (acc ++ leading_decimals is_decimal s))
               ++ captures_text is_hash is_decimal s)%list.
Proof.
  induction s as [| c s [HN HS]].
  - split; [reflexivity |]. intros acc.
    cbn [findall_text_from leading_decimals captures_text].
    now rewrite !app_nil_r.
  - split.
    + cbn [findall_text_from]. now apply captures_text_step.
    + intros acc. cbn [findall_text_from leading_decimals].
      destruct (is_decimal c) eqn:Ec.
      * rewrite HS, <- app_assoc. cbn [app captures_text].
        destruct (is_hash c) eqn:Eh; [| reflexivity].
        apply hash_no_decimal in Eh. congruence.
      * rewrite app_nil_r. f_equal. now apply captures_text_step.
Qed.

Lemma preprocess_epics_text_cons (e : epic_text) (epics : list epic_text) :
  preprocess_epics_text is_hash is_decimal decimal_value (e :: epics) =
  (a <- preprocess_epics_text is_hash is_decimal decimal_value [e] ;;
   b <- preprocess_epics_text is_hash is_decimal decimal_value epics ;;
   Ok (a ++ b)%list).
Proof.
  unfold preprocess_epics_text, explode. cbn [map flat_map]. rewrite app_nil_r.
  apply mapM_app.
Qed.

Lemma preprocess_epics_text_one (e : epic_text) (rows : list epic) :
  preprocess_epics_text is_hash is_decimal decimal_value [e] = Ok rows ->
  rows = rows_per_occurrence_text is_hash is_decimal decimal_value e.
Proof.
  unfold preprocess_epics_text, explode, rows_per_occurrence_text.
  cbn [map flat_map fst snd]. rewrite app_nil_r.
  destruct (et_related_user_stories e) as [s |]; cbn [option_map]; [| discriminate].
  unfold findall_text. rewrite (proj1 (findall_text_from_captures s)).
  destruct (captures_text is_hash is_decimal s) as [| x xs]; [discriminate |].
  apply (mapM_map_ok _ (fun m : list char => (e, Some m)) _ (x :: xs)).
  intros ds y _. cbn [fst snd astype_int_text].
  destruct (int_of_text decimal_value 0 ds <=? int64_max); cbn [bind]; [| discriminate].
  intros H. now inversion H.
Qed.

Lemma preprocess_epics_text_ok (epics : list epic_text) : forall rows,
  preprocess_epics_text is_hash is_decimal decimal_value epics = Ok rows ->
  rows = flat_map (rows_per_occurrence_text is_hash is_decimal decimal_value) epics.
Proof.
  induction epics as [| e epics IH]; intros rows H.
  - now inversion H.
  - rewrite preprocess_epics_text_cons in H.
    destruct (preprocess_epics_text is_hash is_decimal decimal_value [e])
      as [a |] eqn:Ea; cbn [bind] in H; [| discriminate].
    destruct (preprocess_epics_text is_hash is_decimal decimal_value epics)
      as [b |] eqn:Eb; cbn [bind] in H; [| discriminate].
    inversion H. apply preprocess_epics_text_one in Ea as ->.
    now rewrite (IH b eq_refl).
Qed.
End AnyAlphabetFacts.

(** ** Strings as texts of ASCII characters *)

Lemma list_ascii_of_string_app (a b : string) :
  list_ascii_of_string (a ++ b)%string
  = (list_ascii_of_string a ++ list_ascii_of_string b)%list.
Proof. induction a as [| c a IH]; cbn; [reflexivity | now rewrite IH]. Qed.

Lemma close_match_as_text (cur : option string) :
  map list_ascii_of_string (close_match cur)
  = close_match_text (option_map list_ascii_of_string cur).
Proof. destruct cur as [[| c ds] |]; reflexivity. Qed.

Lemma findall_from_as_text (s : string) : forall cur,
  map list_ascii_of_string (findall_from cur s)
  = findall_text_from (fun c => Ascii.eqb c "#") is_digit
      (option_map list_ascii_of_string cur) (list_ascii_of_string s).
Proof.
  induction s as [| c s IH]; intros cur.
  - apply close_match_as_text.
  - cbn [findall_from list_ascii_of_string findall_text_from].
    destruct cur as [ds |]; cbn [option_map].
    + destruct (is_digit c).
      * rewrite IH. cbn [option_map]. now rewrite list_ascii_of_string_app.
      * rewrite map_app, IH, (close_match_as_text (Some ds)).
        destruct (Ascii.eqb c "#"); reflexivity.
    + rewrite IH. destruct (Ascii.eqb c "#"); reflexivity.
Qed.

Lemma int_of_digits_as_text (ds : string) : forall acc,
  int_of_digits acc ds = int_of_text digit_value acc (list_ascii_of_string ds).
Proof. induction ds as [| c ds IH]; intros acc; cbn; [reflexivity | apply IH]. Qed.

Lemma mapM_map_ext {A B C D : Type} (f : A -> result B) (g : C -> A)
    (f' : D -> result B) (g' : C -> D) (l : list C) :
  (forall x, f (g x) = f' (g' x)) ->
  mapM f (map g l) = mapM f' (map g' l).
Proof.
  intros H. induction l as [| x l IH]; [reflexivity |].
  cbn [map mapM]. now rewrite H, IH.
Qed.

(** [preprocess_epics] on strings is [preprocess_epics_text] on their
    characters, with the ASCII digits for the decimal digits. *)
Lemma preprocess_epics_as_text (epics : list epic_raw) :
  preprocess_epics epics
  = preprocess_epics_text (fun c => Ascii.eqb c "#") is_digit digit_value
      (map text_of_epic epics).
Proof.
  induction epics as [| e epics IH]; [reflexivity |].
  cbn [map]. rewrite preprocess_epics_cons, preprocess_epics_text_cons, IH.
  f_equal. clear IH.
  unfold preprocess_epics, preprocess_epics_text, explode.
  cbn [map flat_map fst snd]. rewrite !app_nil_r.
  unfold text_of_epic at 1. cbn [et_related_user_stories].
  destruct (related_user_stories e) as [s |]; cbn [option_map]; [| reflexivity].
  unfold findall_text.
  pose proof (findall_from_as_text s None) as Hs. cbn [option_map] in Hs.
  rewrite <- Hs. fold (findall s).
  destruct (findall s) as [| x xs]; [reflexivity |].
  cbn [map]. rewrite map_map.
  change ((e, Some x) :: map (fun m : string => (e, Some m)) xs)
    with (map (fun m : string => (e, Some m)) (x :: xs)).
  change ((text_of_epic e, Some (list_ascii_of_string x))
          :: map (fun m : string => (text_of_epic e, Some (list_ascii_of_string m))) xs)
    with (map (fun m : string => (text_of_epic e, Some (list_ascii_of_string m)))
              (x :: xs)).
  apply mapM_map_ext.
  intros ds. cbn [fst snd astype_int astype_int_text text_of_epic et_ref et_subject].
  now rewrite int_of_digits_as_text.
Qed.

Lemma captures_none (s : string) :
  (forall pre c rest,
      s = (pre ++ String "#" (String c rest))%string -> is_digit c = false) ->
  captures s = [].
Proof.
  induction s as [| c s IH]; intros H; [reflexivity |].
  cbn [captures].
  assert (Hs : captures s = []).
  { apply IH. intros pre d rest E. apply (H (String c pre) d rest).
    cbn [append]. now rewrite E. }
  destruct (Ascii.eqb c "#") eqn:Eh; cbn [andb]; [| exact Hs].
  apply Ascii.eqb_eq in Eh. subst c.
  destruct s as [| d s]; [reflexivity |].
  cbn [no_leading_digit]. rewrite (H EmptyString d s eq_refl). exact Hs.
Qed.

Lemma mapM_map_all_ok {A B C : Type} (f : A -> result B) (g : C -> A) (h : C -> B)
    (l : list C) :
  (forall x, In x l -> f (g x) = Ok (h x)) ->
  mapM f (map g l) = Ok (map h l).
Proof.
  induction l as [| x l IH]; intros H; [reflexivity |].
  cbn [map mapM]. rewrite (H x (or_introl eq_refl)). cbn [bind].
  rewrite IH by (intros y Hy; apply H; now right). reflexivity.
Qed.

Section AnyAlphabetReturns.
Context {char : Type}.
Variable is_hash : char -> bool.
Variable is_decimal : char -> bool.
Variable decimal_value : char -> Z.
Hypothesis hash_no_decimal : forall c, is_hash c = true -> is_decimal c = false.

Lemma preprocess_epics_text_returns (epics : list epic_text) :
  (forall e, In e epics ->
     exists s, et_related_user_stories e = Some s /\
               captures_text is_hash is_decimal s <> [] /\
               (forall ds, In ds (captures_text is_hash is_decimal s) ->
                           int_of_text decimal_value 0 ds <= int64_max)) ->
  preprocess_epics_text is_hash is_decimal decimal_value epics
  = Ok (flat_map (rows_per_occurrence_text is_hash is_decimal decimal_value) epics).
Proof.
  induction epics as [| e epics IH]; intros H; [reflexivity |].
  rewrite preprocess_epics_text_cons.
  rewrite IH by (intros e' He'; apply H; now right). clear IH.
  destruct (H e (or_introl eq_refl)) as (s & Hs & Hne & Hfit).
  assert (Hone : preprocess_epics_text is_hash is_decimal decimal_value [e]
                 = Ok (rows_per_occurrence_text is_hash is_decimal decimal_value e)).
  { unfold preprocess_epics_text, explode, rows_per_occurrence_text.
    cbn [map flat_map fst snd]. rewrite app_nil_r, Hs. cbn [option_map].
    unfold findall_text.
    rewrite (proj1 (findall_text_from_captures is_hash is_decimal hash_no_decimal s)).
    destruct (captures_text is_hash is_decimal s) as [| x xs]; [contradiction |].
    apply (mapM_map_all_ok _ (fun m : list char => (e, Some m))
             (fun ds => {| epic_id := et_ref e;
                           ep_userstory_id := int_of_text decimal_value 0 ds;
                           ep_epic_name := et_subject e |}) (x :: xs)).
    intros ds Hds. cbn [fst snd astype_int_text].
    destruct (Z.leb_spec (int_of_text decimal_value 0 ds) int64_max) as [_ | Hgt];
      [reflexivity |].
    specialize (Hfit ds Hds). lia. }
  rewrite Hone. reflexivity.
Qed.
End AnyAlphabetReturns.

(** C9. An epic whose cross-reference field is ["#12, #45"] is exploded
    into exactly two rows, with userstory_id 12 and 45, both with the
    epic's id and name. In general, on every text, [findall] returns
    the occurrences of [#<integer>] read on the text itself: one for
    each ['#'] that a digit follows, from left to right, each with the
    longest run of digits after its ['#'] (so ["##12"] has the one
    occurrence 12, and a text in which no ['#'] is followed by a digit
    has none). [preprocess_epics] returns one row per occurrence, epic
    after epic, with the epic's id and name, as soon as every epic has
    an occurrence and every integer fits 64 bits, and whenever it
    returns that is its table. The same holds over any alphabet with
    its own decimal digits, of which the [string] model is the
    instance at the ASCII digits. *)
Theorem preprocess_epics_explodes :
  (forall (r : Z) (name : string),
      preprocess_epics
        [ {| ref := r; related_user_stories := Some "#12, #45"; subject := name |} ]
      = Ok [ {| epic_id := r; ep_userstory_id := 12; ep_epic_name := name |};
             {| epic_id := r; ep_userstory_id := 45; ep_epic_name := name |} ]) /\
  (forall s : string, findall s = captures s) /\
  (forall pre ds rest : string,
      captures pre = [] -> all_digits ds = true -> ds <> EmptyString ->
      no_leading_digit rest = true ->
      findall (pre ++ "#" ++ ds ++ rest) = ds :: findall rest) /\
  (forall s : string,
      (forall pre c rest,
          s = (pre ++ String "#" (String c rest))%string -> is_digit c = false) ->
      findall s = []) /\
  (findall "##12" = ["12"] /\
   findall "#12#45" = ["12"; "45"] /\
   findall "#1a2, #, 3 #007" = ["1"; "007"] /\
   findall "12, 45 #" = []) /\
  (forall (epics : list epic_raw) (rows : list epic),
      preprocess_epics epics = Ok rows ->
      rows = flat_map rows_per_occurrence epics /\
      List.length rows =
        list_sum (map (fun e => List.length
                                  match related_user_stories e with
                                  | Some s => captures s
                                  | None => []
                                  end) epics)) /\
  (forall epics : list epic_raw,
      (forall e, In e epics ->
         exists s, related_user_stories e = Some s /\
                   captures s <> [] /\
                   (forall ds, In ds (captures s) -> int_of_digits 0 ds <= int64_max)) ->
      preprocess_epics epics = Ok (flat_map rows_per_occurrence epics)) /\
  (forall (char : Type) (is_hash is_decimal : char -> bool) (decimal_value : char -> Z),
      (forall c, is_hash c = true -> is_decimal c = false) ->
      (forall s, findall_text is_hash is_decimal s = captures_text is_hash is_decimal s) /\
      (forall epics rows,
          preprocess_epics_text is_hash is_decimal decimal_value epics = Ok rows ->
          rows = flat_map (rows_per_occurrence_text is_hash is_decimal decimal_value)
                          epics) /\
      (forall epics,
          (forall e, In e epics ->
             exists s, et_related_user_stories e = Some s /\
                       captures_text is_hash is_decimal s <> [] /\
                       (forall ds, In ds (captures_text is_hash is_decimal s) ->
                                   int_of_text decimal_value 0 ds <= int64_max)) ->
          preprocess_epics_text is_hash is_decimal decimal_value epics
          = Ok (flat_map (rows_per_occurrence_text is_hash is_decimal decimal_value)
                         epics))) /\
  (forall epics : list epic_raw,
      preprocess_epics epics
      = preprocess_epics_text (fun c => Ascii.eqb c "#") is_digit digit_value
          (map text_of_epic epics)).
Proof.
  split; [intros r name; reflexivity |].
  split; [apply findall_is_captures |].
  split; [intros pre ds rest Hpre Hds Hne Hrest;
          rewrite !findall_is_captures; now apply captures_occurrence |].
  split; [intros s H; rewrite findall_is_captures; now apply captures_none |].
  split; [repeat split |].
  split.
  { intros epics rows H. apply preprocess_epics_ok in H as [-> _].
    rewrite (flat_map_ext _ _ rows_per_occurrence_eq).
    split; [reflexivity |].
    induction epics as [| e epics IH]; [reflexivity |].
    cbn [flat_map map list_sum]. rewrite length_app, IH.
    unfold rows_per_occurrence. now rewrite length_map. }
  split.
  { intros epics H.
    assert (Hok : exists rows, preprocess_epics epics = Ok rows).
    { apply preprocess_epics_ok_iff. intros e He.
      destruct (H e He) as (s & Hs & Hne & Hfit).
      unfold occurrences. rewrite Hs, findall_is_captures. now split. }
    destruct Hok as [rows Hrows]. rewrite Hrows.
    apply preprocess_epics_ok in Hrows as [-> _].
    now rewrite (flat_map_ext _ _ rows_per_occurrence_eq). }
  split.
  { intros char is_hash is_decimal decimal_value Hhash.
    split; [intros s; apply (findall_text_from_captures is_hash is_decimal Hhash) |].
    split; [apply (preprocess_epics_text_ok is_hash is_decimal decimal_value Hhash) |].
    apply (preprocess_epics_text_returns is_hash is_decimal decimal_value Hhash). }
  apply preprocess_epics_as_text.
Qed.

(** An epic whose field is missing or holds no [#<integer>] makes
    [astype(int)] fail on the whole table. *)
Remark epic_without_reference_fails (epics : list epic_raw) :
  (exists e, In e epics /\ occurrences e = []) ->
  exists err, preprocess_epics epics = Err err.
Proof.
  intros (e & He & Hocc).
  destruct (preprocess_epics epics) as [rows | err] eqn:E; [| now exists err].
  apply preprocess_epics_ok in E as [_ Hall]. now destruct (Hall e He).
Qed.

(** ** Sorting and lookup *)

Lemma insert_uniq_In {A : Type} (cmp : A -> A -> comparison)
    (Heq : forall x y, cmp x y = Eq -> x = y) (x : A) (l : list A) (z : A) :
  In z (insert_uniq cmp x l) <-> z = x \/ In z l.
Proof.
  induction l as [| y l IH]; cbn [insert_uniq].
  - cbn. intuition.
  - destruct (cmp x y) eqn:E.
    + apply Heq in E. subst. cbn. intuition.
    + cbn. intuition.
    + cbn [In]. rewrite IH. intuition.
Qed.

Lemma sort_uniq_In {A : Type} (cmp : A -> A -> comparison)
    (Heq : forall x y, cmp x y = Eq -> x = y) (l : list A) (z : A) :
  In z (sort_uniq cmp l) <-> In z l.
Proof.
  induction l as [| x l IH]; [reflexivity |].
  unfold sort_uniq. cbn [fold_right]. fold (sort_uniq cmp l).
  rewrite insert_uniq_In by assumption. rewrite IH. cbn. intuition.
Qed.

Lemma string_compare_eq (a b : string) : String.compare a b = Eq -> a = b.
Proof. apply String.compare_eq_iff. Qed.

Lemma group_key_compare_eq (a b : group_key) : group_key_compare a b = Eq -> a = b.
Proof.
  unfold group_key_compare. destruct a as [d k], b as [d' k']. cbn [fst snd].
  destruct (Z.compare d d') eqn:E; try discriminate.
  apply Z.compare_eq in E. intros H. apply string_compare_eq in H. congruence.
Qed.

Lemma group_key_eqb_eq (a b : group_key) : group_key_eqb a b = true <-> a = b.
Proof.
  unfold group_key_eqb. destruct a as [d k], b as [d' k']. cbn [fst snd].
  rewrite andb_true_iff, Z.eqb_eq, String.eqb_eq. split.
  - intros [-> ->]. reflexivity.
  - intros H. inversion H. auto.
Qed.

Section Assoc.
Context {K V : Type} (eqb : K -> K -> bool).
Hypothesis eqb_eq : forall a b, eqb a b = true <-> a = b.

Lemma assoc_combine_map (f : K -> V) (ks : list K) (k : K) :
  In k ks -> assoc eqb k (combine ks (map f ks)) = Some (f k).
Proof.
  induction ks as [| k' ks IH]; intros Hin; [contradiction |].
  cbn [map combine assoc]. destruct (eqb k' k) eqn:E.
  - apply eqb_eq in E. now subst.
  - destruct Hin as [-> | Hin]; [| now apply IH].
    assert (eqb k k = true) by now apply eqb_eq. congruence.
Qed.

Lemma assoc_combine_notin (vs : list V) (ks : list K) (k : K) :
  ~ In k ks -> assoc eqb k (combine ks vs) = None.
Proof.
  revert vs. induction ks as [| k' ks IH]; intros vs Hin; [reflexivity |].
  destruct vs as [| v vs]; [reflexivity |].
  cbn [combine assoc]. destruct (eqb k' k) eqn:E.
  - apply eqb_eq in E. subst. exfalso. apply Hin. now left.
  - apply IH. intros H. apply Hin. now right.
Qed.

Lemma graph_as_combine (f : K -> V) (ks : list K) :
  map (fun k => (k, f k)) ks = combine ks (map f ks).
Proof. induction ks as [| k ks IH]; cbn; [reflexivity | now rewrite IH]. Qed.
End Assoc.

Lemma fold_min_spec (l : list Z) : forall d,
  let m := fold_left Z.min l d in
  (m = d \/ In m l) /\ m <= d /\ (forall x, In x l -> m <= x).
Proof.
  induction l as [| y l IH]; intros d; cbn [fold_left].
  - cbv zeta. split; [now left |]. split; [lia | intros x []].
  - specialize (IH (Z.min d y)). cbv zeta in *.
    destruct IH as (Hin & Hle & Hall). split; [| split].
    + destruct Hin as [Hm | Hm]; [| right; now right].
      rewrite Hm. destruct (Z.min_spec d y) as [[_ ->] | [_ ->]]; [now left | right; now left].
    + lia.
    + intros x [<- | Hx]; [lia | now apply Hall].
Qed.

Lemma fold_max_spec (l : list Z) : forall d,
  let m := fold_left Z.max l d in
  (m = d \/ In m l) /\ d <= m /\ (forall x, In x l -> x <= m).
Proof.
  induction l as [| y l IH]; intros d; cbn [fold_left].
  - cbv zeta. split; [now left |]. split; [lia | intros x []].
  - specialize (IH (Z.max d y)). cbv zeta in *.
    destruct IH as (Hin & Hle & Hall). split; [| split].
    + destruct Hin as [Hm | Hm]; [| right; now right].
      rewrite Hm. destruct (Z.max_spec d y) as [[_ ->] | [_ ->]]; [right; now left | now left].
    + lia.
    + intros x [<- | Hx]; [lia | now apply Hall].
Qed.

Lemma index_min_spec (idx : list Timestamp) (lo : Timestamp) :
  index_min idx = Some lo -> In lo idx /\ (forall x, In x idx -> lo <= x).
Proof.
  destruct idx as [| d idx]; [discriminate |]. cbn [index_min].
  intros H. inversion H. pose proof (fold_min_spec idx d) as (Hin & Hle & Hall).
  cbv zeta in *. split.
  - destruct Hin as [-> | Hin]; [now left | now right].
  - intros x [<- | Hx]; [assumption | now apply Hall].
Qed.

Lemma index_max_spec (idx : list Timestamp) (hi : Timestamp) :
  index_max idx = Some hi -> In hi idx /\ (forall x, In x idx -> x <= hi).
Proof.
  destruct idx as [| d idx]; [discriminate |]. cbn [index_max].
  intros H. inversion H. pose proof (fold_max_spec idx d) as (Hin & Hle & Hall).
  cbv zeta in *. split.
  - destruct Hin as [-> | Hin]; [now left | now right].
  - intros x [<- | Hx]; [assumption | now apply Hall].
Qed.

(** ** The calendar aggregators *)

Section Aggregator.
Variable column : string.
Variable key : task_daily -> option string.
Hypothesis column_known : column = "assignee" \/ column = "epic_name".

Lemma keyed_hours_In (l : list task_daily) (g : group_key) (h : Q) :
  In (g, h) (keyed_hours key l) <->
  exists r, In r l /\ key r = Some (snd g) /\ date r = fst g /\ hour r = h.
Proof.
  unfold keyed_hours. rewrite in_flat_map. split.
  - intros (r & Hr & Hin). exists r. destruct (key r) as [k |]; [| contradiction].
    destruct Hin as [E | []]. inversion E. cbn. auto.
  - intros (r & Hr & Hk & Hd & Hh). exists r. split; [assumption |].
    rewrite Hk. left. destruct g as [d k]. cbn [fst snd] in *. now subst.
Qed.

Lemma keyed_hours_keys (l : list task_daily) (g : group_key) :
  In g (map fst (keyed_hours key l)) <->
  exists r, In r l /\ key r = Some (snd g) /\ date r = fst g.
Proof.
  rewrite in_map_iff. split.
  - intros ([g' h] & <- & Hin). apply keyed_hours_In in Hin as (r & Hr & Hk & Hd & _).
    exists r. auto.
  - intros (r & Hr & Hk & Hd). exists (g, hour r). split; [reflexivity |].
    apply keyed_hours_In. exists r. auto.
Qed.

Lemma keyed_hours_filter (l : list task_daily) :
  keyed_hours key (filter (has_key key) l) = keyed_hours key l.
Proof.
  unfold keyed_hours, has_key. induction l as [| r l IH]; [reflexivity |].
  cbn [filter flat_map]. destruct (key r) as [k |] eqn:E.
  - cbn [flat_map]. now rewrite E, IH.
  - assumption.
Qed.

Lemma keyed_hours_nil (l : list task_daily) :
  filter (has_key key) l = [] -> keyed_hours key l = [].
Proof. intros H. now rewrite <- keyed_hours_filter, H. Qed.

Lemma groupby_sum_keys (l : list task_daily) (g : group_key) :
  In g (map fst (groupby_sum key l)) <->
  exists r, In r l /\ key r = Some (snd g) /\ date r = fst g.
Proof.
  unfold groupby_sum. rewrite map_map. cbn [fst]. rewrite map_id.
  rewrite sort_uniq_In by apply group_key_compare_eq.
  apply keyed_hours_keys.
Qed.

Lemma pivot_index_In (l : list task_daily) (d : Timestamp) :
  In d (index (pivot (groupby_sum key l))) <->
  exists r, In r l /\ has_key key r = true /\ date r = d.
Proof.
  cbn [pivot index]. rewrite sort_uniq_In by apply Z.compare_eq.
  rewrite <- (map_map fst fst), in_map_iff. unfold has_key. split.
  - intros (g & <- & Hg). apply groupby_sum_keys in Hg as (r & Hr & Hk & Hd).
    exists r. rewrite Hk. auto.
  - intros (r & Hr & Hk & <-). destruct (key r) as [k |] eqn:E; [| discriminate].
    exists (date r, k). split; [reflexivity |].
    apply groupby_sum_keys. exists r. auto.
Qed.

Lemma pivot_columns_In (l : list task_daily) (c : string) :
  In c (fcolumns (pivot (groupby_sum key l))) <->
  exists r, In r l /\ key r = Some c.
Proof.
  cbn [pivot fcolumns]. rewrite sort_uniq_In by apply string_compare_eq.
  rewrite <- (map_map fst snd), in_map_iff. split.
  - intros (g & <- & Hg). apply groupby_sum_keys in Hg as (r & Hr & Hk & Hd).
    exists r. auto.
  - intros (r & Hr & Hk). exists (date r, c). split; [reflexivity |].
    apply groupby_sum_keys. exists r. auto.
Qed.

(** The aggregator on a frame built from a list of records. *)
Lemma hour_per_day_df_records (l : list task_daily) :
  hour_per_day_df column key (DataFrame_of_records l) =
  match l with
  | [] => Err KeyError
  | _ :: _ =>
      let filled := fillna 0%Q (pivot (groupby_sum key l)) in
      match index_min (index filled), index_max (index filled) with
      | Some min_date, Some max_date =>
          Ok (reset_index (reindex filled (date_range min_date max_date) 0%Q))
      | _, _ => Err ValueError
      end
  end.
Proof.
  unfold hour_per_day_df, DataFrame_of_records. cbn [columns rows].
  destruct l as [| r l]; [reflexivity |].
  destruct column_known as [-> | ->]; reflexivity.
Qed.

Lemma hour_per_day_df_empty :
  hour_per_day_df column key (DataFrame_of_records []) = Err KeyError.
Proof. now rewrite hour_per_day_df_records. Qed.



Lemma hour_per_day_df_ok (l : list task_daily) (s : calendar_series) :
  hour_per_day_df column key (DataFrame_of_records l) = Ok s ->
  exists lo hi,
    index_min (index (pivot (groupby_sum key l))) = Some lo /\
    index_max (index (pivot (groupby_sum key l))) = Some hi /\
    s = reset_index (reindex (fillna 0%Q (pivot (groupby_sum key l)))
                             (date_range lo hi) 0%Q).
Proof.
  rewrite hour_per_day_df_records. destruct l as [| r l]; [discriminate |].
  cbv zeta. cbn [fillna index].
  destruct (index_min _) as [lo |]; [| discriminate].
  destruct (index_max _) as [hi |]; [| discriminate].
  intros H. inversion H. now exists lo, hi.
Qed.

Lemma hour_per_day_df_some_key (l : list task_daily) :
  filter (has_key key) l <> [] ->
  exists s, hour_per_day_df column key (DataFrame_of_records l) = Ok s.
Proof.
  intros Hne. rewrite hour_per_day_df_records.
  destruct l as [| r0 l]; [contradiction |].
  cbv zeta. cbn [fillna index].
  destruct (filter (has_key key) (r0 :: l)) as [| r l'] eqn:E; [contradiction |].
  assert (Hr : In r (filter (has_key key) (r0 :: l))) by (rewrite E; now left).
  apply filter_In in Hr as [Hr Hk].
  assert (Hidx : In (date r) (index (pivot (groupby_sum key (r0 :: l))))).
  { apply pivot_index_In. exists r. auto. }
  destruct (index (pivot (groupby_sum key (r0 :: l)))) as [| d idx]; [contradiction |].
  cbn [index_min index_max]. eexists. reflexivity.
Qed.

(** The date column of the series: every calendar day from the first
    to the last date of a record that has a key. *)
Lemma series_dates (l : list task_daily) (s : calendar_series) :
  hour_per_day_df column key (DataFrame_of_records l) = Ok s ->
  exists lo hi,
    (exists r, In r l /\ has_key key r = true /\ date r = lo) /\
    (exists r, In r l /\ has_key key r = true /\ date r = hi) /\
    (forall r, In r l -> has_key key r = true -> lo <= date r <= hi) /\
    cs_date s = date_range lo hi.
Proof.
  intros H. apply hour_per_day_df_ok in H as (lo & hi & Hlo & Hhi & ->).
  apply index_min_spec in Hlo as [Hlo Hmin].
  apply index_max_spec in Hhi as [Hhi Hmax].
  exists lo, hi. repeat split.
  - now apply pivot_index_In.
  - now apply pivot_index_In.
  - apply Hmin, pivot_index_In. exists r. auto.
  - apply Hmax, pivot_index_In. exists r. auto.
Qed.

Lemma series_columns (l : list task_daily) (s : calendar_series) (c : string) :
  hour_per_day_df column key (DataFrame_of_records l) = Ok s ->
  (In c (cs_columns s) <-> exists r, In r l /\ key r = Some c).
Proof.
  intros H. apply hour_per_day_df_ok in H as (lo & hi & _ & _ & ->).
  cbn [reset_index reindex fillna cs_columns fcolumns].
  apply pivot_columns_In.
Qed.
End Aggregator.

(** ** The cells of a series *)

Lemma sum_nonneg (l : list Q) :
  (forall x, In x l -> (0 <= x)%Q) -> (0 <= sum l)%Q.
Proof.
  induction l as [| x l IH]; intros H; cbn [sum fold_right].
  - apply Qle_refl.
  - fold (sum l). apply (Qle_trans _ (0 + 0)%Q); [apply Qle_refl |].
    apply Qplus_le_compat; [apply H; now left |].
    apply IH. intros y Hy. apply H. now right.
Qed.

Lemma assoc_graph_inv {K V : Type} (eqb : K -> K -> bool)
    (eqb_eq : forall a b, eqb a b = true <-> a = b)
    (f : K -> V) (ks : list K) (k : K) (v : V) :
  assoc eqb k (map (fun k => (k, f k)) ks) = Some v -> v = f k /\ In k ks.
Proof.
  induction ks as [| k' ks IH]; cbn [map assoc]; [discriminate |].
  destruct (eqb k' k) eqn:E.
  - apply eqb_eq in E. subst. intros H. inversion H. split; [reflexivity | now left].
  - intros H. apply IH in H as [-> Hin]. split; [reflexivity | now right].
Qed.


Lemma assoc_In_values {K V : Type} (eqb : K -> K -> bool) (k : K) (v : V)
    (ks : list K) : forall vs,
  assoc eqb k (combine ks vs) = Some v -> In v vs.
Proof.
  induction ks as [| k' ks IH]; intros vs H; [discriminate |].
  destruct vs as [| v' vs]; [discriminate |].
  cbn [combine assoc] in H. destruct (eqb k' k).
  - inversion H. now left.
  - right. now apply IH.
Qed.

Section Cells.
Variable column : string.
Variable key : task_daily -> option string.
Hypothesis column_known : column = "assignee" \/ column = "epic_name".

Lemma groupby_sum_absent (l : list task_daily) (d : Timestamp) (c : string) :
  (forall r, In r l -> ~ (date r = d /\ key r = Some c)) ->
  assoc group_key_eqb (d, c) (groupby_sum key l) = None.
Proof.
  intros Habs. unfold groupby_sum. rewrite graph_as_combine.
  apply (assoc_combine_notin _ group_key_eqb_eq).
  rewrite sort_uniq_In by apply group_key_compare_eq.
  intros Hin. apply keyed_hours_keys in Hin as (r & Hr & Hk & Hd).
  apply (Habs r Hr). auto.
Qed.

Lemma groupby_sum_nonneg (l : list task_daily) (g : group_key) (v : Q) :
  (forall r, In r l -> (0 <= hour r)%Q) ->
  assoc group_key_eqb g (groupby_sum key l) = Some v -> (0 <= v)%Q.
Proof.
  intros Hpos H. unfold groupby_sum in H.
  apply (assoc_graph_inv _ group_key_eqb_eq) in H as [-> _].
  apply sum_nonneg. intros x Hx.
  apply in_map_iff in Hx as ([g' h] & <- & Hin).
  apply filter_In in Hin as [Hin _].
  apply keyed_hours_In in Hin as (r & Hr & _ & _ & <-). now apply Hpos.
Qed.

(** A cell of the series holds the sum of its group, or the literal
    0 that [fillna] and [reindex] put there. *)
Lemma cell_cases (l : list task_daily) (s : calendar_series) (d : Timestamp) (c : string) :
  hour_per_day_df column key (DataFrame_of_records l) = Ok s ->
  In d (cs_date s) -> In c (cs_columns s) ->
  exists v, cell s d c = Some v /\
            (v = 0%Q \/ assoc group_key_eqb (d, c) (groupby_sum key l) = Some v).
Proof.
  intros H. apply (hour_per_day_df_ok column key column_known) in H
    as (lo & hi & _ & _ & ->).
  set (g := groupby_sum key l).
  unfold cell. cbn [reset_index reindex fillna cs_date cs_columns cs_values
                    index fcolumns values pivot].
  set (idx := sort_uniq Z.compare (map (fun g0 => fst (fst g0)) g)).
  set (cols := sort_uniq String.compare (map (fun g0 => snd (fst g0)) g)).
  intros Hd Hc.
  rewrite (assoc_combine_map Z.eqb Z.eqb_eq) by assumption.
  rewrite map_map.
  set (fill := fun x : option Q => match x with Some q => q | None => 0%Q end).
  match goal with
  | |- context [combine cols ?row] =>
      assert (Hrow : exists W : string -> Q,
                 row = map W cols /\
                 (W c = 0%Q \/ assoc group_key_eqb (d, c) g = Some (W c)))
  end.
  { destruct (assoc Z.eqb d _) as [row |] eqn:E.
    - rewrite <- graph_as_combine in E.
      apply (assoc_graph_inv _ Z.eqb_eq) in E as [-> _].
      exists (fun c0 => fill (assoc group_key_eqb (d, c0) g)).
      split; [now rewrite map_map |].
      unfold fill. destruct (assoc group_key_eqb (d, c) g); [now right | now left].
    - exists (fun _ => 0%Q). split; [reflexivity | now left]. }
  destruct Hrow as (W & -> & HW).
  exists (W c). split; [| exact HW].
  now apply (assoc_combine_map String.eqb String.eqb_eq).
Qed.

Lemma cells_filled (l : list task_daily) (s : calendar_series) :
  (forall r, In r l -> (0 <= hour r)%Q) ->
  hour_per_day_df column key (DataFrame_of_records l) = Ok s ->
  forall d c, In d (cs_date s) -> In c (cs_columns s) ->
    exists v, cell s d c = Some v /\ (0 <= v)%Q /\
              ((forall r, In r l -> ~ (date r = d /\ key r = Some c)) -> v = 0%Q).
Proof.
  intros Hpos H d c Hd Hc.
  destruct (cell_cases l s d c H Hd Hc) as (v & Hv & Hcase).
  exists v. split; [assumption |]. split.
  - destruct Hcase as [-> | Hsum]; [apply Qle_refl |].
    now apply (groupby_sum_nonneg l (d, c)).
  - intros Habs. destruct Hcase as [-> | Hsum]; [reflexivity |].
    rewrite (groupby_sum_absent l d c Habs) in Hsum. discriminate.
Qed.

(** The shape of the series: a row of cells per date, a cell per key
    column, no cell below zero. *)
Lemma series_shape (l : list task_daily) (s : calendar_series) :
  (forall r, In r l -> (0 <= hour r)%Q) ->
  hour_per_day_df column key (DataFrame_of_records l) = Ok s ->
  List.length (cs_values s) = List.length (cs_date s) /\
  (forall row, In row (cs_values s) ->
     List.length row = List.length (cs_columns s) /\
     (forall v, In v row -> (0 <= v)%Q)).
Proof.
  intros Hpos H. apply (hour_per_day_df_ok column key column_known) in H
    as (lo & hi & _ & _ & ->).
  set (g := groupby_sum key l).
  cbn [reset_index reindex fillna cs_date cs_columns cs_values
       index fcolumns values pivot].
  set (cols := sort_uniq String.compare (map (fun g0 => snd (fst g0)) g)).
  split; [apply length_map |].
  intros row Hrow. apply in_map_iff in Hrow as (d & <- & _).
  match goal with
  | |- context [match ?a with Some _ => _ | None => _ end] =>
      destruct a as [row |] eqn:E
  end.
  - apply assoc_In_values in E. rewrite map_map in E.
    apply in_map_iff in E as (d' & <- & _). rewrite map_map, length_map.
    split; [reflexivity |].
    intros v Hv. apply in_map_iff in Hv as (c & <- & _).
    destruct (assoc group_key_eqb (d', c) g) as [q |] eqn:Eq; [| apply Qle_refl].
    now apply (groupby_sum_nonneg l (d', c)).
  - rewrite length_map. split; [reflexivity |].
    intros v Hv. apply in_map_iff in Hv as (c & <- & _). apply Qle_refl.
Qed.

Lemma series_zero_filled (l : list task_daily) (s : calendar_series) :
  (forall r, In r l -> (0 <= hour r)%Q) ->
  hour_per_day_df column key (DataFrame_of_records l) = Ok s ->
  zero_filled key l s.
Proof.
  intros Hpos H. destruct (series_shape l s Hpos H) as [Hlen Hrows].
  split; [assumption |]. split; [assumption |].
  now apply cells_filled.
Qed.

End Cells.

(** ** The small project, evaluated *)


Example ex_daily :
  map (fun r => (date r, epic_name r, hour r)) (rows (get_task_daily_df ex_merged)) =
  [ (19842, None, (8 # 4)%Q); (19843, None, (8 # 4)%Q); (19845, None, (8 # 4)%Q);
    (19846, None, (8 # 4)%Q); (19850, Some "E", (4 # 1)%Q) ].
Proof. vm_compute. reflexivity. Qed.


Example ex_assignee_series :
  option_map cs_date
    (match get_assignee_hour_per_day_df (get_task_daily_df ex_merged) with
     | Ok s => Some s
     | Err _ => None
     end) =
  Some [19842; 19843; 19844; 19845; 19846; 19847; 19848; 19849; 19850].
Proof. vm_compute. reflexivity. Qed.

(** A task from Saturday 2024-01-06 to Monday 2024-01-08 with 8 hours
    and no holiday: one record, on the Monday, with the 8 hours. *)
Example ex_saturday_start :
  map (fun r => (date r, hour r))
      (rows (get_task_daily_df_with []
               [ {| row_task := {| task_id := 4; userstory_id := 1;
                                   assigned_to := Some "ann";
                                   start_date := days_from_civil 2024 1 6;
                                   end_date := days_from_civil 2024 1 8;
                                   actual_time := 8%Q |};
                    row_userstory := None;
                    row_epic := None |} ])) =
  [ (days_from_civil 2024 1 8, (8 # 1)%Q) ].
Proof. vm_compute. reflexivity. Qed.

(** With a Friday as a holiday the normalized range is a single
    Saturday: no working day, no record, and the task's 8 hours are in
    no series. *)
Example ex_friday_dropped :
  normalized_range [ex_friday] ex_friday_row = (ex_friday + 1, ex_friday + 1) /\
  working_day_count [ex_friday] (ex_friday + 1) (ex_friday + 1) = 0 /\
  get_work_day (ex_friday + 1) (ex_friday + 1) [ex_friday] = 1 /\
  rows (get_task_daily_df_with [ex_friday] [ex_friday_row]) = [].
Proof. vm_compute. repeat split. Qed.

(** ** The aggregators and missing references *)

(** C6. For every list of allocation records with non-negative hours
    and each of the two aggregators: when the aggregator returns a
    series, the series has one row of cells per date and one cell per
    key column; every cell holds a value, never a missing one, and the
    value is at least 0; and the cell of a date and a key that no record
    has together is the literal 0. *)
Theorem cells_nonnegative_and_zero_filled :
  forall task_daily_list : list task_daily,
    (forall r, In r task_daily_list -> (0 <= hour r)%Q) ->
    (forall s,
        get_assignee_hour_per_day_df (DataFrame_of_records task_daily_list) = Ok s ->
        zero_filled assignee task_daily_list s) /\
    (forall s,
        get_project_hour_per_day_df (DataFrame_of_records task_daily_list) = Ok s ->
        zero_filled epic_name task_daily_list s).
Proof.
  intros l Hpos. split; intros s H.
  - apply (series_zero_filled "assignee" assignee); auto.
  - apply (series_zero_filled "epic_name" epic_name); auto.
Qed.

Lemma cells_nonnegative_and_zero_filled_witness :
  exists s,
    get_assignee_hour_per_day_df (get_task_daily_df ex_merged) = Ok s /\
    zero_filled assignee (rows (get_task_daily_df ex_merged)) s /\
    cell s 19844 "bob" = Some 0%Q.
Proof.
  assert (Hpos : forall r, In r (rows (get_task_daily_df ex_merged)) -> (0 <= hour r)%Q).
  { intros r Hr. vm_compute in Hr.
    repeat (destruct Hr as [<- | Hr]; [vm_compute; discriminate |]). contradiction. }
  eexists. split; [vm_compute; reflexivity |].
  split; [| vm_compute; reflexivity].
  apply (proj1 (cells_nonnegative_and_zero_filled
                  (rows (get_task_daily_df ex_merged)) Hpos)).
  vm_compute. reflexivity.
Defined.






(** C10. When the merged table gives no allocation record (it is empty,
    or no row has a working day in its normalized range), the daily
    table has no column and both aggregators fail on it with a key
    error; an aggregator that returns a series was given at least one
    record. *)
Theorem empty_daily_table_fails :
  forall (holiday_list : list Timestamp) (merge_data_df : list merged_row),
    let task_daily_df := get_task_daily_df_with holiday_list merge_data_df in
    ((merge_data_df = [] \/
      (forall row, In row merge_data_df ->
         let '(s, e) := normalized_range holiday_list row in
         working_day_count holiday_list s e = 0)) ->
     rows task_daily_df = []) /\
    (rows task_daily_df = [] ->
     columns task_daily_df = [] /\
     get_assignee_hour_per_day_df task_daily_df = Err KeyError /\
     get_project_hour_per_day_df task_daily_df = Err KeyError) /\
    (forall s,
        get_assignee_hour_per_day_df task_daily_df = Ok s \/
        get_project_hour_per_day_df task_daily_df = Ok s ->
        rows task_daily_df <> []).
Proof.
  intros hl m. cbv zeta. unfold get_task_daily_df_with.
  assert (Hempty : forall l : list task_daily, l = [] ->
            get_assignee_hour_per_day_df (DataFrame_of_records l) = Err KeyError /\
            get_project_hour_per_day_df (DataFrame_of_records l) = Err KeyError).
  { intros l ->. split; reflexivity. }
  split; [| split].
  - cbn [DataFrame_of_records rows].
    intros [-> | Hall]; [reflexivity |].
    induction m as [| row m IH]; [reflexivity |]. cbn [flat_map].
    rewrite IH by (intros row' Hrow'; apply Hall; now right).
    rewrite app_nil_r.
    pose proof (task_daily_of_row_sum hl row) as Hsum. cbv zeta in Hsum.
    specialize (Hall row (or_introl eq_refl)).
    destruct (normalized_range hl row) as [s e]. cbn [fst snd] in Hsum.
    now rewrite Hall in Hsum.
  - cbn [DataFrame_of_records rows]. intros E.
    split; [now rewrite E |]. now apply Hempty.
  - cbn [DataFrame_of_records rows]. intros s H E.
    destruct (Hempty _ E) as [Ha Hp].
    destruct H as [H | H]; congruence.
Qed.


(** * Further properties *)

(** ** The date normalizer *)

Lemma skip_holidays_bounds (hl : list Timestamp) (fuel : nat) : forall d,
  d <= skip_holidays fuel d hl <= d + Z.of_nat fuel.
Proof.
  induction fuel as [| fuel IH]; intros d; cbn [skip_holidays]; [lia |].
  destruct (mem d hl); [| lia].
  specialize (IH (d + Timedelta 1)). unfold Timedelta in *. lia.
Qed.

Lemma weekend_step_bounds (d : Timestamp) :
  d <= (if is_weekend d then d + Timedelta (7 - weekday d) else d) <= d + 2.
Proof.
  destruct (is_weekend d) eqn:E; [| lia].
  pose proof (weekend_to_monday d E) as (_ & H & _). cbv zeta in H. lia.
Qed.

Lemma weekend_step_monotone (d d' : Timestamp) :
  d <= d' ->
  (if is_weekend d then d + Timedelta (7 - weekday d) else d)
  <= (if is_weekend d' then d' + Timedelta (7 - weekday d') else d').
Proof.
  intros H. unfold is_weekend, weekday, Timedelta.
  destruct (Z.eqb_spec ((d + 3) mod 7) 5); destruct (Z.eqb_spec ((d + 3) mod 7) 6);
    destruct (Z.eqb_spec ((d' + 3) mod 7) 5); destruct (Z.eqb_spec ((d' + 3) mod 7) 6);
    cbn [orb];
    pose proof (Z.mod_pos_bound (d + 3) 7 ltac:(lia));
    pose proof (Z.mod_pos_bound (d' + 3) 7 ltac:(lia));
    pose proof (Z.div_mod (d + 3) 7 ltac:(lia));
    pose proof (Z.div_mod (d' + 3) 7 ltac:(lia));
    lia.
Qed.

Lemma first_free_monotone (hl : list Timestamp) (d d' r r' : Timestamp) :
  d <= d' -> holiday_loop hl d r -> holiday_loop hl d' r' -> r <= r'.
Proof.
  intros Hd H H'.
  apply holiday_loop_first_free in H as (_ & _ & Hall).
  apply holiday_loop_first_free in H' as (Hle' & Hfree' & _).
  destruct (Z.le_gt_cases r r') as [? | Hlt]; [assumption |].
  exfalso. apply Hfree', Hall. lia.
Qed.

Lemma validate_monotone (hl : list Timestamp) (d d' : Timestamp) :
  d <= d' ->
  validate_start_date_end_date d hl <= validate_start_date_end_date d' hl.
Proof.
  intros H. unfold validate_start_date_end_date.
  eapply first_free_monotone; [| apply skip_holidays_runs | apply skip_holidays_runs].
  now apply weekend_step_monotone.
Qed.

Lemma validate_working_day (hl : list Timestamp) (d : Timestamp) :
  is_working_day hl d = true -> validate_start_date_end_date d hl = d.
Proof.
  unfold is_working_day, validate_start_date_end_date. intros H.
  apply andb_true_iff in H as [Hw Hm]. apply negb_true_iff in Hw, Hm.
  rewrite Hw. destruct (List.length hl); cbn [skip_holidays]; [reflexivity |].
  now rewrite Hm.
Qed.

Lemma validate_first_free (hl : list Timestamp) (d : Timestamp) :
  (if is_weekend d then d + Timedelta (7 - weekday d) else d)
    <= validate_start_date_end_date d hl /\
  ~ In (validate_start_date_end_date d hl) hl.
Proof.
  unfold validate_start_date_end_date.
  pose proof (skip_holidays_runs hl
                (if is_weekend d then d + Timedelta (7 - weekday d) else d)) as Hloop.
  apply holiday_loop_first_free in Hloop as (Hle & Hfree & _). now split.
Qed.

Lemma validate_bounds (hl : list Timestamp) (d : Timestamp) :
  d <= validate_start_date_end_date d hl <= d + 2 + Z.of_nat (List.length hl).
Proof.
  unfold validate_start_date_end_date.
  pose proof (weekend_step_bounds d) as H1.
  pose proof (skip_holidays_bounds hl (List.length hl)
                (if is_weekend d then d + Timedelta (7 - weekday d) else d)) as H2.
  lia.
Qed.

(** X1. The normalizer never moves a date back, and moves it forward by
    at most two days more than there are holidays in the list. *)
Theorem validate_never_earlier :
  forall (date : Timestamp) (holiday_list : list Timestamp),
    date <= validate_start_date_end_date date holiday_list
         <= date + 2 + Z.of_nat (List.length holiday_list).
Proof. intros d hl. apply validate_bounds. Qed.

(** X2. The dates the normalizer leaves alone are exactly the working
    days: a date is returned unchanged if and only if it is neither a
    Saturday or Sunday nor a holiday. *)
Theorem validate_unchanged_iff_working_day :
  forall (date : Timestamp) (holiday_list : list Timestamp),
    validate_start_date_end_date date holiday_list = date <->
    is_working_day holiday_list date = true.
Proof.
  intros d hl. split; [| apply validate_working_day].
  intros H. unfold is_working_day.
  destruct (validate_first_free hl d) as [Hle Hfree].
  rewrite H in Hle, Hfree.
  destruct (is_weekend d) eqn:E.
  - pose proof (weekend_to_monday d E) as (_ & Hlt & _). cbv zeta in Hlt. lia.
  - apply mem_false_iff in Hfree. now rewrite Hfree.
Qed.

(** X3. The normalizer is monotone: of two dates, the later one is not
    normalized to an earlier date. So a task whose end date is not
    before its start date is expanded over the range from its
    normalized start to its normalized end, without clamping. *)
Theorem ordered_dates_stay_ordered :
  (forall (holiday_list : list Timestamp) (d d' : Timestamp),
      d <= d' ->
      validate_start_date_end_date d holiday_list
      <= validate_start_date_end_date d' holiday_list) /\
  (forall (holiday_list : list Timestamp) (row : merged_row),
      start_date (row_task row) <= end_date (row_task row) ->
      normalized_range holiday_list row =
      (validate_start_date_end_date (start_date (row_task row)) holiday_list,
       validate_start_date_end_date (end_date (row_task row)) holiday_list)).
Proof.
  split; [intros hl d d'; apply validate_monotone |].
  intros hl row H. unfold normalized_range.
  pose proof (validate_monotone hl _ _ H) as Hle.
  destruct (Z.ltb_spec (validate_start_date_end_date (end_date (row_task row)) hl)
                       (validate_start_date_end_date (start_date (row_task row)) hl));
    [lia | reflexivity].
Qed.

(** X4. With the holiday list of the source, the normalizer always
    returns a working day, at most four days after the date it was
    given, and normalizing that day again changes nothing. *)
Theorem hard_coded_normalizer_returns_working_day :
  forall date : Timestamp,
    let r := validate_start_date_end_date date get_holiday_list in
    is_working_day get_holiday_list r = true /\
    validate_start_date_end_date r get_holiday_list = r /\
    date <= r <= date + 4.
Proof.
  intros d. cbv zeta.
  pose proof (normalized_date_is_working_day d) as Hw.
  split; [assumption |]. split; [now apply validate_working_day |].
  split; [apply validate_bounds |].
  unfold validate_start_date_end_date.
  pose proof (weekend_step_bounds d) as Hstep.
  remember (if is_weekend d then d + Timedelta (7 - weekday d) else d) as d1 eqn:Ed1.
  clear Ed1 Hw.
  destruct (mem d1 get_holiday_list) eqn:Hm.
  - apply mem_In in Hm. rewrite holiday_list_value in Hm. cbn [In] in Hm.
    repeat (destruct Hm as [<- | Hm];
            [match goal with
             | |- ?x <= _ => let v := eval vm_compute in x in change x with v
             end; lia |]).
    contradiction.
  - replace (List.length get_holiday_list) with 18%nat by (vm_compute; reflexivity).
    cbn [skip_holidays]. rewrite Hm. lia.
Qed.

(** ** Counting working days *)

Lemma filter_length_mono {A : Type} (p q : A -> bool) (l : list A) :
  (forall x, In x l -> p x = true -> q x = true) ->
  (List.length (filter p l) <= List.length (filter q l))%nat.
Proof.
  induction l as [| x l IH]; intros H; [reflexivity |].
  cbn [filter].
  assert (IH' : (List.length (filter p l) <= List.length (filter q l))%nat).
  { apply IH. intros y Hy. apply H. now right. }
  destruct (p x) eqn:Ep.
  - rewrite (H x (or_introl eq_refl) Ep). cbn [List.length]. lia.
  - destruct (q x); cbn [List.length]; lia.
Qed.

Lemma date_range_app (s m e : Timestamp) :
  s <= m + 1 -> m <= e ->
  date_range s e = (date_range s m ++ date_range (m + 1) e)%list.
Proof.
  intros Hs He.
  remember (Z.to_nat (m + 1 - s)) as n eqn:En.
  revert s Hs En. induction n as [| n IH]; intros s Hs En.
  - assert (s = m + 1) as -> by lia.
    rewrite (date_range_empty (m + 1) m) by lia. reflexivity.
  - rewrite (date_range_cons s e) by lia. rewrite (date_range_cons s m) by lia.
    cbn [app]. f_equal. apply IH; lia.
Qed.

Lemma weekday_add (d i : Z) : weekday (d + i) = (weekday d + i) mod 7.
Proof.
  unfold weekday. replace (d + i + 3) with ((d + 3) + i) by lia.
  now rewrite Zplus_mod_idemp_l.
Qed.

(** Any seven consecutive days hold five working days when there is no
    holiday. *)
Lemma week_has_five_working_days (s : Timestamp) :
  working_day_count [] s (s + 6) = 5.
Proof.
  unfold working_day_count.
  rewrite (date_range_cons s) by lia.
  rewrite (date_range_cons (s + 1)) by lia.
  rewrite (date_range_cons (s + 1 + 1)) by lia.
  rewrite (date_range_cons (s + 1 + 1 + 1)) by lia.
  rewrite (date_range_cons (s + 1 + 1 + 1 + 1)) by lia.
  rewrite (date_range_cons (s + 1 + 1 + 1 + 1 + 1)) by lia.
  rewrite (date_range_cons (s + 1 + 1 + 1 + 1 + 1 + 1)) by lia.
  rewrite date_range_empty by lia.
  unfold is_working_day, is_weekend. cbn [mem existsb negb andb filter].
  replace (s + 1 + 1 + 1 + 1 + 1 + 1) with (s + 6) by lia.
  replace (s + 1 + 1 + 1 + 1 + 1) with (s + 5) by lia.
  replace (s + 1 + 1 + 1 + 1) with (s + 4) by lia.
  replace (s + 1 + 1 + 1) with (s + 3) by lia.
  replace (s + 1 + 1) with (s + 2) by lia.
  rewrite !weekday_add.
  pose proof (weekday_bounds s) as Hw.
  assert (Hcases : weekday s = 0 \/ weekday s = 1 \/ weekday s = 2 \/ weekday s = 3 \/
                   weekday s = 4 \/ weekday s = 5 \/ weekday s = 6) by lia.
  destruct Hcases as [E | [E | [E | [E | [E | [E | E]]]]]]; rewrite E; reflexivity.
Qed.

Lemma whole_weeks_count (k : nat) : forall s,
  working_day_count [] s (s + 7 * Z.of_nat k - 1) = 5 * Z.of_nat k.
Proof.
  induction k as [| k IH]; intros s.
  - unfold working_day_count. rewrite date_range_empty by lia. reflexivity.
  - pose proof (week_has_five_working_days s) as Hweek.
    specialize (IH (s + 7)).
    unfold working_day_count in *.
    rewrite (date_range_app s (s + 6)) by lia.
    rewrite filter_app, length_app, Nat2Z.inj_add.
    replace (s + 6 + 1) with (s + 7) by lia.
    replace (s + 7 * Z.of_nat (S k) - 1) with (s + 7 + 7 * Z.of_nat k - 1) by lia.
    lia.
Qed.

(** X5. [get_work_day] is at most the number of days of the range (and
    at most 1 on an empty range), and a longer holiday list never gives
    a larger count. *)
Theorem get_work_day_bounds :
  forall (start_date end_date : Timestamp) (holiday_list : list Timestamp),
    get_work_day start_date end_date holiday_list
      <= Z.max 1 (end_date - start_date + 1) /\
    (forall more_holidays : list Timestamp,
        (forall d, In d holiday_list -> In d more_holidays) ->
        get_work_day start_date end_date more_holidays
        <= get_work_day start_date end_date holiday_list).
Proof.
  intros s e hl. split.
  - rewrite get_work_day_eq. unfold working_day_count.
    pose proof (filter_length_le (is_working_day hl) (date_range s e)) as H.
    rewrite date_range_length in H.
    destruct (Z.eqb_spec (Z.of_nat (List.length (filter (is_working_day hl) (date_range s e)))) 0);
      lia.
  - intros hl' Hsub. rewrite !get_work_day_eq. unfold working_day_count.
    assert (H : (List.length (filter (is_working_day hl') (date_range s e))
                 <= List.length (filter (is_working_day hl) (date_range s e)))%nat).
    { apply filter_length_mono. intros x _ Hx.
      apply is_working_day_iff in Hx as (H5 & H6 & Hfree).
      apply is_working_day_iff. repeat split; try assumption.
      intros Hin. apply Hfree. now apply Hsub. }
    destruct (Z.eqb_spec (Z.of_nat (List.length (filter (is_working_day hl') (date_range s e)))) 0);
      destruct (Z.eqb_spec (Z.of_nat (List.length (filter (is_working_day hl) (date_range s e)))) 0);
      lia.
Qed.

(** X6. Without holidays, a range of [k] whole weeks counts [5 k]
    working days, on whatever weekday it starts. *)
Theorem get_work_day_whole_weeks :
  forall (start_date : Timestamp) (k : Z),
    1 <= k ->
    get_work_day start_date (start_date + 7 * k - 1) [] = 5 * k.
Proof.
  intros s k Hk. rewrite get_work_day_eq.
  pose proof (whole_weeks_count (Z.to_nat k) s) as H.
  rewrite Z2Nat.id in H by lia. rewrite H.
  destruct (Z.eqb_spec (5 * k) 0); [lia | reflexivity].
Qed.

Lemma get_work_day_whole_weeks_witness :
  get_work_day (days_from_civil 2024 1 3) (days_from_civil 2024 1 3 + 7 * 2 - 1) [] = 5 * 2.
Proof.
  apply (get_work_day_whole_weeks (days_from_civil 2024 1 3) 2). lia.
Defined.

(** ** The expander *)

Lemma task_daily_of_row_dates (hl : list Timestamp) (row : merged_row) :
  map date (task_daily_of_row hl row) =
  filter (is_working_day hl)
         (date_range (fst (normalized_range hl row)) (snd (normalized_range hl row))).
Proof.
  rewrite task_daily_of_row_eq. cbv zeta. rewrite map_map. cbn [date]. apply map_id.
Qed.

Lemma task_daily_of_row_In (hl : list Timestamp) (row : merged_row) (r : task_daily) :
  In r (task_daily_of_row hl row) ->
  fst (normalized_range hl row) <= date r <= snd (normalized_range hl row) /\
  is_working_day hl (date r) = true /\
  hour r = (actual_time (row_task row)
            / inject_Z (get_work_day (fst (normalized_range hl row))
                                     (snd (normalized_range hl row)) hl))%Q.
Proof.
  rewrite task_daily_of_row_eq. cbv zeta. rewrite in_map_iff.
  intros (d & <- & Hd). apply filter_In in Hd as [Hd Hw]. apply date_range_In in Hd.
  cbn [date hour]. auto.
Qed.

(** X7. Every record of the daily table comes from a row of the merged
    table: it carries that row's assignee, epic name and task id, its
    date is a working day inside the row's normalized range (never a
    Saturday, a Sunday or a holiday), and its hour is the row's actual
    time divided by the working-day count of the range. *)
Theorem daily_records_are_working_days :
  forall (holiday_list : list Timestamp) (merge_data_df : list merged_row)
         (r : task_daily),
    In r (rows (get_task_daily_df_with holiday_list merge_data_df)) ->
    exists row,
      In row merge_data_df /\
      assignee r = row_assigned_to_task row /\
      epic_name r = row_epic_name row /\
      daily_task_id r = task_id (row_task row) /\
      fst (normalized_range holiday_list row) <= date r
        <= snd (normalized_range holiday_list row) /\
      weekday (date r) <> 5 /\ weekday (date r) <> 6 /\
      ~ In (date r) holiday_list /\
      hour r = (actual_time (row_task row)
                / inject_Z (get_work_day (fst (normalized_range holiday_list row))
                                         (snd (normalized_range holiday_list row))
                                         holiday_list))%Q.
Proof.
  intros hl m r Hr. unfold get_task_daily_df_with in Hr.
  cbn [DataFrame_of_records rows] in Hr.
  apply in_flat_map in Hr as (row & Hrow & Hr). exists row.
  pose proof (task_daily_of_row_epic hl row r Hr) as [He Ha].
  pose proof (task_daily_of_row_id hl row r Hr) as Hid.
  pose proof (task_daily_of_row_In hl row r Hr) as (Hd & Hw & Hh).
  apply is_working_day_iff in Hw as (H5 & H6 & Hfree).
  repeat split; try assumption; lia.
Qed.

Lemma daily_records_are_working_days_witness :
  exists row,
    In row ex_merged /\
    assignee (Build_task_daily 19843 (Some "ann") None 1 (8 / inject_Z 4)) =
      row_assigned_to_task row.
Proof.
  assert (Hin : In (Build_task_daily 19843 (Some "ann") None 1 (8 / inject_Z 4))
                   (rows (get_task_daily_df_with get_holiday_list ex_merged))).
  { vm_compute. auto. }
  destruct (daily_records_are_working_days get_holiday_list ex_merged _ Hin)
    as (row & Hrow & Ha & _).
  exists row. split; assumption.
Defined.

Lemma NoDup_filter {A : Type} (p : A -> bool) (l : list A) :
  NoDup l -> NoDup (filter p l).
Proof.
  induction 1 as [| x l Hx Hnd IH]; cbn [filter]; [constructor |].
  destruct (p x); [| assumption].
  constructor; [| assumption]. intros H. apply filter_In in H as [H _]. contradiction.
Qed.

(** X8. A row is spread evenly: it gives exactly one record for each
    working day of its normalized range and none for any other date,
    as many records as the range has working days, all with the same
    hour. *)
Theorem one_record_per_working_day :
  forall (holiday_list : list Timestamp) (row : merged_row),
    let s := fst (normalized_range holiday_list row) in
    let e := snd (normalized_range holiday_list row) in
    let records := task_daily_of_row holiday_list row in
    NoDup (map date records) /\
    (forall d, In d (map date records) <->
               s <= d <= e /\ is_working_day holiday_list d = true) /\
    Z.of_nat (List.length records) = working_day_count holiday_list s e /\
    (forall r r', In r records -> In r' records -> hour r = hour r').
Proof.
  intros hl row. cbv zeta. rewrite task_daily_of_row_dates.
  split; [apply NoDup_filter, date_range_NoDup |].
  split; [intros d; rewrite filter_In, date_range_In; reflexivity |].
  split.
  - unfold working_day_count. rewrite <- task_daily_of_row_dates.
    now rewrite length_map.
  - intros r r' Hr Hr'.
    apply task_daily_of_row_In in Hr as (_ & _ & ->).
    apply task_daily_of_row_In in Hr' as (_ & _ & ->). reflexivity.
Qed.

Lemma hour_share_bounds (a : Q) (n : Z) :
  (0 <= a)%Q -> 1 <= n -> (0 <= a / inject_Z n)%Q /\ (a / inject_Z n <= a)%Q.
Proof.
  intros Ha Hn.
  assert (Hpos : (0 < inject_Z n)%Q).
  { unfold Qlt, inject_Z. cbn. lia. }
  split.
  - apply Qle_shift_div_l; [assumption |]. now rewrite Qmult_0_l.
  - apply Qle_shift_div_r; [assumption |].
    destruct a as [p q]. unfold Qle, Qmult, inject_Z in *. cbn in *. nia.
Qed.

(** X9. When no actual time is negative, no hour of the daily table is
    negative and none exceeds the actual time of its task; so the two
    aggregators, on the daily table of such a merged table, return
    series whose cells are all filled and non-negative. *)
Theorem nonnegative_times_give_nonnegative_series :
  forall (holiday_list : list Timestamp) (merge_data_df : list merged_row),
    (forall row, In row merge_data_df -> (0 <= actual_time (row_task row))%Q) ->
    let task_daily_df := get_task_daily_df_with holiday_list merge_data_df in
    (forall r, In r (rows task_daily_df) ->
       (0 <= hour r)%Q /\
       exists row, In row merge_data_df /\
                   daily_task_id r = task_id (row_task row) /\
                   (hour r <= actual_time (row_task row))%Q) /\
    (forall s, get_assignee_hour_per_day_df task_daily_df = Ok s ->
               zero_filled assignee (rows task_daily_df) s) /\
    (forall s, get_project_hour_per_day_df task_daily_df = Ok s ->
               zero_filled epic_name (rows task_daily_df) s).
Proof.
  intros hl m Hpos. cbv zeta.
  assert (Hrec : forall r, In r (rows (get_task_daily_df_with hl m)) ->
            (0 <= hour r)%Q /\
            exists row, In row m /\ daily_task_id r = task_id (row_task row) /\
                        (hour r <= actual_time (row_task row))%Q).
  { intros r Hr. unfold get_task_daily_df_with in Hr.
    cbn [DataFrame_of_records rows] in Hr.
    apply in_flat_map in Hr as (row & Hrow & Hr).
    pose proof (task_daily_of_row_id hl row r Hr) as Hid.
    apply task_daily_of_row_In in Hr as (_ & _ & ->).
    destruct (hour_share_bounds (actual_time (row_task row))
                (get_work_day (fst (normalized_range hl row))
                              (snd (normalized_range hl row)) hl)
                (Hpos row Hrow) (get_work_day_pos _ _ _)) as [H0 H1].
    split; [assumption |]. exists row. auto. }
  split; [exact Hrec |].
  unfold get_task_daily_df_with in *. cbn [DataFrame_of_records rows] in *.
  split; intros s H.
  - apply (series_zero_filled "assignee" assignee); auto.
    intros r Hr. now apply Hrec.
  - apply (series_zero_filled "epic_name" epic_name); auto.
    intros r Hr. now apply Hrec.
Qed.

Lemma nonnegative_times_give_nonnegative_series_witness :
  Forall (fun r => (0 <= hour r)%Q)
         (rows (get_task_daily_df_with get_holiday_list ex_merged)).
Proof.
  assert (Hpos : forall row, In row ex_merged -> (0 <= actual_time (row_task row))%Q).
  { intros row [<- | [<- | []]]; vm_compute; discriminate. }
  apply Forall_forall. intros r Hr.
  exact (proj1 (proj1 (nonnegative_times_give_nonnegative_series
                         get_holiday_list ex_merged Hpos) r Hr)).
Defined.

(** X10. With the holiday list of the source no task is dropped: every
    row of a merged table with distinct task ids gives at least one
    record, the first of them on its normalized start date; its records
    are as many as [get_work_day] counts for its range, and each carries
    the row's actual time divided by the number of these records. *)
Theorem get_task_daily_df_keeps_every_task :
  forall (merge_data_df : list merged_row) (row : merged_row),
    NoDup (map (fun r => task_id (row_task r)) merge_data_df) ->
    In row merge_data_df ->
    let emitted :=
      filter (fun r => daily_task_id r =? task_id (row_task row))
             (rows (get_task_daily_df merge_data_df)) in
    (exists r rest,
        emitted = r :: rest /\
        date r = validate_start_date_end_date (start_date (row_task row))
                                              get_holiday_list) /\
    Z.of_nat (List.length emitted) =
      get_work_day (fst (normalized_range get_holiday_list row))
                   (snd (normalized_range get_holiday_list row)) get_holiday_list /\
    (forall r, In r emitted ->
       hour r = (actual_time (row_task row)
                 / inject_Z (Z.of_nat (List.length emitted)))%Q).
Proof.
  intros m row Hnd Hin. cbv zeta.
  unfold get_task_daily_df, get_task_daily_df_with. cbn [DataFrame_of_records rows].
  rewrite (records_of_task get_holiday_list m row Hnd Hin).
  pose proof (hard_coded_range_has_working_day row) as Hcount.
  pose proof (normalized_range_le get_holiday_list row) as Hle.
  pose proof (normalized_date_is_working_day (start_date (row_task row))) as Hstart.
  assert (Hfst : fst (normalized_range get_holiday_list row) =
                 validate_start_date_end_date (start_date (row_task row))
                                              get_holiday_list) by reflexivity.
  assert (Hlen : Z.of_nat (List.length (task_daily_of_row get_holiday_list row)) =
                 get_work_day (fst (normalized_range get_holiday_list row))
                              (snd (normalized_range get_holiday_list row))
                              get_holiday_list).
  { rewrite task_daily_of_row_eq. cbv zeta. rewrite length_map, get_work_day_eq.
    destruct (normalized_range get_holiday_list row) as [s e]. cbn [fst snd].
    unfold working_day_count in *.
    destruct (Z.eqb_spec (Z.of_nat (List.length
                (filter (is_working_day get_holiday_list) (date_range s e)))) 0);
      [lia | reflexivity]. }
  split; [| split; [exact Hlen |]].
  - rewrite task_daily_of_row_eq. cbv zeta.
    rewrite (date_range_cons _ _ Hle). cbn [filter].
    rewrite <- Hfst in Hstart. rewrite Hstart. cbn [map].
    eexists. eexists. split; [reflexivity |]. cbn [date]. exact Hfst.
  - intros r Hr. rewrite Hlen.
    rewrite task_daily_of_row_eq in Hr. cbv zeta in Hr.
    apply in_map_iff in Hr as (d & <- & _). reflexivity.
Qed.

Lemma get_task_daily_df_keeps_every_task_witness :
  Z.of_nat (List.length (filter (fun r => daily_task_id r =? 1)
                                (rows (get_task_daily_df ex_merged)))) =
  get_work_day (fst (normalized_range get_holiday_list ex_row1))
               (snd (normalized_range get_holiday_list ex_row1)) get_holiday_list.
Proof.
  assert (Hnd : NoDup (map (fun r => task_id (row_task r)) ex_merged)).
  { apply is_unique_NoDup. reflexivity. }
  assert (Hin : In ex_row1 ex_merged) by (left; reflexivity).
  exact (proj1 (proj2 (get_task_daily_df_keeps_every_task ex_merged ex_row1 Hnd Hin))).
Defined.

(** ** The preprocessors *)

Lemma all_digits_app (a b : string) :
  all_digits (a ++ b)%string = all_digits a && all_digits b.
Proof.
  induction a as [| c a IH]; cbn [append all_digits]; [reflexivity |].
  now rewrite IH, andb_assoc.
Qed.

Lemma digit_value_nonneg (c : ascii) : is_digit c = true -> 0 <= digit_value c <= 9.
Proof.
  unfold is_digit, digit_value. cbv zeta. intros H.
  apply andb_true_iff in H as [H1 H2].
  apply Nat.leb_le in H1, H2. lia.
Qed.

Lemma int_of_digits_nonneg (s : string) : forall acc,
  0 <= acc -> all_digits s = true -> 0 <= int_of_digits acc s.
Proof.
  induction s as [| c s IH]; intros acc Hacc H; cbn [int_of_digits]; [assumption |].
  cbn [all_digits] in H. apply andb_true_iff in H as [Hc Hs].
  apply IH; [| assumption]. pose proof (digit_value_nonneg c Hc). lia.
Qed.

(** What the scanner has open is a run of digits, and so is what it
    returns. *)
Lemma findall_from_digits (s : string) : forall cur d,
  (forall acc, cur = Some acc -> all_digits acc = true) ->
  In d (findall_from cur s) -> all_digits d = true /\ d <> EmptyString.
Proof.
  assert (Hclose : forall cur d,
            (forall acc, cur = Some acc -> all_digits acc = true) ->
            In d (close_match cur) -> all_digits d = true /\ d <> EmptyString).
  { intros [[| c acc] |] d Hcur Hd; cbn [close_match] in Hd; try contradiction.
    destruct Hd as [<- | []]. split; [now apply Hcur | discriminate]. }
  assert (Hnext : forall c acc,
            (if Ascii.eqb c "#" then Some EmptyString else None) = Some acc ->
            all_digits acc = true).
  { intros c acc H. destruct (Ascii.eqb c "#"); inversion H. reflexivity. }
  induction s as [| c s IH]; intros cur d Hcur Hd; cbn [findall_from] in Hd.
  - now apply (Hclose cur).
  - destruct cur as [acc |].
    + destruct (is_digit c) eqn:Hc.
      * apply (IH _ d) in Hd; [assumption |].
        intros acc' E. inversion E. rewrite all_digits_app.
        rewrite (Hcur acc eq_refl). cbn [all_digits]. now rewrite Hc.
      * apply in_app_or in Hd as [Hd | Hd].
        -- now apply (Hclose (Some acc)).
        -- apply (IH _ d) in Hd; [assumption | apply Hnext].
    + apply (IH _ d) in Hd; [assumption | apply Hnext].
Qed.

Lemma findall_captures_digits_aux (s : string) :
  (forall d, In d (findall s) -> 0 <= int_of_digits 0 d) /\
  (forall d, In d (findall s) -> all_digits d = true /\ d <> EmptyString).
Proof.
  assert (H : forall d, In d (findall s) -> all_digits d = true /\ d <> EmptyString).
  { intros d Hd. apply findall_from_digits in Hd; [assumption | discriminate]. }
  split; [| exact H].
  intros d Hd. apply int_of_digits_nonneg; [lia | now apply H].
Qed.

(** X11. What [findall] captures is never empty and holds digits only,
    so the integer read from it is not negative; and a text without
    ['#'] has no occurrence. *)
Theorem findall_captures_digits :
  forall s : string,
    (forall d, In d (findall s) ->
               all_digits d = true /\ d <> EmptyString /\ 0 <= int_of_digits 0 d) /\
    (no_hash s = true -> findall s = []).
Proof.
  intros s. split.
  - intros d Hd. destruct (findall_captures_digits_aux s) as [Hpos Hdig].
    destruct (Hdig d Hd). repeat split; try assumption. now apply Hpos.
  - intros H. unfold findall. rewrite <- (append_nil_r s).
    now rewrite findall_skip.
Qed.

(** X12. [preprocess_epics] returns a table exactly when every epic
    names at least one user story and every number it names fits a
    64-bit integer; one epic with a missing or empty cross-reference
    makes the call fail for the whole table. Every userstory_id of a
    returned table lies between 0 and the largest 64-bit integer. *)
Theorem preprocess_epics_succeeds_iff :
  forall epics : list epic_raw,
    ((exists rows, preprocess_epics epics = Ok rows) <->
     (forall e, In e epics ->
        occurrences e <> [] /\
        (forall ds, In ds (occurrences e) -> int_of_digits 0 ds <= int64_max))) /\
    (forall rows, preprocess_epics epics = Ok rows ->
       forall r, In r rows -> 0 <= ep_userstory_id r <= int64_max).
Proof.
  intros epics. split; [apply preprocess_epics_ok_iff |].
  intros rows H r Hr.
  pose proof (proj1 (preprocess_epics_ok_iff epics)
                    (ex_intro _ rows H)) as Hok.
  apply preprocess_epics_ok in H as [-> _].
  apply in_flat_map in Hr as (e & He & Hr). unfold epic_rows in Hr.
  apply in_map_iff in Hr as (ds & <- & Hds). cbn [ep_userstory_id].
  split.
  - unfold occurrences in Hds. destruct (related_user_stories e) as [s |]; [| contradiction].
    now apply (proj1 (findall_captures_digits_aux s) ds).
  - now apply (proj2 (Hok e He)).
Qed.

Lemma map_flat_map {A B C : Type} (f : A -> list B) (g : B -> C) (l : list A) :
  map g (flat_map f l) = flat_map (fun x => map g (f x)) l.
Proof.
  induction l as [| x l IH]; cbn [flat_map map]; [reflexivity |].
  now rewrite map_app, IH.
Qed.

(** X13. After [preprocess_epics], [merge_data] goes through exactly
    when no userstory_id is repeated in the user-story table and no
    user story number is named twice in the epics file, be it by two
    epics or twice by one. *)
Theorem epics_must_name_each_story_once :
  forall (tasks : list task) (userstories : list userstory)
         (epics : list epic_raw) (rows : list epic),
    preprocess_epics epics = Ok rows ->
    ((exists m, merge_data tasks userstories rows = Ok m) <->
     NoDup (map us_userstory_id userstories) /\
     NoDup (flat_map (fun e => map (int_of_digits 0) (occurrences e)) epics)).
Proof.
  intros tasks us epics rows H. apply preprocess_epics_ok in H as [-> _].
  assert (Hkeys : map ep_userstory_id (flat_map epic_rows epics) =
                  flat_map (fun e => map (int_of_digits 0) (occurrences e)) epics).
  { rewrite map_flat_map. apply flat_map_ext. intros e.
    unfold epic_rows. rewrite map_map. reflexivity. }
  rewrite <- Hkeys. split.
  - intros [m Hm]. apply merge_data_ok in Hm as (H1 & H2 & _). now split.
  - intros [H1 H2]. rewrite merge_data_eq.
    apply is_unique_NoDup in H1, H2. rewrite H1, H2. now eexists.
Qed.

Lemma epics_must_name_each_story_once_witness :
  (exists m, merge_data ex_tasks ex_userstories ex_epics = Ok m) <->
  NoDup (map us_userstory_id ex_userstories) /\
  NoDup (flat_map (fun e => map (int_of_digits 0) (occurrences e))
                  [ {| ref := 7; related_user_stories := Some "#2"; subject := "E" |} ]).
Proof.
  exact (epics_must_name_each_story_once ex_tasks ex_userstories
           [ {| ref := 7; related_user_stories := Some "#2"; subject := "E" |} ]
           ex_epics eq_refl).
Defined.

Lemma unique_key {A : Type} (f : A -> Z) (l : list A) (a b : A) :
  NoDup (map f l) -> In a l -> In b l -> f a = f b -> a = b.
Proof.
  induction l as [| x l IH]; intros Hnd Ha Hb E; [contradiction |].
  cbn [map] in Hnd. apply NoDup_cons_iff in Hnd as [Hx Hnd].
  destruct Ha as [-> | Ha], Hb as [-> | Hb].
  - reflexivity.
  - exfalso. apply Hx. rewrite E. now apply in_map.
  - exfalso. apply Hx. rewrite <- E. now apply in_map.
  - now apply IH.
Qed.

Lemma find_key_iff {R : Type} (rkey : R -> Z) (k : Z) (right : list R) (r : R) :
  NoDup (map rkey right) ->
  (find (fun x => rkey x =? k) right = Some r <-> In r right /\ rkey r = k).
Proof.
  intros Hnd. split.
  - intros H. apply find_some in H as [Hin E]. split; [assumption | lia].
  - intros [Hin E].
    destruct (find (fun x => rkey x =? k) right) as [r' |] eqn:F.
    + apply find_some in F as [Hin' E']. f_equal.
      apply (unique_key rkey right); try assumption. lia.
    + exfalso. apply (find_none _ _ F) in Hin. lia.
Qed.

(** X14. The joins of [merge_data] are exact: the user story of a
    merged row is the one row of the user-story table that has the
    task's userstory_id, and its epic is the one row of the exploded
    epic table that has it; a row has a partner whenever the table
    holds one. *)
Theorem merge_data_joins_on_userstory_id :
  forall (tasks : list task) (userstories : list userstory) (epics : list epic)
         (m : list merged_row),
    merge_data tasks userstories epics = Ok m ->
    forall row, In row m ->
      (forall u, row_userstory row = Some u <->
                 In u userstories /\
                 us_userstory_id u = userstory_id (row_task row)) /\
      (forall e, row_epic row = Some e <->
                 In e epics /\
                 ep_userstory_id e = userstory_id (row_task row)).
Proof.
  intros tasks us epics m H row Hrow.
  apply merge_data_ok in H as (H1 & H2 & ->).
  apply in_map_iff in Hrow as (t & <- & _). cbn [row_userstory row_epic row_task].
  split; intros x; now apply find_key_iff.
Qed.

Lemma merge_data_joins_on_userstory_id_witness :
  row_epic ex_row2 = Some {| epic_id := 7; ep_userstory_id := 2; ep_epic_name := "E" |} <->
  In {| epic_id := 7; ep_userstory_id := 2; ep_epic_name := "E" |} ex_epics /\
  ep_userstory_id {| epic_id := 7; ep_userstory_id := 2; ep_epic_name := "E" |} =
    userstory_id (row_task ex_row2).
Proof.
  assert (Hin : In ex_row2 ex_merged) by (right; left; reflexivity).
  exact (proj2 (merge_data_joins_on_userstory_id
                  ex_tasks ex_userstories ex_epics ex_merged eq_refl ex_row2 Hin) _).
Defined.

Lemma preprocess_tasks_spec :
  forall tasks : list task_raw,
    match preprocess_tasks tasks with
    | Ok rows =>
        (forall t, In t tasks -> t_user_story t <> None) /\
        Forall2 (fun t x =>
                   task_id x = t_ref t /\
                   t_user_story t = Some (userstory_id x) /\
                   assigned_to x = t_assigned_to t /\
                   start_date x = t_start_date t /\
                   end_date x = t_end_date t /\
                   actual_time x = t_actual_time t) tasks rows
    | Err e =>
        e = IntCastingNaNError /\
        exists t, In t tasks /\ t_user_story t = None
    end.
Proof.
  unfold preprocess_tasks. induction tasks as [| t tasks IH]; cbn [mapM].
  - split; [intros t [] | constructor].
  - destruct (t_user_story t) as [n |] eqn:E; cbn [astype_int_number bind].
    + destruct (mapM _ tasks) as [rows | e]; cbn [bind].
      * destruct IH as [Hall Hrows]. split.
        -- intros t' [<- | Ht']; [congruence | now apply Hall].
        -- constructor; [| assumption]. cbn. repeat split; try reflexivity. exact E.
      * destruct IH as [-> (t' & Ht' & Hnone)]. split; [reflexivity |].
        exists t'. split; [now right | assumption].
    + split; [reflexivity |]. exists t. split; [now left | assumption].
Qed.

(** X15. [preprocess_tasks] fails, with the error of casting a missing
    value to an integer, exactly when some task has no user story;
    otherwise it returns one task per row, in order, with the reference
    as task id, the user story as userstory_id and the other columns
    unchanged. *)
Theorem preprocess_tasks_needs_user_stories :
  forall tasks : list task_raw,
    match preprocess_tasks tasks with
    | Ok rows =>
        (forall t, In t tasks -> t_user_story t <> None) /\
        Forall2 (fun t x =>
                   task_id x = t_ref t /\
                   t_user_story t = Some (userstory_id x) /\
                   assigned_to x = t_assigned_to t /\
                   start_date x = t_start_date t /\
                   end_date x = t_end_date t /\
                   actual_time x = t_actual_time t) tasks rows
    | Err e =>
        e = IntCastingNaNError /\
        exists t, In t tasks /\ t_user_story t = None
    end.
Proof. exact preprocess_tasks_spec. Qed.

(** ** The cells of a series, group by group *)

Section Sums.
Variable column : string.
Variable key : task_daily -> option string.
Hypothesis column_known : column = "assignee" \/ column = "epic_name".

Lemma key_is_iff (c : string) (r : task_daily) :
  key_is key c r = true <-> key r = Some c.
Proof.
  unfold key_is, option_is. destruct (key r) as [k |].
  - rewrite String.eqb_eq. split; congruence.
  - split; discriminate.
Qed.

Lemma keyed_group (l : list task_daily) (d : Timestamp) (c : string) :
  map snd (filter (fun p => group_key_eqb (fst p) (d, c)) (keyed_hours key l))
  = group_hours key l d c.
Proof.
  unfold keyed_hours, group_hours, key_is, option_is.
  induction l as [| r l IH]; [reflexivity |].
  cbn [flat_map filter].
  destruct (key r) as [k |]; cbn [app filter fst snd].
  - unfold group_key_eqb at 1. cbn [fst snd].
    destruct ((date r =? d) && String.eqb k c); cbn [map]; [f_equal |]; exact IH.
  - rewrite andb_false_r. exact IH.
Qed.

Lemma group_hours_absent (l : list task_daily) (d : Timestamp) (c : string) :
  (forall r, In r l -> ~ (date r = d /\ key r = Some c)) ->
  group_hours key l d c = [].
Proof.
  intros H. unfold group_hours. rewrite filter_none; [reflexivity |].
  intros r Hr. apply andb_false_iff.
  destruct (Z.eqb_spec (date r) d) as [Hd | Hd]; [| now left].
  right. destruct (key_is key c r) eqn:E; [| reflexivity].
  apply key_is_iff in E. exfalso. apply (H r Hr). now split.
Qed.

Lemma assoc_graph_none {K V : Type} (eqb : K -> K -> bool)
    (eqb_eq : forall a b, eqb a b = true <-> a = b)
    (f : K -> V) (ks : list K) (k : K) :
  assoc eqb k (map (fun k => (k, f k)) ks) = None -> ~ In k ks.
Proof.
  induction ks as [| k' ks IH]; cbn [map assoc]; [auto |].
  destruct (eqb k' k) eqn:E; [discriminate |].
  intros H [-> | Hin].
  - assert (eqb k k = true) by now apply eqb_eq. congruence.
  - now apply IH.
Qed.

(** What [fillna] leaves in a cell of the pivoted frame is the sum of
    the hours of its group, 0 for no record. *)
Lemma filled_cell (l : list task_daily) (d : Timestamp) (c : string) :
  match assoc group_key_eqb (d, c) (groupby_sum key l) with
  | Some q => q
  | None => 0%Q
  end = sum (group_hours key l d c).
Proof.
  destruct (assoc group_key_eqb (d, c) (groupby_sum key l)) as [v |] eqn:E;
    unfold groupby_sum in E.
  - apply (assoc_graph_inv _ group_key_eqb_eq) in E as [-> _].
    now rewrite keyed_group.
  - apply (assoc_graph_none _ group_key_eqb_eq) in E.
    rewrite sort_uniq_In in E by apply group_key_compare_eq.
    rewrite group_hours_absent; [reflexivity |].
    intros r Hr [Hd Hk]. apply E. apply keyed_hours_keys. exists r. auto.
Qed.

(** The row of cells that [reindex] gives a date. *)
Lemma reindexed_row (l : list task_daily) (d : Timestamp) :
  let p := pivot (groupby_sum key l) in
  match assoc Z.eqb d (combine (index (fillna 0%Q p)) (values (fillna 0%Q p))) with
  | Some row => row
  | None => map (fun _ => 0%Q) (fcolumns (fillna 0%Q p))
  end = map (fun c => sum (group_hours key l d c)) (fcolumns p).
Proof.
  cbv zeta. set (g := groupby_sum key l).
  cbn [fillna pivot index fcolumns values].
  set (idx := sort_uniq Z.compare (map (fun g0 => fst (fst g0)) g)).
  set (cols := sort_uniq String.compare (map (fun g0 => snd (fst g0)) g)).
  rewrite map_map.
  match goal with
  | |- match ?a with Some _ => _ | None => _ end = _ => destruct a as [row |] eqn:E
  end.
  - rewrite <- graph_as_combine in E.
    apply (assoc_graph_inv _ Z.eqb_eq) in E as [-> _].
    rewrite map_map. apply map_ext. intros c. apply filled_cell.
  - rewrite <- graph_as_combine in E.
    apply (assoc_graph_none _ Z.eqb_eq) in E.
    apply map_ext. intros c. rewrite group_hours_absent; [reflexivity |].
    intros r Hr [Hd Hk]. apply E.
    apply (pivot_index_In key l d). exists r. unfold has_key. rewrite Hk. auto.
Qed.

Lemma series_values (l : list task_daily) (s : calendar_series) :
  hour_per_day_df column key (DataFrame_of_records l) = Ok s ->
  cs_values s =
  map (fun d => map (fun c => sum (group_hours key l d c)) (cs_columns s)) (cs_date s).
Proof.
  intros H. apply (hour_per_day_df_ok column key column_known) in H
    as (lo & hi & _ & _ & ->).
  cbn [reset_index reindex cs_date cs_columns cs_values index fcolumns values].
  apply map_ext. intros d. apply (reindexed_row l d).
Qed.

Lemma cell_value (l : list task_daily) (s : calendar_series) (d : Timestamp) (c : string) :
  hour_per_day_df column key (DataFrame_of_records l) = Ok s ->
  In d (cs_date s) -> In c (cs_columns s) ->
  cell s d c = Some (sum (group_hours key l d c)).
Proof.
  intros H Hd Hc. unfold cell. rewrite (series_values l s H).
  rewrite (assoc_combine_map Z.eqb Z.eqb_eq) by assumption.
  now apply (assoc_combine_map String.eqb String.eqb_eq
               (fun c0 => sum (group_hours key l d c0))).
Qed.

Lemma hour_per_day_df_errors (l : list task_daily) :
  (hour_per_day_df column key (DataFrame_of_records l) = Err KeyError <-> l = []) /\
  (hour_per_day_df column key (DataFrame_of_records l) = Err ValueError <->
   l <> [] /\ forall r, In r l -> key r = None) /\
  ((exists s, hour_per_day_df column key (DataFrame_of_records l) = Ok s) <->
   exists r, In r l /\ key r <> None).
Proof.
  assert (Hnone : forall r, has_key key r = false <-> key r = None).
  { intros r. unfold has_key. destruct (key r); split; congruence. }
  assert (Hdec : filter (has_key key) l = [] \/ filter (has_key key) l <> []).
  { destruct (filter (has_key key) l); [now left | right; discriminate]. }
  assert (Hall : filter (has_key key) l = [] <-> forall r, In r l -> key r = None).
  { split.
    - intros E r Hr. apply Hnone. destruct (has_key key r) eqn:Hk; [| reflexivity].
      assert (Hin : In r (filter (has_key key) l)) by (apply filter_In; auto).
      rewrite E in Hin. contradiction.
    - intros H. apply filter_none. intros r Hr. apply Hnone. now apply H. }
  assert (Hsome : filter (has_key key) l <> [] <-> exists r, In r l /\ key r <> None).
  { split.
    - intros Hne. destruct (filter (has_key key) l) as [| r f] eqn:E; [contradiction |].
      assert (Hin : In r (filter (has_key key) l)) by (rewrite E; now left).
      apply filter_In in Hin as [Hr Hk]. exists r. split; [assumption |].
      intros Hn. apply Hnone in Hn. congruence.
    - intros (r & Hr & Hk) E. apply Hk. now apply (proj1 Hall E). }
  destruct l as [| r0 l].
  - rewrite hour_per_day_df_empty by assumption.
    split; [split; auto |]. split.
    + split; [discriminate | intros [H _]; contradiction].
    + split; [intros [s H]; discriminate | intros (r & [] & _)].
  - destruct Hdec as [E | Hne].
    + assert (Hv : hour_per_day_df column key (DataFrame_of_records (r0 :: l))
                   = Err ValueError).
      { rewrite hour_per_day_df_records by assumption.
        unfold groupby_sum. now rewrite (keyed_hours_nil key _ E). }
      rewrite Hv. split; [split; discriminate |]. split.
      * split; [intros _ | reflexivity]. split; [discriminate | now apply Hall].
      * split; [intros [s H]; discriminate |].
        intros H. apply Hsome in H. contradiction.
    + destruct (hour_per_day_df_some_key column key column_known _ Hne) as [s Hs].
      rewrite Hs. split; [split; discriminate |]. split.
      * split; [discriminate |]. intros [_ H]. apply Hall in H. contradiction.
      * split; [intros _; now apply Hsome | intros _; now exists s].
Qed.
End Sums.

(** ** The aggregators, cell by cell *)


(** X17. A cell of a series holds exactly the sum of the hours of the
    records that have its date and its key, taken in the order of the
    records (0 for no record). *)
Theorem cell_is_sum_of_group :
  forall task_daily_list : list task_daily,
    (forall s d c,
        get_assignee_hour_per_day_df (DataFrame_of_records task_daily_list) = Ok s ->
        In d (cs_date s) -> In c (cs_columns s) ->
        cell s d c = Some (sum (group_hours assignee task_daily_list d c))) /\
    (forall s d c,
        get_project_hour_per_day_df (DataFrame_of_records task_daily_list) = Ok s ->
        In d (cs_date s) -> In c (cs_columns s) ->
        cell s d c = Some (sum (group_hours epic_name task_daily_list d c))).
Proof.
  intros l. split; intros s d c H Hd Hc.
  - apply (cell_value "assignee" assignee); auto.
  - apply (cell_value "epic_name" epic_name); auto.
Qed.

(** ** The addends of a column *)

Lemma concat_map_nil {A B : Type} (l : list A) :
  List.concat (map (fun _ : A => @nil B) l) = [].
Proof. induction l as [| x l IH]; cbn; [reflexivity | exact IH]. Qed.

(** Among distinct dates, a record joins the group of its own date and
    no other. *)
Lemma concat_groups_insert (x : Timestamp) (h : Q) (G : Timestamp -> list Q)
    (ds : list Timestamp) :
  NoDup ds -> In x ds ->
  Permutation (List.concat (map (fun d => if x =? d then h :: G d else G d) ds))
              (h :: List.concat (map G ds)).
Proof.
  induction 1 as [| d ds Hd Hnd IH]; intros Hin; [contradiction |].
  cbn [map List.concat]. destruct (Z.eqb_spec x d) as [-> | Hne].
  - cbn [app]. constructor. apply Permutation_app_head.
    replace (map (fun d0 => if d =? d0 then h :: G d0 else G d0) ds) with (map G ds);
      [reflexivity |].
    apply map_ext_in. intros y Hy.
    destruct (Z.eqb_spec d y) as [-> | _]; [contradiction | reflexivity].
  - destruct Hin as [-> | Hin]; [contradiction |].
    rewrite (IH Hin). symmetry. apply Permutation_middle.
Qed.

Lemma groups_by_date (key : task_daily -> option string) (c : string)
    (ds : list Timestamp) (l : list task_daily) :
  NoDup ds ->
  (forall r, In r l -> key_is key c r = true -> In (date r) ds) ->
  Permutation (List.concat (map (fun d => group_hours key l d c) ds))
              (map hour (filter (key_is key c) l)).
Proof.
  intros Hnd. induction l as [| r l IH]; intros Hin.
  - cbn [filter map]. unfold group_hours. cbn [filter map].
    now rewrite concat_map_nil.
  - assert (IH' : Permutation (List.concat (map (fun d => group_hours key l d c) ds))
                              (map hour (filter (key_is key c) l))).
    { apply IH. intros r' Hr'. apply Hin. now right. }
    cbn [filter]. destruct (key_is key c r) eqn:E.
    + cbn [map]. rewrite <- IH'.
      rewrite <- (concat_groups_insert (date r) (hour r)
                    (fun d => group_hours key l d c) ds Hnd
                    (Hin r (or_introl eq_refl) E)).
      replace (map (fun d => group_hours key (r :: l) d c) ds)
        with (map (fun d => if date r =? d then hour r :: group_hours key l d c
                            else group_hours key l d c) ds); [reflexivity |].
      apply map_ext. intros d. unfold group_hours. cbn [filter].
      rewrite E, andb_true_r. now destruct (date r =? d).
    + rewrite <- IH'.
      replace (map (fun d => group_hours key (r :: l) d c) ds)
        with (map (fun d => group_hours key l d c) ds); [reflexivity |].
      apply map_ext. intros d. unfold group_hours. cbn [filter].
      now rewrite E, andb_false_r.
Qed.

Lemma column_addends_of_key (column : string) (key : task_daily -> option string)
    (l : list task_daily) (s : calendar_series) (c : string) :
  column = "assignee" \/ column = "epic_name" ->
  hour_per_day_df column key (DataFrame_of_records l) = Ok s ->
  In c (cs_columns s) ->
  (forall d, In d (cs_date s) -> cell s d c = Some (sum (group_hours key l d c))) /\
  Permutation (column_addends key l s c) (map hour (filter (key_is key c) l)).
Proof.
  intros Hcol H Hc.
  split; [intros d Hd; exact (cell_value column key Hcol l s d c H Hd Hc) |].
  destruct (series_dates column key Hcol l s H) as (lo & hi & _ & _ & Hall & Hd).
  unfold column_addends. rewrite Hd.
  apply groups_by_date; [apply date_range_NoDup |].
  intros r Hr Hk. apply date_range_In. apply Hall; [assumption |].
  apply key_is_iff in Hk. unfold has_key. now rewrite Hk.
Qed.

(** X18. A series counts each record once: the cells of the column of
    an assignee (of an epic) hold, date by date, the sum of the hours of
    the group of that date, and the hours of these groups taken together
    are the hours of the records of that assignee (of that epic), each
    record once. Which hours are added is thereby fixed; in which order
    and with which rounding is not. *)
Theorem column_adds_each_record_once :
  forall task_daily_list : list task_daily,
    (forall s c,
        get_assignee_hour_per_day_df (DataFrame_of_records task_daily_list) = Ok s ->
        In c (cs_columns s) ->
        (forall d, In d (cs_date s) ->
           cell s d c = Some (sum (group_hours assignee task_daily_list d c))) /\
        Permutation (column_addends assignee task_daily_list s c)
                    (map hour (filter (key_is assignee c) task_daily_list))) /\
    (forall s c,
        get_project_hour_per_day_df (DataFrame_of_records task_daily_list) = Ok s ->
        In c (cs_columns s) ->
        (forall d, In d (cs_date s) ->
           cell s d c = Some (sum (group_hours epic_name task_daily_list d c))) /\
        Permutation (column_addends epic_name task_daily_list s c)
                    (map hour (filter (key_is epic_name c) task_daily_list))).
Proof.
  intros l. split; intros s c H Hc.
  - apply (column_addends_of_key "assignee"); auto.
  - apply (column_addends_of_key "epic_name"); auto.
Qed.



Lemma hard_coded_rows_work (m : list merged_row) :
  forall row, In row m ->
    1 <= working_day_count get_holiday_list
           (fst (normalized_range get_holiday_list row))
           (snd (normalized_range get_holiday_list row)).
Proof.
  intros row _. pose proof (hard_coded_range_has_working_day row) as H.
  now destruct (normalized_range get_holiday_list row).
Qed.

(** ** The key columns *)

Section Sorted.
Context {A : Type} (cmp : A -> A -> comparison).
Hypothesis cmp_eq : forall x y, cmp x y = Eq -> x = y.
Hypothesis cmp_antisym : forall x y, cmp x y = CompOpp (cmp y x).
Hypothesis cmp_trans : forall x y z, cmp x y = Lt -> cmp y z = Lt -> cmp x z = Lt.

Lemma insert_uniq_sorted (x : A) (l : list A) :
  strictly_sorted cmp l -> strictly_sorted cmp (insert_uniq cmp x l).
Proof.
  induction l as [| y l IH]; intros H; cbn [insert_uniq].
  - cbn. split; [intros y [] | exact I].
  - destruct H as [Hy Hl]. destruct (cmp x y) eqn:E.
    + split; assumption.
    + split; [| split; assumption].
      intros z [<- | Hz]; [assumption |]. apply (cmp_trans x y z E). now apply Hy.
    + split; [| now apply IH].
      intros z Hz. apply (insert_uniq_In cmp cmp_eq) in Hz as [-> | Hz].
      * rewrite cmp_antisym, E. reflexivity.
      * now apply Hy.
Qed.

Lemma sort_uniq_sorted (l : list A) : strictly_sorted cmp (sort_uniq cmp l).
Proof.
  induction l as [| x l IH]; [exact I |].
  unfold sort_uniq. cbn [fold_right]. now apply insert_uniq_sorted.
Qed.

Lemma strictly_sorted_NoDup (l : list A) : strictly_sorted cmp l -> NoDup l.
Proof.
  induction l as [| x l IH]; intros H; [constructor |].
  destruct H as [Hx Hl]. constructor; [| now apply IH].
  intros Hin. specialize (Hx x Hin).
  pose proof (cmp_antisym x x) as Ha. rewrite Hx in Ha. discriminate.
Qed.
End Sorted.

Lemma ascii_compare_trans (a b c : ascii) :
  Ascii.compare a b = Lt -> Ascii.compare b c = Lt -> Ascii.compare a c = Lt.
Proof.
  unfold Ascii.compare. rewrite !N.compare_lt_iff. apply N.lt_trans.
Qed.

Lemma string_compare_trans (a : string) : forall b c,
  String.compare a b = Lt -> String.compare b c = Lt -> String.compare a c = Lt.
Proof.
  induction a as [| x a IH]; intros [| y b] [| z c]; cbn [String.compare];
    try discriminate; try reflexivity.
  destruct (Ascii.compare x y) eqn:Exy; try discriminate;
    destruct (Ascii.compare y z) eqn:Eyz; try discriminate.
  - apply Ascii.compare_eq_iff in Exy, Eyz. subst.
    replace (Ascii.compare z z) with Eq.
    + apply IH.
    + symmetry. pose proof (Ascii.compare_antisym z z) as H.
      destruct (Ascii.compare z z); try reflexivity; discriminate.
  - apply Ascii.compare_eq_iff in Exy. subst. now rewrite Eyz.
  - apply Ascii.compare_eq_iff in Eyz. subst. now rewrite Exy.
  - now rewrite (ascii_compare_trans x y z Exy Eyz).
Qed.

Lemma existsb_eqb_In (c : string) (l : list string) :
  existsb (String.eqb c) l = true <-> In c l.
Proof.
  rewrite existsb_exists. split.
  - intros (x & Hx & E). apply String.eqb_eq in E. now subst.
  - intros H. exists c. split; [assumption | apply String.eqb_refl].
Qed.

Lemma relabel_without_index (l : list string) :
  ~ In "index" l ->
  map (fun label => if String.eqb label "index" then "date" else label) l = l.
Proof.
  intros H. rewrite <- (map_id l) at 2. apply map_ext_in. intros x Hx.
  destruct (String.eqb_spec x "index") as [-> | _]; [contradiction | reflexivity].
Qed.

Lemma key_columns (column : string) (key : task_daily -> option string)
    (l : list task_daily) (s : calendar_series) :
  column = "assignee" \/ column = "epic_name" ->
  hour_per_day_df column key (DataFrame_of_records l) = Ok s ->
  strictly_sorted String.compare (cs_columns s) /\
  NoDup (cs_columns s) /\
  (forall c, In c (cs_columns s) <-> exists r, In r l /\ key r = Some c) /\
  ((forall r, In r l -> key r <> Some "index") ->
   frame_labels s = "date" :: cs_columns s) /\
  ((exists r, In r l /\ key r = Some "index") ->
   (forall r, In r l -> key r <> Some "level_0") ->
   frame_labels s =
     "level_0" :: map (fun label => if String.eqb label "index" then "date" else label)
                      (cs_columns s) /\
   In "date" (tl (frame_labels s)) /\
   ~ In "index" (frame_labels s)).
Proof.
  intros Hcol H.
  assert (Hsorted : strictly_sorted String.compare (cs_columns s)).
  { apply (hour_per_day_df_ok column key Hcol) in H as (lo & hi & _ & _ & ->).
    cbn [reset_index reindex fillna pivot cs_columns fcolumns].
    apply sort_uniq_sorted.
    - apply string_compare_eq.
    - apply String.compare_antisym.
    - apply string_compare_trans. }
  pose proof (fun c => series_columns column key Hcol l s c H) as Hkeys.
  split; [assumption |].
  split; [apply (strictly_sorted_NoDup String.compare String.compare_antisym _ Hsorted) |].
  split; [assumption |].
  split.
  - intros Hno. unfold frame_labels. cbv zeta.
    assert (Hnot : ~ In "index" (cs_columns s)).
    { intros Hin. apply Hkeys in Hin as (r & Hr & Hk). now apply (Hno r Hr). }
    destruct (existsb (String.eqb "index") (cs_columns s)) eqn:E.
    + apply existsb_eqb_In in E. contradiction.
    + cbn [map]. rewrite relabel_without_index by assumption. reflexivity.
  - intros Hsome Hno. unfold frame_labels. cbv zeta.
    assert (Hin : In "index" (cs_columns s)) by now apply Hkeys.
    rewrite (proj2 (existsb_eqb_In "index" (cs_columns s)) Hin). cbn [map tl].
    split; [reflexivity |]. split.
    + apply in_map_iff. exists "index". split; [reflexivity | assumption].
    + cbn [String.eqb Ascii.eqb Bool.eqb]. intros [E | Hbad]; [discriminate |].
      apply in_map_iff in Hbad as (x & Hx & _).
      destruct (String.eqb_spec x "index"); [discriminate | congruence].
Qed.

(** X20. The key columns of a series are the values that occur in the
    key column of the records, each once, in ascending order. When no
    record has the key ["index"], the returned frame is labelled
    ["date"] for the dates and then with these keys. When a record has
    the key ["index"] (and none the key ["level_0"]), [reset_index]
    labels the dates ["level_0"] and [rename] turns the label of that
    key column into ["date"], so that no column is labelled
    ["index"]. *)
Theorem one_column_per_key :
  forall task_daily_list : list task_daily,
    (forall s,
        get_assignee_hour_per_day_df (DataFrame_of_records task_daily_list) = Ok s ->
        strictly_sorted String.compare (cs_columns s) /\
        NoDup (cs_columns s) /\
        (forall c, In c (cs_columns s) <->
                   exists r, In r task_daily_list /\ assignee r = Some c) /\
        ((forall r, In r task_daily_list -> assignee r <> Some "index") ->
         frame_labels s = "date" :: cs_columns s) /\
        ((exists r, In r task_daily_list /\ assignee r = Some "index") ->
         (forall r, In r task_daily_list -> assignee r <> Some "level_0") ->
         frame_labels s =
           "level_0" :: map (fun label => if String.eqb label "index" then "date"
                                          else label) (cs_columns s) /\
         In "date" (tl (frame_labels s)) /\
         ~ In "index" (frame_labels s))) /\
    (forall s,
        get_project_hour_per_day_df (DataFrame_of_records task_daily_list) = Ok s ->
        strictly_sorted String.compare (cs_columns s) /\
        NoDup (cs_columns s) /\
        (forall c, In c (cs_columns s) <->
                   exists r, In r task_daily_list /\ epic_name r = Some c) /\
        ((forall r, In r task_daily_list -> epic_name r <> Some "index") ->
         frame_labels s = "date" :: cs_columns s) /\
        ((exists r, In r task_daily_list /\ epic_name r = Some "index") ->
         (forall r, In r task_daily_list -> epic_name r <> Some "level_0") ->
         frame_labels s =
           "level_0" :: map (fun label => if String.eqb label "index" then "date"
                                          else label) (cs_columns s) /\
         In "date" (tl (frame_labels s)) /\
         ~ In "index" (frame_labels s))).
Proof.
  intros l. split; intros s H.
  - apply (key_columns "assignee" assignee); auto.
  - apply (key_columns "epic_name" epic_name); auto.
Qed.

(** Two records, of the assignees "ann" and "index": the frame has the
    labels level_0, ann and date. *)
Remark index_label_clash :
  match get_assignee_hour_per_day_df
          (DataFrame_of_records
             [ {| date := 0; assignee := Some "ann"; epic_name := None;
                  daily_task_id := 1; hour := 1%Q |};
               {| date := 0; assignee := Some "index"; epic_name := None;
                  daily_task_id := 2; hour := 2%Q |} ]) with
  | Ok s => frame_labels s = ["level_0"; "ann"; "date"]
  | Err _ => False
  end.
Proof. vm_compute. reflexivity. Qed.

(** ** The data of the charts *)

Lemma set_at_length {A : Type} (v : A) (l : list A) : forall i,
  List.length (set_at i v l) = List.length l.
Proof.
  induction l as [| x l IH]; intros [| i]; cbn [set_at List.length]; auto.
Qed.

Lemma set_at_same {A : Type} (v : A) (l : list A) : forall i,
  (i < List.length l)%nat -> nth_error (set_at i v l) i = Some v.
Proof.
  induction l as [| x l IH]; intros [| i] H; cbn [List.length] in H; try lia.
  - reflexivity.
  - cbn [set_at nth_error]. apply IH. lia.
Qed.

Lemma set_at_other {A : Type} (v : A) (l : list A) : forall i j,
  i <> j -> nth_error (set_at i v l) j = nth_error l j.
Proof.
  induction l as [| x l IH]; intros [| i] [| j] H; cbn [set_at nth_error];
    try reflexivity; try congruence.
  apply IH. congruence.
Qed.

Lemma set_at_nth {A : Type} (v : A) (l : list A) (i j : nat) :
  (j < List.length l)%nat ->
  nth_error (set_at i v l) j = if (i =? j)%nat then Some v else nth_error l j.
Proof.
  intros H. destruct (Nat.eqb_spec i j) as [-> | Hne].
  - now apply set_at_same.
  - now apply set_at_other.
Qed.

Lemma index_of_nth (d : Timestamp) (l : list Timestamp) :
  In d l -> nth_error l (index_of d l) = Some d.
Proof.
  induction l as [| x l IH]; intros H; [contradiction |].
  cbn [index_of]. destruct (Z.eqb_spec x d) as [-> | Hne]; [reflexivity |].
  cbn [nth_error]. apply IH. destruct H; [contradiction | assumption].
Qed.

Lemma index_of_first (l : list Timestamp) : forall i d,
  NoDup l -> nth_error l i = Some d -> index_of d l = i.
Proof.
  induction l as [| x l IH]; intros i d Hnd H; [destruct i; discriminate |].
  apply NoDup_cons_iff in Hnd as [Hx Hnd]. cbn [index_of].
  destruct i as [| i]; cbn [nth_error] in H.
  - inversion H. now rewrite Z.eqb_refl.
  - destruct (Z.eqb_spec x d) as [-> | Hne].
    + exfalso. apply Hx. now apply nth_error_In in H.
    + f_equal. now apply IH.
Qed.

(** The loop of the reference line, run over some dates of the list. *)
Lemma work_hour_loop (dates hl : list Timestamp) (j : nat) (todo : list Timestamp) :
  forall whl : list Z,
    (j < List.length whl)%nat ->
    nth_error
      (fold_left (fun work_hour_list date =>
                    let work_hour_list :=
                      if mem date hl
                      then set_at (index_of date dates) 0 work_hour_list
                      else work_hour_list in
                    if is_weekend date
                    then set_at (index_of date dates) 0 work_hour_list
                    else work_hour_list) todo whl) j
    = if existsb (fun d => negb (is_working_day hl d) && (index_of d dates =? j)%nat) todo
      then Some 0
      else nth_error whl j.
Proof.
  induction todo as [| d todo IH]; intros whl Hj; cbn [fold_left existsb]; [reflexivity |].
  cbv zeta. rewrite IH.
  - unfold is_working_day.
    destruct (existsb _ todo); [now rewrite orb_true_r |]. rewrite orb_false_r.
    destruct (mem d hl), (is_weekend d); cbn [negb andb];
      rewrite ?set_at_nth by (rewrite ?set_at_length; assumption);
      destruct (index_of d dates =? j)%nat; reflexivity.
  - destruct (mem d hl), (is_weekend d); rewrite ?set_at_length; assumption.
Qed.

(** X21. The reference line has one value per date. The value is 0 at
    the first place of a date that is a Saturday, a Sunday or a
    holiday, and 8 everywhere else; on a list of distinct dates, as the
    date column of a series is, it is therefore 8 on working days and 0
    on the others. *)
Theorem work_hour_list_marks_working_days :
  forall (date_list holiday_list : list Timestamp),
    List.length (work_hour_list date_list holiday_list) = List.length date_list /\
    (forall i d, nth_error date_list i = Some d ->
       nth_error (work_hour_list date_list holiday_list) i =
       Some (if negb (is_working_day holiday_list d) && (index_of d date_list =? i)%nat
             then 0 else 8)) /\
    (NoDup date_list ->
     forall i d, nth_error date_list i = Some d ->
       nth_error (work_hour_list date_list holiday_list) i =
       Some (if is_working_day holiday_list d then 8 else 0)).
Proof.
  intros dates hl.
  assert (Hlen : List.length (work_hour_list dates hl) = List.length dates).
  { unfold work_hour_list.
    assert (H : forall todo whl,
              List.length
                (fold_left (fun work_hour_list date =>
                              let work_hour_list :=
                                if mem date hl
                                then set_at (index_of date dates) 0 work_hour_list
                                else work_hour_list in
                              if is_weekend date
                              then set_at (index_of date dates) 0 work_hour_list
                              else work_hour_list) todo whl)
              = List.length whl).
    { induction todo as [| d todo IH]; intros whl; cbn [fold_left]; [reflexivity |].
      cbv zeta. rewrite IH.
      destruct (mem d hl), (is_weekend d); now rewrite ?set_at_length. }
    now rewrite H, repeat_length. }
  assert (Hnth : forall i d, nth_error dates i = Some d ->
            nth_error (work_hour_list dates hl) i =
            Some (if negb (is_working_day hl d) && (index_of d dates =? i)%nat
                  then 0 else 8)).
  { intros i d Hd.
    assert (Hi : (i < List.length dates)%nat) by (apply nth_error_Some; congruence).
    unfold work_hour_list. rewrite work_hour_loop by now rewrite repeat_length.
    assert (H8 : nth_error (repeat 8 (List.length dates)) i = Some 8).
    { rewrite nth_error_repeat by assumption. reflexivity. }
    rewrite H8.
    destruct (existsb _ dates) eqn:E.
    - apply existsb_exists in E as (d' & Hd' & E).
      apply andb_true_iff in E as [Hw Hidx]. apply Nat.eqb_eq in Hidx.
      pose proof (index_of_nth d' dates Hd') as Hfirst. rewrite Hidx, Hd in Hfirst.
      inversion Hfirst. subst d'. rewrite Hw, Hidx, Nat.eqb_refl. reflexivity.
    - destruct (negb (is_working_day hl d) && (index_of d dates =? i)%nat) eqn:E';
        [| reflexivity].
      exfalso. assert (Hex : existsb
                 (fun d0 => negb (is_working_day hl d0) && (index_of d0 dates =? i)%nat)
                 dates = true).
      { apply existsb_exists. exists d. split; [now apply nth_error_In in Hd | assumption]. }
      congruence. }
  split; [assumption |]. split; [assumption |].
  intros Hnd i d Hd. rewrite (Hnth i d Hd), (index_of_first dates i d Hnd Hd), Nat.eqb_refl.
  now destruct (is_working_day hl d).
Qed.

Lemma skipn_length_app {A : Type} (l1 l2 : list A) :
  skipn (List.length l1) (l1 ++ l2) = l2.
Proof. induction l1 as [| x l1 IH]; [reflexivity | exact IH]. Qed.

Lemma tail_date_range (n lo hi : Z) :
  0 <= n -> tail n (date_range lo hi) = date_range (Z.max lo (hi - n + 1)) hi.
Proof.
  intros Hn. unfold tail. replace (n <? 0) with false by lia.
  rewrite date_range_length.
  destruct (Z.le_gt_cases (hi - lo + 1) n) as [Hall | Hpart].
  - replace (Z.to_nat (hi - lo + 1) - Z.to_nat n)%nat with 0%nat by lia.
    cbn [skipn]. now replace (Z.max lo (hi - n + 1)) with lo by lia.
  - replace (Z.max lo (hi - n + 1)) with (hi - n + 1) by lia.
    rewrite (date_range_app lo (hi - n) hi) by lia.
    replace (Z.to_nat (hi - lo + 1) - Z.to_nat n)%nat
      with (List.length (date_range lo (hi - n)))
      by (rewrite date_range_length; lia).
    now rewrite skipn_length_app.
Qed.

Lemma assoc_skipn {V : Type} (d : Timestamp) (k : nat) : forall (ds : list Timestamp) (vs : list V),
  NoDup ds -> In d (skipn k ds) ->
  assoc Z.eqb d (combine (skipn k ds) (skipn k vs)) = assoc Z.eqb d (combine ds vs).
Proof.
  induction k as [| k IH]; intros ds vs Hnd Hin; [reflexivity |].
  destruct ds as [| x ds]; [contradiction |].
  apply NoDup_cons_iff in Hnd as [Hx Hnd]. cbn [skipn] in Hin.
  destruct vs as [| v vs].
  - cbn [skipn combine]. now rewrite !combine_nil.
  - cbn [skipn combine assoc].
    destruct (Z.eqb_spec x d) as [-> | _].
    + exfalso. apply Hx. revert Hin. clear. revert ds.
      induction k as [| k IH]; intros ds H; [assumption |].
      destruct ds as [| y ds]; [contradiction |]. right. now apply IH.
    + now apply IH.
Qed.

Lemma tail_skipn {A B : Type} (n : Z) (l : list A) (l' : list B) :
  List.length l' = List.length l ->
  exists k, tail n l = skipn k l /\ tail n l' = skipn k l'.
Proof.
  intros H. unfold tail. rewrite H. destruct (n <? 0); eexists; split; reflexivity.
Qed.

Lemma report_plot_window (n : Z) (s : calendar_series) (lo hi : Timestamp) :
  0 <= n ->
  cs_date s = date_range lo hi ->
  List.length (cs_values s) = List.length (cs_date s) ->
  shows_last_days n s.
Proof.
  intros Hn Hdates Hlen. exists lo, hi.
  split; [assumption |].
  destruct (tail_skipn n (cs_date s) (cs_values s) Hlen) as (k & Hk & Hk').
  split; [| split].
  - cbn [report_plot cs_date]. rewrite Hdates. now apply tail_date_range.
  - cbn [report_plot cs_date cs_values]. rewrite Hk, Hk', !length_skipn. lia.
  - intros d c Hd. unfold cell. cbn [report_plot cs_date cs_values cs_columns] in *.
    rewrite Hk, Hk' in *. rewrite assoc_skipn; [reflexivity | | assumption].
    rewrite Hdates. apply date_range_NoDup.
Qed.

(** X22. For a window of [n >= 0] days, the rows that a report plots
    from a series of an aggregator are those of its last [n] calendar
    days (of all its days when it has fewer), ending on the last date
    of the series, with the cells the series has on those days. *)
Theorem report_window_is_last_days :
  forall (task_daily_list : list task_daily) (num_date : Z),
    0 <= num_date ->
    (forall s,
        get_assignee_hour_per_day_df (DataFrame_of_records task_daily_list) = Ok s ->
        shows_last_days num_date s) /\
    (forall s,
        get_project_hour_per_day_df (DataFrame_of_records task_daily_list) = Ok s ->
        shows_last_days num_date s).
Proof.
  intros l n Hn.
  assert (Hgen : forall column key,
            column = "assignee" \/ column = "epic_name" ->
            forall s, hour_per_day_df column key (DataFrame_of_records l) = Ok s ->
                      shows_last_days n s).
  { intros column key Hcol s H.
    destruct (series_dates column key Hcol l s H) as (lo & hi & _ & _ & _ & Hd).
    apply (report_plot_window n s lo hi Hn Hd).
    rewrite (series_values column key Hcol l s H). apply length_map. }
  split; intros s H.
  - apply (Hgen "assignee" assignee); auto.
  - apply (Hgen "epic_name" epic_name); auto.
Qed.

Lemma report_window_is_last_days_witness :
  exists s,
    get_assignee_hour_per_day_df (get_task_daily_df ex_merged) = Ok s /\
    shows_last_days 3 s.
Proof.
  eexists. split; [vm_compute; reflexivity |].
  apply (proj1 (report_window_is_last_days (rows (get_task_daily_df ex_merged)) 3
                  ltac:(lia))).
  vm_compute. reflexivity.
Defined.

Lemma skipn_nth {A : Type} (l : list A) : forall i x,
  nth_error l i = Some x -> skipn i l = x :: skipn (S i) l.
Proof.
  induction l as [| y l IH]; intros [| i] x H; try discriminate.
  - inversion H. reflexivity.
  - cbn [nth_error] in H. cbn [skipn]. now apply IH.
Qed.

Lemma color_line_from_eq (palette : list string) (column_list : list string) : forall i,
  color_line_from palette i column_list =
  if (i + List.length column_list <=? List.length palette)%nat
     || (List.length column_list =? 0)%nat
  then Some (combine column_list (skipn i palette))
  else None.
Proof.
  induction column_list as [| c cols IH]; intros i; cbn [color_line_from List.length].
  - now rewrite orb_true_r.
  - rewrite orb_false_r.
    destruct (nth_error palette i) as [color |] eqn:E.
    + rewrite IH. rewrite (skipn_nth palette i color E). cbn [combine].
      assert (Hi : (i < List.length palette)%nat) by (apply nth_error_Some; congruence).
      destruct (Nat.leb_spec (i + S (List.length cols)) (List.length palette));
        destruct (Nat.leb_spec (S i + List.length cols) (List.length palette)); try lia.
      * reflexivity.
      * destruct cols as [| c' cols]; cbn [List.length] in *; [lia |]. reflexivity.
    + apply nth_error_None in E.
      destruct (Nat.leb_spec (i + S (List.length cols)) (List.length palette)); [lia |].
      reflexivity.
Qed.

(** X23. The colour table of a chart can be built exactly when the
    palette has at least as many colours as there are key columns: then
    the columns get the first colours of the palette in order, and with
    more columns than colours the construction fails. *)
Theorem color_line_dict_needs_enough_colors :
  forall (palette column_list : list string),
    (color_line_dict palette column_list = None <->
     (List.length palette < List.length column_list)%nat) /\
    ((List.length column_list <= List.length palette)%nat ->
     color_line_dict palette column_list = Some (combine column_list palette)).
Proof.
  intros palette cols. unfold color_line_dict. rewrite color_line_from_eq.
  cbn [Nat.add skipn].
  destruct (Nat.leb_spec (List.length cols) (List.length palette)) as [Hle | Hgt];
    cbn [orb].
  - split; [split; [discriminate | lia] | reflexivity].
  - destruct (Nat.eqb_spec (List.length cols) 0) as [E | _]; [lia |].
    split; [split; [lia | reflexivity] | lia].
Qed.

(** ** main, from the tables read to the tables written *)

Lemma epic_keys (epics : list epic_raw) :
  map ep_userstory_id (flat_map epic_rows epics) = named_stories epics.
Proof.
  unfold named_stories. rewrite map_flat_map. apply flat_map_ext. intros e.
  unfold epic_rows. now rewrite map_map.
Qed.

Lemma hard_coded_row_has_record (row : merged_row) :
  task_daily_of_row get_holiday_list row <> [].
Proof.
  pose proof (hard_coded_rows_work [row] row (or_introl eq_refl)) as H.
  rewrite task_daily_of_row_eq. cbv zeta. unfold working_day_count in H.
  destruct (filter (is_working_day get_holiday_list) _); [cbn in H; lia | discriminate].
Qed.

(** Some record has a key exactly when some row has one. *)
Lemma some_record_has_key (key : task_daily -> option string)
    (row_key : merged_row -> option string) (m : list merged_row) :
  (forall row r, In r (task_daily_of_row get_holiday_list row) -> key r = row_key row) ->
  ((exists r, In r (flat_map (task_daily_of_row get_holiday_list) m) /\ key r <> None)
   <-> exists row, In row m /\ row_key row <> None).
Proof.
  intros Hkey. split.
  - intros (r & Hr & Hk). apply in_flat_map in Hr as (row & Hrow & Hr).
    exists row. split; [assumption |]. rewrite <- (Hkey row r Hr). exact Hk.
  - intros (row & Hrow & Hk).
    destruct (task_daily_of_row get_holiday_list row) as [| r rest] eqn:E;
      [now destruct (hard_coded_row_has_record row) |].
    exists r. split.
    + apply in_flat_map. exists row. split; [assumption |]. rewrite E. now left.
    + rewrite (Hkey row r); [assumption |]. rewrite E. now left.
Qed.

Lemma Forall2_exists_iff {A B : Type} (R : A -> B -> Prop) (P : A -> Prop) (Q : B -> Prop)
    (l : list A) (l' : list B) :
  Forall2 R l l' ->
  (forall a b, R a b -> (P a <-> Q b)) ->
  ((exists a, In a l /\ P a) <-> (exists b, In b l' /\ Q b)).
Proof.
  intros HF HR. induction HF as [| a b l l' Hab _ IH].
  - split; intros (x & [] & _).
  - split.
    + intros (x & [<- | Hx] & Hp).
      * exists b. split; [now left | now apply (HR a b Hab)].
      * destruct (proj1 IH (ex_intro _ x (conj Hx Hp))) as (y & Hy & Hq).
        exists y. split; [now right | assumption].
    + intros (y & [<- | Hy] & Hq).
      * exists a. split; [now left | now apply (HR a b Hab)].
      * destruct (proj2 IH (ex_intro _ y (conj Hy Hq))) as (x & Hx & Hp).
        exists x. split; [now right | assumption].
Qed.

Lemma find_not_none_iff {R : Type} (rkey : R -> Z) (k : Z) (right : list R) :
  find (fun r => rkey r =? k) right <> None <-> In k (map rkey right).
Proof.
  split.
  - intros H. destruct (find (fun r => rkey r =? k) right) as [r |] eqn:E; [| contradiction].
    apply find_some in E as [Hin Hk]. apply in_map_iff. exists r. split; [lia | assumption].
  - intros H E. apply in_map_iff in H as (r & Hk & Hin).
    apply (find_none _ _ E) in Hin. lia.
Qed.

Lemma assignee_row_exists (tasks : list task_raw) (ts : list task)
    (us : list userstory) (rows : list epic) :
  Forall2 (fun t x =>
             task_id x = t_ref t /\
             t_user_story t = Some (userstory_id x) /\
             assigned_to x = t_assigned_to t /\
             start_date x = t_start_date t /\
             end_date x = t_end_date t /\
             actual_time x = t_actual_time t) tasks ts ->
  ((exists row, In row (merged_rows_of ts us rows) /\ row_assigned_to_task row <> None)
   <-> exists t, In t tasks /\ t_assigned_to t <> None).
Proof.
  intros HF. symmetry.
  rewrite (Forall2_exists_iff _ (fun t => t_assigned_to t <> None)
             (fun x => assigned_to x <> None) tasks ts HF).
  - unfold merged_rows_of. split.
    + intros (x & Hx & Hp). eexists. split; [apply in_map; exact Hx | exact Hp].
    + intros (row & Hrow & Hp). apply in_map_iff in Hrow as (x & <- & Hx).
      exists x. split; assumption.
  - intros t x (_ & _ & -> & _). reflexivity.
Qed.

Lemma epic_row_exists (tasks : list task_raw) (ts : list task)
    (us : list userstory) (rows : list epic) :
  Forall2 (fun t x =>
             task_id x = t_ref t /\
             t_user_story t = Some (userstory_id x) /\
             assigned_to x = t_assigned_to t /\
             start_date x = t_start_date t /\
             end_date x = t_end_date t /\
             actual_time x = t_actual_time t) tasks ts ->
  ((exists row, In row (merged_rows_of ts us rows) /\ row_epic_name row <> None)
   <-> exists t, In t tasks /\
                 exists n, t_user_story t = Some n /\ In n (map ep_userstory_id rows)).
Proof.
  intros HF. symmetry.
  rewrite (Forall2_exists_iff _
             (fun t => exists n, t_user_story t = Some n /\ In n (map ep_userstory_id rows))
             (fun x => In (userstory_id x) (map ep_userstory_id rows)) tasks ts HF).
  - unfold merged_rows_of. split.
    + intros (x & Hx & Hp). eexists. split; [apply in_map; exact Hx |].
      unfold row_epic_name. cbn [row_epic row_task].
      apply find_not_none_iff in Hp.
      destruct (find _ rows); [discriminate | contradiction].
    + intros (row & Hrow & Hp). apply in_map_iff in Hrow as (x & <- & Hx).
      exists x. split; [assumption |]. apply find_not_none_iff.
      unfold row_epic_name in Hp. cbn [row_epic row_task] in Hp.
      destruct (find _ rows); [discriminate | contradiction].
  - intros t x (_ & Hu & _). rewrite Hu. split.
    + intros (n & E & Hn). injection E as ->. exact Hn.
    + intros H. now exists (userstory_id x).
Qed.

Lemma main_tables_ok (tasks : list task_raw) (userstories : list userstory_raw)
    (epics : list epic_raw) (tables : report_tables) :
  main_tables tasks userstories epics = Ok tables ->
  exists ts rows,
    preprocess_tasks tasks = Ok ts /\
    preprocess_epics epics = Ok rows /\
    merge_data ts (preprocess_userstories userstories) rows = Ok (merge_data_df tables) /\
    task_daily_df tables = get_task_daily_df (merge_data_df tables) /\
    get_assignee_hour_per_day_df (task_daily_df tables)
      = Ok (assignee_hour_per_day_df tables) /\
    get_project_hour_per_day_df (task_daily_df tables)
      = Ok (project_hour_per_day_df tables).
Proof.
  unfold main_tables.
  destruct (preprocess_tasks tasks) as [ts |]; cbn [bind]; [| discriminate].
  destruct (preprocess_epics epics) as [rows |]; cbn [bind]; [| discriminate].
  destruct (merge_data ts (preprocess_userstories userstories) rows) as [m |] eqn:Em;
    cbn [bind]; [| discriminate].
  destruct (get_assignee_hour_per_day_df (get_task_daily_df m)) as [a |] eqn:Ea;
    cbn [bind]; [| discriminate].
  destruct (get_project_hour_per_day_df (get_task_daily_df m)) as [p |] eqn:Ep;
    cbn [bind]; [| discriminate].
  intros H. inversion H. cbn. exists ts, rows. repeat split; try reflexivity; assumption.
Qed.

(** X24. [main] gets from the three tables read to the two series only
    when: every task has a user story; every epic names at least one
    user story, with numbers that fit 64 bits; no user story reference
    is repeated in the user-story table; no user story number is named
    twice in the epics file; some task has an assignee; and some task
    belongs to a user story that an epic names. When one of these fails,
    so does [main]. *)
Theorem main_tables_needs :
  forall (tasks : list task_raw) (userstories : list userstory_raw)
         (epics : list epic_raw) (tables : report_tables),
    main_tables tasks userstories epics = Ok tables ->
    (forall t, In t tasks -> t_user_story t <> None) /\
    (forall e, In e epics ->
       occurrences e <> [] /\
       (forall ds, In ds (occurrences e) -> int_of_digits 0 ds <= int64_max)) /\
    NoDup (map u_ref userstories) /\
    NoDup (named_stories epics) /\
    (exists t, In t tasks /\ t_assigned_to t <> None) /\
    (exists t, In t tasks /\
               exists n, t_user_story t = Some n /\ In n (named_stories epics)).
Proof.
  intros tasks us epics tables H.
  apply main_tables_ok in H as (ts & rows & Hts & Hrows & Hm & Hdf & Ha & Hp).
  pose proof (preprocess_tasks_spec tasks) as Hspec. rewrite Hts in Hspec.
  destruct Hspec as [Hstories HF].
  pose proof (proj1 (preprocess_epics_ok_iff epics) (ex_intro _ rows Hrows)) as Hepics.
  pose proof (preprocess_epics_ok epics rows Hrows) as [Hrows' _].
  assert (Hkeys : map ep_userstory_id rows = named_stories epics).
  { rewrite Hrows'. apply epic_keys. }
  apply merge_data_ok in Hm as (H1 & H2 & Hm).
  fold (merged_rows_of ts (preprocess_userstories us) rows) in Hm.
  rewrite Hdf, Hm in Ha, Hp.
  unfold get_task_daily_df, get_task_daily_df_with in Ha, Hp.
  split; [assumption |]. split; [assumption |].
  split; [unfold preprocess_userstories in H1; now rewrite map_map in H1 |].
  split; [now rewrite <- Hkeys |].
  split.
  - apply (assignee_row_exists tasks ts (preprocess_userstories us) rows HF).
    apply (some_record_has_key assignee row_assigned_to_task).
    + intros row r Hr. exact (proj2 (task_daily_of_row_epic get_holiday_list row r Hr)).
    + apply (hour_per_day_df_errors "assignee" assignee (or_introl eq_refl)).
      eexists. exact Ha.
  - rewrite <- Hkeys.
    apply (epic_row_exists tasks ts (preprocess_userstories us) rows HF).
    apply (some_record_has_key epic_name row_epic_name).
    + intros row r Hr. exact (proj1 (task_daily_of_row_epic get_holiday_list row r Hr)).
    + apply (hour_per_day_df_errors "epic_name" epic_name (or_intror eq_refl)).
      eexists. exact Hp.
Qed.

Lemma main_tables_needs_witness :
  NoDup (map u_ref ex_userstories_raw) /\ NoDup (named_stories ex_epics_raw).
Proof.
  destruct (main_tables ex_tasks_raw ex_userstories_raw ex_epics_raw)
    as [tables |] eqn:E; [| vm_compute in E; discriminate].
  destruct (main_tables_needs ex_tasks_raw ex_userstories_raw ex_epics_raw tables E)
    as (_ & _ & H3 & H4 & _).
  split; assumption.
Defined.

Lemma Forall2_In_l {A B : Type} (R : A -> B -> Prop) (l : list A) (l' : list B) (a : A) :
  Forall2 R l l' -> In a l -> exists b, In b l' /\ R a b.
Proof.
  induction 1 as [| x y l l' Hxy _ IH]; intros Hin; [contradiction |].
  destruct Hin as [<- | Hin].
  - exists y. split; [now left | assumption].
  - destruct (IH Hin) as (b & Hb & Hab). exists b. split; [now right | assumption].
Qed.

(** X25. When [main] gets through, the merged table has one row per
    task of the tasks file, in order, the daily table is the expansion
    of the merged table, and no task of the file is lost on the way:
    the daily table has a record with the task's reference and
    assignee, dated on the task's normalized start date, whose hour is
    the task's actual time divided by the working-day count of its
    range. *)
Theorem main_tables_keep_every_task :
  forall (tasks : list task_raw) (userstories : list userstory_raw)
         (epics : list epic_raw) (tables : report_tables),
    main_tables tasks userstories epics = Ok tables ->
    map (fun row => task_id (row_task row)) (merge_data_df tables) = map t_ref tasks /\
    task_daily_df tables = get_task_daily_df (merge_data_df tables) /\
    (forall t, In t tasks ->
       let s := validate_start_date_end_date (t_start_date t) get_holiday_list in
       let e := validate_start_date_end_date (t_end_date t) get_holiday_list in
       let e := if e <? s then s else e in
       exists r,
         In r (rows (task_daily_df tables)) /\
         daily_task_id r = t_ref t /\
         assignee r = t_assigned_to t /\
         date r = s /\
         hour r = (t_actual_time t / inject_Z (get_work_day s e get_holiday_list))%Q).
Proof.
  intros tasks us epics tables H.
  apply main_tables_ok in H as (ts & exploded & Hts & _ & Hm & Hdf & _ & _).
  pose proof (preprocess_tasks_spec tasks) as Hspec. rewrite Hts in Hspec.
  destruct Hspec as [_ HF].
  apply merge_data_ok in Hm as (_ & _ & Hm).
  fold (merged_rows_of ts (preprocess_userstories us) exploded) in Hm.
  split; [| split; [assumption |]].
  - rewrite Hm. unfold merged_rows_of. rewrite map_map. cbn [row_task].
    clear - HF. induction HF as [| t x tasks ts (Hid & _) _ IH]; [reflexivity |].
    cbn [map]. now rewrite Hid, IH.
  - intros t Ht. cbv zeta.
    destruct (Forall2_In_l _ tasks ts t HF Ht)
      as (x & Hx & Hid & _ & Hassignee & Hstart & Hend & Htime).
    set (row := {| row_task := x;
                   row_userstory :=
                     find (fun u => us_userstory_id u =? userstory_id x)
                          (preprocess_userstories us);
                   row_epic := find (fun e => ep_userstory_id e =? userstory_id x) exploded |}).
    assert (Hrow : In row (merge_data_df tables)).
    { rewrite Hm. unfold merged_rows_of. apply in_map_iff. now exists x. }
    pose proof (normalized_range_le get_holiday_list row) as Hle.
    pose proof (normalized_date_is_working_day (start_date (row_task row))) as Hwork.
    pose proof (task_daily_of_row_eq get_holiday_list row) as Heq. cbv zeta in Heq.
    assert (Hrange : normalized_range get_holiday_list row =
              (validate_start_date_end_date (t_start_date t) get_holiday_list,
               if validate_start_date_end_date (t_end_date t) get_holiday_list
                  <? validate_start_date_end_date (t_start_date t) get_holiday_list
               then validate_start_date_end_date (t_start_date t) get_holiday_list
               else validate_start_date_end_date (t_end_date t) get_holiday_list)).
    { unfold normalized_range. subst row. cbn [row_task]. now rewrite Hstart, Hend. }
    rewrite Hrange in Heq, Hle. cbn [fst snd] in Heq, Hle.
    rewrite (date_range_cons _ _ Hle) in Heq. cbn [filter] in Heq.
    replace (start_date (row_task row)) with (t_start_date t) in Hwork
      by (subst row; cbn [row_task]; now rewrite Hstart).
    rewrite Hwork in Heq. cbn [map] in Heq.
    eexists. split.
    + rewrite Hdf. unfold get_task_daily_df, get_task_daily_df_with.
      cbn [DataFrame_of_records rows]. apply in_flat_map. exists row.
      split; [assumption |]. rewrite Heq. left. reflexivity.
    + cbn [daily_task_id assignee date hour]. subst row.
      unfold row_assigned_to_task. cbn [row_task].
      rewrite Hid, Hassignee, Htime. repeat split.
Qed.

Lemma main_tables_keep_every_task_witness :
  exists tables,
    main_tables ex_tasks_raw ex_userstories_raw ex_epics_raw = Ok tables /\
    map (fun row => task_id (row_task row)) (merge_data_df tables) = map t_ref ex_tasks_raw.
Proof.
  eexists. split; [vm_compute; reflexivity |].
  apply (main_tables_keep_every_task ex_tasks_raw ex_userstories_raw ex_epics_raw).
  vm_compute. reflexivity.
Defined.

Lemma find_same_rows {R : Type} (rkey : R -> Z) (k : Z) (right right' : list R) :
  NoDup (map rkey right) -> NoDup (map rkey right') ->
  (forall r, In r right <-> In r right') ->
  find (fun r => rkey r =? k) right = find (fun r => rkey r =? k) right'.
Proof.
  intros Hnd Hnd' Hsame.
  destruct (find (fun r => rkey r =? k) right) as [r |] eqn:E.
  - symmetry. apply (find_key_iff rkey k right' r Hnd').
    apply (find_key_iff rkey k right r Hnd) in E as [Hin Hk].
    split; [now apply Hsame | assumption].
  - destruct (find (fun r => rkey r =? k) right') as [r' |] eqn:E'; [| reflexivity].
    apply (find_key_iff rkey k right' r' Hnd') in E' as [Hin Hk].
    apply Hsame in Hin. apply (find_none _ _ E) in Hin. lia.
Qed.

(** X26. The order of the rows of the user-story table and of the
    exploded epic table does not matter: two merges of the same tasks
    that both go through, on tables with the same rows, return the same
    merged table. *)
Theorem merge_data_ignores_row_order :
  forall (tasks : list task) (userstories userstories' : list userstory)
         (epics epics' : list epic) (m m' : list merged_row),
    merge_data tasks userstories epics = Ok m ->
    merge_data tasks userstories' epics' = Ok m' ->
    (forall u, In u userstories <-> In u userstories') ->
    (forall e, In e epics <-> In e epics') ->
    m = m'.
Proof.
  intros tasks us us' epics epics' m m' H H' Hus Hepics.
  apply merge_data_ok in H as (H1 & H2 & ->).
  apply merge_data_ok in H' as (H1' & H2' & ->).
  apply map_ext. intros t. f_equal; now apply find_same_rows.
Qed.

Lemma merge_data_ignores_row_order_witness :
  exists m',
    merge_data ex_tasks (rev ex_userstories) (rev ex_epics) = Ok m' /\
    ex_merged = m'.
Proof.
  eexists. split; [vm_compute; reflexivity |].
  apply (merge_data_ignores_row_order ex_tasks ex_userstories (rev ex_userstories)
           ex_epics (rev ex_epics) ex_merged _ eq_refl).
  - vm_compute. reflexivity.
  - intros u. apply in_rev.
  - intros e. apply in_rev.
Defined.
